(** * kafka-http-proxy: the broker pool, the session facades and the read loop

    A shallow embedding of the Go sources of the proxy: the client
    (pool of broker connections, metadata cache, consumer / producer /
    offset-coordinator facades) and the GET handler with its adaptive
    read loop.

    Conventions.
    - Go's [int32] and [int64] are [Z] with the wrap-around written out
      ([int32], [int64] below); [time.Duration] is an [int64] of
      nanoseconds.
    - A buffered channel of broker ids is its FIFO buffer.  Both queues are
      created with capacity [NumConns] and only the [NumConns] ids circulate
      in them, so a send finds room; the model enqueues.
    - The broker library, the timers and the clock are not part of the
      program.  Each call into them takes its answer from an argument (at
      the client level) or from an environment indexed by the number of
      interactions made so far (at the handler level).
    - A handler runs alone on its client: what other requests and the
      background goroutines do to the pool meanwhile is not interleaved. *)

From Stdlib Require Import ZArith List Bool Ascii String Lia.
From stdpp Require Import base gmap strings list.

Local Open Scope Z_scope.

(** ** Machine integers *)

Definition wrap (bits x : Z) : Z :=
  (x + 2 ^ (bits - 1)) mod 2 ^ bits - 2 ^ (bits - 1).

Definition int32 (x : Z) : Z := wrap 32 x.
Definition int64 (x : Z) : Z := wrap 64 x.

Definition add32 (a b : Z) : Z := int32 (a + b).
Definition sub32 (a b : Z) : Z := int32 (a - b).
Definition mul32 (a b : Z) : Z := int32 (a * b).
Definition add64 (a b : Z) : Z := int64 (a + b).
Definition sub64 (a b : Z) : Z := int64 (a - b).
Definition neg64 (a : Z) : Z := int64 (- a).

Definition min_int32 : Z := - 2 ^ 31.
Definition max_int32 : Z := 2 ^ 31 - 1.
Definition min_int64 : Z := - 2 ^ 63.
Definition max_int64 : Z := 2 ^ 63 - 1.

Definition is_int32 (x : Z) : Prop := min_int32 <= x <= max_int32.
Definition is_int64 (x : Z) : Prop := min_int64 <= x <= max_int64.

(** ** Errors *)

(** The [iota] block of error numbers; the blank identifier takes 0. *)
Definition KhpErrorNoBrokers : Z := 1.
Definition KhpErrorReadTimeout : Z := 2.
Definition KhpErrorWriteTimeout : Z := 3.
Definition KhpErrorOffsetCommitTimeout : Z := 4.
Definition KhpErrorOffsetFetchTimeout : Z := 5.
Definition KhpErrorConsumerClosed : Z := 6.
Definition KhpErrorProducerClosed : Z := 7.
Definition KhpErrorOffsetCoordinatorClosed : Z := 8.
Definition KhpErrorMetadataReadTimeout : Z := 9.

(** Go's [error] values as the program tells them apart: its own
    [KhpError], the library's [kafka.ErrNoData], the library's
    [*proto.KafkaError] (by error code) and any other error. *)
Inductive error : Type :=
| KhpError (Errno : Z) (message : string)
| KafkaErrNoData
| ProtoKafkaError (code : Z)
| OtherError (text : string).

#[global] Instance error_eq_dec : EqDecision error.
Proof. solve_decision. Defined.

Definition ErrLeaderNotAvailable : error := ProtoKafkaError 5.
Definition KafkaErrReplicaNotAvailable : error := ProtoKafkaError 9.
Definition KafkaErrUnknownTopicOrPartition : error := ProtoKafkaError 3.

(** [_, ok := err.(KhpError)] *)
Definition isKhpError (e : error) : bool :=
  match e with KhpError _ _ => true | _ => false end.

(** The type assertion of [goErr] to the library's [KafkaError] pointer. *)
Definition isProtoKafkaError (e : error) : bool :=
  match e with ProtoKafkaError _ => true | _ => false end.

(** ** Channels of broker ids *)

Record chan : Type := { buf : list Z; closed : bool }.

Definition make_chan : chan := {| buf := []; closed := false |}.

(** [c <- v] *)
Definition send (c : chan) (v : Z) : chan :=
  {| buf := buf c ++ [v]; closed := closed c |}.

(** [select { case v, ok := <-c: ... default: }]: [Some (v, ok)] when the
    receive is ready, [None] when the default branch is taken. *)
Definition try_recv (c : chan) : option (Z * bool) * chan :=
  match buf c with
  | v :: rest => (Some (v, true), {| buf := rest; closed := closed c |})
  | [] => if closed c then (Some (0, false), c) else (None, c)
  end.

(** ** Metadata responses *)

Record MetadataRespPartition : Type := {
  ID : Z;
  PLeader : Z;
  Isrs : list Z;
  PartitionErr : option error
}.

Record MetadataRespTopic : Type := {
  Name : string;
  TopicErr : option error;
  TPartitions : list MetadataRespPartition
}.

(** [KafkaMetadata]: [Metadata m] is [m.Metadata.Topics], the topic records of
    the wrapped response.  The fields [Leader] and [Partitions] of the
    library's records are [PLeader] and [TPartitions] here, the names
    [Leader] and [Partitions] being those of the queries below. *)
Record KafkaMetadata : Type := { Metadata : list MetadataRespTopic }.

(** ** The client *)

(** The two gauges [NewClient] creates in [Counters]; the counter of the
    metrics library is kept as an integer. *)
Record Counters : Type := { DeadBrokers : Z; FreeBrokers : Z }.

Record KafkaClient : Type := {
  GetMetadataTimeout : Z;
  MetadataCachePeriod : Z;
  GetOffsetsTimeout : Z;
  ReconnectPeriod : Z;
  deadBrokers : chan;
  freeBrokers : chan;
  lastMetadata : option KafkaMetadata;
  lastUpdateMetadata : Z;
  counters : Counters
}.

Definition with_free (k : KafkaClient) (c : chan) (n : Z) : KafkaClient :=
  {| GetMetadataTimeout := GetMetadataTimeout k;
     MetadataCachePeriod := MetadataCachePeriod k;
     GetOffsetsTimeout := GetOffsetsTimeout k;
     ReconnectPeriod := ReconnectPeriod k;
     deadBrokers := deadBrokers k;
     freeBrokers := c;
     lastMetadata := lastMetadata k;
     lastUpdateMetadata := lastUpdateMetadata k;
     counters := {| DeadBrokers := DeadBrokers (counters k); FreeBrokers := n |} |}.

Definition with_dead (k : KafkaClient) (c : chan) (n : Z) : KafkaClient :=
  {| GetMetadataTimeout := GetMetadataTimeout k;
     MetadataCachePeriod := MetadataCachePeriod k;
     GetOffsetsTimeout := GetOffsetsTimeout k;
     ReconnectPeriod := ReconnectPeriod k;
     deadBrokers := c;
     freeBrokers := freeBrokers k;
     lastMetadata := lastMetadata k;
     lastUpdateMetadata := lastUpdateMetadata k;
     counters := {| DeadBrokers := n; FreeBrokers := FreeBrokers (counters k) |} |}.

Definition NoBrokers : error := KhpError KhpErrorNoBrokers "no brokers available".

(** [getBroker]: a receive from [freeBrokers] with a [default] branch. *)
Definition getBroker (k : KafkaClient) : (Z * option error) * KafkaClient :=
  match try_recv (freeBrokers k) with
  | (Some (brokerID, true), c) =>
      ((brokerID, None), with_free k c (FreeBrokers (counters k) - 1))
  | (Some (_, false), _) => ((0, Some NoBrokers), k)
  | (None, _) => ((0, Some NoBrokers), k)
  end.

Definition freeBroker (brokerID : Z) (k : KafkaClient) : KafkaClient :=
  with_free k (send (freeBrokers k) brokerID) (FreeBrokers (counters k) + 1).

Definition deadBroker (brokerID : Z) (k : KafkaClient) : KafkaClient :=
  with_dead k (send (deadBrokers k) brokerID) (DeadBrokers (counters k) + 1).

(** ** Calls raced against a deadline

    Every guarded operation starts the library call on a goroutine and
    selects between its completion and a timer.  [outcome] is what the call
    delivers; [late] says the call has not delivered when the deadline
    passes.  The timer is armed only for a positive timeout
    ([if timeout > 0 { time.AfterFunc ... }]); with no timer the select
    waits for the call, whose answer is then [outcome]. *)

Record attempt (A : Type) : Type := { outcome : A; late : bool }.
Arguments outcome {A} _.
Arguments late {A} _.

Definition on_time {A : Type} (a : A) : attempt A := {| outcome := a; late := false |}.
Definition too_late {A : Type} (a : A) : attempt A := {| outcome := a; late := true |}.

(** The [case <-timeout] branch of the select is taken. *)
Definition timer_fires {A : Type} (timeout : Z) (a : attempt A) : bool :=
  (0 <? timeout) && late a.

Definition ReadTimeout : error := KhpError KhpErrorReadTimeout "Read timeout".
Definition MetadataReadTimeout : error :=
  KhpError KhpErrorMetadataReadTimeout "Read timeout".

(** *** GetOffsets

    Two goroutines fetch the earliest and the latest offset and send their
    final error on [results]; the caller runs the select once per entry of
    [offsets].  [first_select] and [second_select] are what the two selects
    see, [earliest] and [latest] what the slots [offsets[0].result] and
    [offsets[1].result] hold when the function returns. *)
Record offsetsRun : Type := {
  first_select : attempt (option error);
  second_select : attempt (option error);
  earliest : Z;
  latest : Z
}.

(** One round of the [for _ = range offsets { select ... }] loop on the pair
    ([isTimeout], [err]).  Both [break] statements leave the select only, so
    the round ends and the loop goes on. *)
Definition offsets_select (timeout : Z) (a : attempt (option error))
    (st : bool * option error) : bool * option error :=
  if timer_fires timeout a then (true, Some ReadTimeout)
  else (fst st, outcome a).

Definition GetOffsets (topic : string) (partitionID : Z) (run : offsetsRun)
    (k : KafkaClient) : (Z * Z * option error) * KafkaClient :=
  match getBroker k with
  | ((_, Some err), k) => ((0, 0, Some err), k)
  | ((brokerID, None), k) =>
      let st := (false, None) in
      let st := offsets_select (GetOffsetsTimeout k) (first_select run) st in
      let st := offsets_select (GetOffsetsTimeout k) (second_select run) st in
      let k := if fst st then deadBroker brokerID k else freeBroker brokerID k in
      ((earliest run, latest run, snd st), k)
  end.

(** *** GetMetadata and the cache

    A metadata value the caller must not use (a nil response) is [None]. *)
Definition GetMetadata (a : attempt (KafkaMetadata + error)) (k : KafkaClient)
    : (option KafkaMetadata * option error) * KafkaClient :=
  match getBroker k with
  | ((_, Some err), k) => ((None, Some err), k)
  | ((brokerID, None), k) =>
      if timer_fires (GetMetadataTimeout k) a then
        ((None, Some MetadataReadTimeout), deadBroker brokerID k)
      else
        match outcome a with
        | inl meta => ((Some meta, None), freeBroker brokerID k)
        | inr kafkaErr => ((None, Some kafkaErr), freeBroker brokerID k)
        end
  end.

(** [now] is [time.Now().UnixNano()]. *)
Definition FetchMetadata (now : Z) (a : attempt (KafkaMetadata + error))
    (k : KafkaClient) : (option KafkaMetadata * option error) * KafkaClient :=
  if (0 <? MetadataCachePeriod k) && (0 <? lastUpdateMetadata k) then
    let period := sub64 now (lastUpdateMetadata k) in
    let period := if period <? 0 then neg64 period else period in
    if period <? int64 (MetadataCachePeriod k) then ((lastMetadata k, None), k)
    else GetMetadata a k
  else GetMetadata a k.

(** ** Queries over a metadata snapshot *)

Fixpoint Topics_loop (ts : list MetadataRespTopic) (topics : list string)
    : option (list string) * option error :=
  match ts with
  | [] => (Some topics, None)
  | topic :: ts =>
      match TopicErr topic with
      | Some e =>
          if bool_decide (e = ErrLeaderNotAvailable)
          then Topics_loop ts (topics ++ [Name topic])
          else (None, Some e)
      | None => Topics_loop ts (topics ++ [Name topic])
      end
  end.

Definition Topics (m : KafkaMetadata) : option (list string) * option error :=
  Topics_loop (Metadata m) [].

Fixpoint inTopics_loop (ts : list MetadataRespTopic) (name : string)
    : bool * option error :=
  match ts with
  | [] => (false, None)
  | topic :: ts =>
      match TopicErr topic with
      | Some e => (false, Some e)
      | None =>
          if bool_decide (name = Name topic) then (true, None)
          else inTopics_loop ts name
      end
  end.

Definition inTopics (m : KafkaMetadata) (name : string) : bool * option error :=
  inTopics_loop (Metadata m) name.

Inductive partitionType : Type :=
| allPartitions | writablePartitions | maxPartitionIndex.

#[global] Instance partitionType_eq_dec : EqDecision partitionType.
Proof. solve_decision. Defined.

Fixpoint partitions_of (ps : list MetadataRespPartition) (pType : partitionType)
    (partitions : list Z) : list Z :=
  match ps with
  | [] => partitions
  | p :: ps =>
      if bool_decide (pType = writablePartitions)
         && bool_decide (PartitionErr p = Some ErrLeaderNotAvailable)
      then partitions_of ps pType partitions
      else partitions_of ps pType (partitions ++ [ID p])
  end.

Fixpoint getPartitions_loop (ts : list MetadataRespTopic) (topic : string)
    (pType : partitionType) (partitions : list Z)
    : option (list Z) * option error :=
  match ts with
  | [] => (Some partitions, None)
  | t :: ts =>
      match TopicErr t with
      | Some e => (None, Some e)
      | None =>
          if negb (bool_decide (Name t = topic))
          then getPartitions_loop ts topic pType partitions
          else getPartitions_loop ts topic pType
                 (partitions_of (TPartitions t) pType partitions)
      end
  end.

Definition getPartitions (m : KafkaMetadata) (topic : string)
    (pType : partitionType) : option (list Z) * option error :=
  getPartitions_loop (Metadata m) topic pType [].

Definition Partitions (m : KafkaMetadata) (topic : string) :=
  getPartitions m topic allPartitions.

Definition WritablePartitions (m : KafkaMetadata) (topic : string) :=
  getPartitions m topic writablePartitions.

(** The inner [for _, p := range t.Partitions] of [Leader]: the leader of
    the first partition record with the wanted id, if any. *)
Fixpoint Leader_partitions (ps : list MetadataRespPartition) (partitionID : Z)
    : option Z :=
  match ps with
  | [] => None
  | p :: ps =>
      if negb (ID p =? partitionID) then Leader_partitions ps partitionID
      else Some (PLeader p)
  end.

Fixpoint Leader_loop (ts : list MetadataRespTopic) (topic : string)
    (partitionID : Z) : Z * option error :=
  match ts with
  | [] => (-1, None)
  | t :: ts =>
      match TopicErr t with
      | Some e => (-1, Some e)
      | None =>
          if negb (bool_decide (Name t = topic))
          then Leader_loop ts topic partitionID
          else
            match Leader_partitions (TPartitions t) partitionID with
            | Some leader => (leader, None)
            | None => Leader_loop ts topic partitionID
            end
      end
  end.

Definition Leader (m : KafkaMetadata) (topic : string) (partitionID : Z)
    : Z * option error :=
  Leader_loop (Metadata m) topic partitionID.

Fixpoint Replicas_partitions (ps : list MetadataRespPartition) (partitionID : Z)
    : option (list Z) :=
  match ps with
  | [] => None
  | p :: ps =>
      if negb (ID p =? partitionID) then Replicas_partitions ps partitionID
      else Some (Isrs p)
  end.

Fixpoint Replicas_loop (ts : list MetadataRespTopic) (topic : string)
    (partitionID : Z) : list Z * option error :=
  match ts with
  | [] => ([], None)
  | t :: ts =>
      match TopicErr t with
      | Some e => ([], Some e)
      | None =>
          if negb (bool_decide (Name t = topic))
          then Replicas_loop ts topic partitionID
          else
            match Replicas_partitions (TPartitions t) partitionID with
            | Some isr => (isr, None)
            | None => Replicas_loop ts topic partitionID
            end
      end
  end.

Definition Replicas (m : KafkaMetadata) (topic : string) (partitionID : Z)
    : list Z * option error :=
  Replicas_loop (Metadata m) topic partitionID.

(** ** Configuration

    The fields of [Config] the modelled code reads itself.  The retry
    limits, waits and request timeouts are copied into the library's
    configuration and read by the library only. *)
Record Config : Type := {
  Producer_SendMessageTimeout : Z;
  Consumer_GetMessageTimeout : Z;
  Consumer_MinFetchSize : Z;
  Consumer_MaxFetchSize : Z;
  Consumer_DefaultFetchSize : Z;
  OffsetCoordinator_CommitOffsetTimeout : Z;
  OffsetCoordinator_FetchOffsetTimeout : Z
}.

(** [cfg.Consumer.MaxFetchSize = n] on a copy of the configuration. *)
Definition with_MaxFetchSize (cfg : Config) (n : Z) : Config :=
  {| Producer_SendMessageTimeout := Producer_SendMessageTimeout cfg;
     Consumer_GetMessageTimeout := Consumer_GetMessageTimeout cfg;
     Consumer_MinFetchSize := Consumer_MinFetchSize cfg;
     Consumer_MaxFetchSize := n;
     Consumer_DefaultFetchSize := Consumer_DefaultFetchSize cfg;
     OffsetCoordinator_CommitOffsetTimeout := OffsetCoordinator_CommitOffsetTimeout cfg;
     OffsetCoordinator_FetchOffsetTimeout := OffsetCoordinator_FetchOffsetTimeout cfg |}.

(** [proto.Message], the fields the proxy reads. *)
Record ProtoMessage : Type := { Offset : Z; Value : string }.

(** ** Session facades

    A facade holds the borrowed id, the [opened] flag and its timeouts; the
    client it points to is the [KafkaClient] threaded through the calls. *)

Module KafkaConsumer.

Record t : Type := { brokerID : Z; opened : bool; GetMessageTimeout : Z }.

Definition closed_handle (c : t) : t :=
  {| brokerID := brokerID c; opened := false;
     GetMessageTimeout := GetMessageTimeout c |}.

Definition Close (c : t) (k : KafkaClient) : t * KafkaClient :=
  if opened c then (closed_handle c, freeBroker (brokerID c) k) else (c, k).

Definition Corrupt (c : t) (k : KafkaClient) : t * KafkaClient :=
  if negb (opened c) then (c, k)
  else (closed_handle c, deadBroker (brokerID c) k).

Definition ConsumerClosed : error :=
  KhpError KhpErrorConsumerClosed "Read from closed consumer".

Definition Message (a : attempt (ProtoMessage + error)) (c : t)
    (k : KafkaClient) : (ProtoMessage + error) * t * KafkaClient :=
  if negb (opened c) then (inr ConsumerClosed, c, k)
  else if timer_fires (GetMessageTimeout c) a then
    let '(c, k) := Corrupt c k in (inr ReadTimeout, c, k)
  else (outcome a, c, k).

End KafkaConsumer.

(** [created] is the error of [k.allBrokers[brokerID].Consumer(conf)]. *)
Definition NewConsumer (settings : Config) (topic : string)
    (partitionID offset : Z) (created : option error) (k : KafkaClient)
    : (KafkaConsumer.t + error) * KafkaClient :=
  match getBroker k with
  | ((_, Some err), k) => (inr err, k)
  | ((brokerID, None), k) =>
      match created with
      | Some err => (inr err, freeBroker brokerID k)
      | None =>
          (inl {| KafkaConsumer.brokerID := brokerID;
                  KafkaConsumer.opened := true;
                  KafkaConsumer.GetMessageTimeout :=
                    Consumer_GetMessageTimeout settings |}, k)
      end
  end.

Module KafkaProducer.

Record t : Type := { brokerID : Z; opened : bool; SendMessageTimeout : Z }.

Definition closed_handle (p : t) : t :=
  {| brokerID := brokerID p; opened := false;
     SendMessageTimeout := SendMessageTimeout p |}.

Definition Close (p : t) (k : KafkaClient) : t * KafkaClient :=
  if opened p then (closed_handle p, freeBroker (brokerID p) k) else (p, k).

Definition Corrupt (p : t) (k : KafkaClient) : t * KafkaClient :=
  if negb (opened p) then (p, k)
  else (closed_handle p, deadBroker (brokerID p) k).

Definition ProducerClosed : error :=
  KhpError KhpErrorProducerClosed "Write to closed producer".
Definition WriteTimeout : error :=
  KhpError KhpErrorWriteTimeout "Write timeout".

(** The call delivers [(kafkaOffset, kafkaErr)]; the result is
    [(offset, err)]. *)
Definition SendMessage (topic : string) (partitionID : Z) (message : string)
    (a : attempt (Z * option error)) (p : t) (k : KafkaClient)
    : (Z * option error) * t * KafkaClient :=
  if negb (opened p) then ((0, Some ProducerClosed), p, k)
  else if timer_fires (SendMessageTimeout p) a then
    let '(p, k) := Corrupt p k in ((0, Some WriteTimeout), p, k)
  else (outcome a, p, k).

End KafkaProducer.

Definition NewProducer (settings : Config) (k : KafkaClient)
    : (KafkaProducer.t + error) * KafkaClient :=
  match getBroker k with
  | ((_, Some err), k) => (inr err, k)
  | ((brokerID, None), k) =>
      (inl {| KafkaProducer.brokerID := brokerID;
              KafkaProducer.opened := true;
              KafkaProducer.SendMessageTimeout :=
                Producer_SendMessageTimeout settings |}, k)
  end.

Module KafkaOffsetCoordinator.

Record t : Type := {
  brokerID : Z;
  opened : bool;
  CommitOffsetTimeout : Z;
  FetchOffsetTimeout : Z
}.

Definition closed_handle (p : t) : t :=
  {| brokerID := brokerID p; opened := false;
     CommitOffsetTimeout := CommitOffsetTimeout p;
     FetchOffsetTimeout := FetchOffsetTimeout p |}.

Definition Close (p : t) (k : KafkaClient) : t * KafkaClient :=
  if opened p then (closed_handle p, freeBroker (brokerID p) k) else (p, k).

Definition Corrupt (p : t) (k : KafkaClient) : t * KafkaClient :=
  if negb (opened p) then (p, k)
  else (closed_handle p, deadBroker (brokerID p) k).

Definition ClosedOnCommit : error :=
  KhpError KhpErrorOffsetCoordinatorClosed "Write to closed offset coordinator".
Definition ClosedOnFetch : error :=
  KhpError KhpErrorOffsetCoordinatorClosed "Read from closed offset coordinator".
Definition OffsetCommitTimeout : error :=
  KhpError KhpErrorOffsetCommitTimeout "Offset commit timeout".
Definition OffsetFetchTimeout : error :=
  KhpError KhpErrorOffsetFetchTimeout "Offset fetch timeout".

Definition CommitOffset (topic : string) (partitionID offset : Z)
    (a : attempt (option error)) (c : t) (k : KafkaClient)
    : option error * t * KafkaClient :=
  if negb (opened c) then (Some ClosedOnCommit, c, k)
  else if timer_fires (CommitOffsetTimeout c) a then
    let '(c, k) := Corrupt c k in (Some OffsetCommitTimeout, c, k)
  else (outcome a, c, k).

(** The call delivers [(kafkaOffset, kafkaMetadata, kafkaErr)]. *)
Definition FetchOffset (topic : string) (partitionID : Z)
    (a : attempt (Z * string * option error)) (c : t) (k : KafkaClient)
    : (Z * string * option error) * t * KafkaClient :=
  if negb (opened c) then ((0, "", Some ClosedOnFetch), c, k)
  else if timer_fires (FetchOffsetTimeout c) a then
    let '(c, k) := Corrupt c k in ((0, "", Some OffsetFetchTimeout), c, k)
  else (outcome a, c, k).

End KafkaOffsetCoordinator.

(** [created] is the error of
    [k.allBrokers[brokerID].OffsetCoordinator(conf)]. *)
Definition NewOffsetCoordinator (settings : Config) (consumerGroup : string)
    (created : option error) (k : KafkaClient)
    : (KafkaOffsetCoordinator.t + error) * KafkaClient :=
  match getBroker k with
  | ((_, Some err), k) => (inr err, k)
  | ((brokerID, None), k) =>
      match created with
      | Some err => (inr err, k)
      | None =>
          (inl {| KafkaOffsetCoordinator.brokerID := brokerID;
                  KafkaOffsetCoordinator.opened := true;
                  KafkaOffsetCoordinator.CommitOffsetTimeout :=
                    OffsetCoordinator_CommitOffsetTimeout settings;
                  KafkaOffsetCoordinator.FetchOffsetTimeout :=
                    OffsetCoordinator_FetchOffsetTimeout settings |}, k)
      end
  end.

(** ** The server side: requests, responses and the world of a handler *)

(** [url.Values]; [Get] returns the first value of a key, or the empty
    string. *)
Abbreviation Values := (gmap string (list string)).

Definition Get (p : Values) (key : string) : string :=
  match p !! key with
  | Some (v :: _) => v
  | _ => ""
  end.

Record kafkaParameters : Type := {
  Topic : string;
  Partition : Z;
  QueryOffset : Z
}.

(** Helpers of the proxy and of Go's library whose code is not part of
    these sources: the string conversions [toInt32] and [toInt64], the
    membership check [inSlice] and [json.Marshal] on the query echo. *)
Record Helpers : Type := {
  toInt32_raw : string -> Z;
  toInt64_raw : string -> Z;
  inSlice : Z -> list Z -> bool;
  json_Marshal : kafkaParameters -> string + error
}.

(** The conversions return an [int32] and an [int64]. *)
Definition toInt32 (H : Helpers) (s : string) : Z := int32 (toInt32_raw H s).
Definition toInt64 (H : Helpers) (s : string) : Z := int64 (toInt64_raw H s).

(** What the handler does to the [HTTPResponse]: the calls of the server's
    response helpers, which are outside these sources, in order. *)
Inductive Out : Type :=
| ErrorResponse (status : Z) (format : string) (arg : option error)
| ErrorOutOfRange (topic : string) (partition offsetFrom offsetTo : Z)
| BeginResponse (status : Z)
| Body (bytes : string)
| EndResponseSuccess.

#[global] Instance Out_eq_dec : EqDecision Out.
Proof. solve_decision. Defined.

Definition StatusOK : Z := 200.
Definition StatusBadRequest : Z := 400.
Definition StatusInternalServerError : Z := 500.
Definition StatusServiceUnavailable : Z := 503.

Definition httpStatusError (err : error) : Z :=
  if isKhpError err then StatusServiceUnavailable
  else StatusInternalServerError.

(** The answers of everything outside the program, by interaction number:
    the clock, the broker library behind the pooled connections with the
    timers racing it, and the liveness of the client connection. *)
Record Env : Type := {
  UnixNano : nat -> Z;
  Broker_Metadata : nat -> attempt (KafkaMetadata + error);
  Broker_Offsets : nat -> offsetsRun;
  Broker_Consumer : nat -> option error;
  Consumer_Consume : nat -> attempt (ProtoMessage + error);
  connIsAlive : nat -> bool
}.

(** The state a handler runs on.  [tick] counts the interactions made so
    far, [response] is what was done to the response, oldest first, and
    [sessions] lists the calls of [NewConsumer] with the fetch budget and
    the start offset they asked for. *)
Record World : Type := {
  Client : KafkaClient;
  MessageSize : gmap string Z;
  tick : nat;
  response : list Out;
  sessions : list (Z * Z)
}.

(** How a run of handler code ends: with a result in a new world, in a
    panic (a nil metadata value is dereferenced), or with the fuel of its
    loops used up. *)
Inductive exec (A : Type) : Type :=
| Done (a : A) (w : World)
| Panic
| OutOfFuel.
Arguments Done {A} _ _.
Arguments Panic {A}.
Arguments OutOfFuel {A}.

Definition M (A : Type) : Type := World -> exec A.

Definition ret {A : Type} (a : A) : M A := fun w => Done a w.

Definition bind {A B : Type} (m : M A) (f : A -> M B) : M B :=
  fun w =>
    match m w with
    | Done a w' => f a w'
    | Panic => Panic
    | OutOfFuel => OutOfFuel
    end.

Notation "'let*' x ':=' m 'in' k" := (bind m (fun x => k))
  (at level 10, x pattern, m at level 100, k at level 200).

Definition panic {A : Type} : M A := fun _ => Panic.
Definition out_of_fuel {A : Type} : M A := fun _ => OutOfFuel.

(** The number of the next interaction. *)
Definition next : M nat :=
  fun w => Done (tick w)
    {| Client := Client w; MessageSize := MessageSize w; tick := S (tick w);
       response := response w; sessions := sessions w |}.

Definition on_client {A : Type} (f : KafkaClient -> A * KafkaClient) : M A :=
  fun w =>
    let '(a, k) := f (Client w) in
    Done a {| Client := k; MessageSize := MessageSize w; tick := tick w;
              response := response w; sessions := sessions w |}.

Definition emit (o : Out) : M unit :=
  fun w => Done tt
    {| Client := Client w; MessageSize := MessageSize w; tick := tick w;
       response := response w ++ [o]; sessions := sessions w |}.

Definition log_session (maxFetchSize offset : Z) : M unit :=
  fun w => Done tt
    {| Client := Client w; MessageSize := MessageSize w; tick := tick w;
       response := response w; sessions := sessions w ++ [(maxFetchSize, offset)] |}.

(** Modelled from the spec: [MessageSize.Get] of the per-topic size hints of
    the server, whose code is not part of these sources; it returns the
    stored value of the topic, or the fallback. *)
Definition MessageSize_Get (topic : string) (fallback : Z) : M Z :=
  fun w => Done (default fallback (MessageSize w !! topic)) w.

(** Modelled from the spec: [MessageSize.Put], which sets the value of the
    topic to the maximum of the current value and the observed one. *)
Definition MessageSize_Put (topic : string) (observed : Z) : M unit :=
  fun w => Done tt
    {| Client := Client w;
       MessageSize :=
         match MessageSize w !! topic with
         | Some current => <[topic := Z.max current observed]> (MessageSize w)
         | None => <[topic := observed]> (MessageSize w)
         end;
       tick := tick w; response := response w; sessions := sessions w |}.

(** The bytes of the success envelope. *)
Definition dquote : string := String "034"%char EmptyString.
Definition open_brace : string := "{".
Definition query_key : string := String.append dquote (String.append "query" (String.append dquote ":")).
Definition messages_key : string :=
  String.append "," (String.append dquote (String.append "messages" (String.append dquote ":["))).
Definition comma : string := ",".
Definition close_all : string := "]}".

(** The variables of [getHandler] that live across the read loop;
    [v_deferred] holds the consumers of the [defer consumer.Close()]
    statements, the latest first, each in the state its round left it in. *)
Record locals : Type := {
  v_offset : Z;
  v_length : Z;
  v_size : Z;
  v_maxSize : Z;
  v_notEnoughSize : bool;
  v_successSent : bool;
  v_deferred : list KafkaConsumer.t
}.

(** How a piece of the loop is left: by falling through to the next round
    of [ConsumeLoop], by [break ConsumeLoop], or by [return]. *)
Inductive flow : Type := NextRound | BreakConsumeLoop | Returned.

#[global] Instance flow_eq_dec : EqDecision flow.
Proof. solve_decision. Defined.

Section Handlers.

Context (H : Helpers) (env : Env) (Cfg : Config).

Definition errorResponse (status : Z) (format : string) (arg : option error)
    : M unit :=
  emit (ErrorResponse status format arg).

Definition Client_FetchMetadata : M (option KafkaMetadata * option error) :=
  let* i := next in
  on_client (FetchMetadata (UnixNano env i) (Broker_Metadata env i)).

Definition Client_GetOffsets (topic : string) (partitionID : Z)
    : M (Z * Z * option error) :=
  let* i := next in
  on_client (GetOffsets topic partitionID (Broker_Offsets env i)).

Definition Client_NewConsumer (cfg : Config) (topic : string)
    (partitionID offset : Z) : M (KafkaConsumer.t + error) :=
  let* i := next in
  let* _ := log_session (Consumer_MaxFetchSize cfg) offset in
  on_client (NewConsumer cfg topic partitionID offset (Broker_Consumer env i)).

Definition consumer_Close (c : KafkaConsumer.t) : M KafkaConsumer.t :=
  on_client (KafkaConsumer.Close c).

Definition consumer_Message (c : KafkaConsumer.t)
    : M ((ProtoMessage + error) * KafkaConsumer.t) :=
  let* i := next in
  on_client (fun k =>
    let '(r, c, k) := KafkaConsumer.Message (Consumer_Consume env i) c k in
    ((r, c), k)).

Definition conn_alive : M bool :=
  let* i := next in ret (connIsAlive env i).

(** *** validRequest *)
Definition validRequest (p : Values) : M bool :=
  let topic := Get p "topic" in
  if bool_decide (topic = "") then
    let* _ := errorResponse StatusBadRequest "Topic name required" None in
    ret false
  else
    let* (meta, err) := Client_FetchMetadata in
    match err with
    | Some err =>
        let* _ := errorResponse (httpStatusError err)
                    "Unable to get metadata: %v" (Some err) in
        ret false
    | None =>
        match meta with
        | None => panic
        | Some meta =>
            let '(found, err) := inTopics meta topic in
            match err with
            | Some err =>
                let* _ := errorResponse (httpStatusError err)
                            "Unable to get topic: %v" (Some err) in
                ret false
            | None =>
                if negb found then
                  let* _ := errorResponse StatusBadRequest "Topic unknown" None in
                  ret false
                else if bool_decide (Get p "partition" = "") then ret true
                else
                  let partition := toInt32 H (Get p "partition") in
                  let '(parts, err) := Partitions meta topic in
                  match err with
                  | Some err =>
                      let* _ := errorResponse (httpStatusError err)
                                  "Unable to get partitions: %v" (Some err) in
                      ret false
                  | None =>
                      if negb (inSlice H partition (default [] parts)) then
                        let* _ := errorResponse StatusBadRequest
                                    "Unknown partition for the specified topic" None in
                        ret false
                      else ret true
                  end
            end
        end
    end.

(** *** getHandler, piece by piece *)

(** [length]: the [limit] parameter, "1" when absent, 1 when not
    positive. *)
Definition limitOf (p : Values) : Z :=
  let varsLength := Get p "limit" in
  let varsLength := if bool_decide (varsLength = "") then "1" else varsLength in
  let length := toInt32 H varsLength in
  if length <=? 0 then 1 else length.

(** [query.Offset] from [relative], [offset] or the oldest offset. *)
Definition resolveOffset (p : Values) (offsetFrom offsetTo : Z) : Z :=
  let varsOffset := Get p "offset" in
  let varsRelative := Get p "relative" in
  if negb (bool_decide (varsRelative = "")) then
    let relative := toInt64 H varsRelative in
    if relative >=? 0 then add64 offsetFrom relative
    else add64 offsetTo relative
  else if negb (bool_decide (varsOffset = "")) then toInt64 H varsOffset
  else offsetFrom.

(** [query.Offset < offsetFrom || query.Offset >= offsetTo] *)
Definition outOfRange (offset offsetFrom offsetTo : Z) : bool :=
  (offset <? offsetFrom) || (offset >=? offsetTo).

(** [cfg.Consumer.MaxFetchSize] of a round: [size * length], cut to the
    configured maximum. *)
Definition fetchBudget (size length : Z) : Z :=
  let maxFetchSize := mul32 size length in
  if maxFetchSize >? Consumer_MaxFetchSize Cfg then Consumer_MaxFetchSize Cfg
  else maxFetchSize.

Definition beginSuccess (queryStr : string) : M unit :=
  let* _ := emit (BeginResponse StatusOK) in
  let* _ := emit (Body open_brace) in
  let* _ := emit (Body query_key) in
  let* _ := emit (Body queryStr) in
  emit (Body messages_key).

Definition set_notEnoughSize (v : locals) (b : bool) : locals :=
  {| v_offset := v_offset v; v_length := v_length v; v_size := v_size v;
     v_maxSize := v_maxSize v; v_notEnoughSize := b;
     v_successSent := v_successSent v; v_deferred := v_deferred v |}.

Definition defer_Close (v : locals) (c : KafkaConsumer.t) : locals :=
  {| v_offset := v_offset v; v_length := v_length v; v_size := v_size v;
     v_maxSize := v_maxSize v; v_notEnoughSize := v_notEnoughSize v;
     v_successSent := v_successSent v; v_deferred := c :: v_deferred v |}.

(** The variables after a message was written. *)
Definition after_message (v : locals) (msg : ProtoMessage) : locals :=
  let len := Z.of_nat (String.length (Value msg)) in
  {| v_offset := add64 (Offset msg) 1;
     v_length := sub32 (v_length v) 1;
     v_size := v_size v;
     v_maxSize := if len >? v_maxSize v then len else v_maxSize v;
     v_notEnoughSize := v_notEnoughSize v;
     v_successSent := true;
     v_deferred := v_deferred v |}.

(** The inner [for]: one message per turn. *)
Fixpoint messageLoop (fuel : nat) (queryStr : string) (offsetTo : Z)
    (consumer : KafkaConsumer.t) (v : locals)
    : M (flow * KafkaConsumer.t * locals) :=
  match fuel with
  | O => out_of_fuel
  | S fuel =>
      let* alive := conn_alive in
      if negb alive then
        let* consumer := consumer_Close consumer in
        ret (Returned, consumer, v)
      else
        let* (r, consumer) := consumer_Message consumer in
        match r with
        | inr err =>
            if bool_decide (err = KafkaErrNoData) then
              ret (NextRound, consumer, set_notEnoughSize v true)
            else
              let* _ := (if negb (v_successSent v) then
                           errorResponse (httpStatusError err)
                             "Unable to get message: %v" (Some err)
                         else ret tt) in
              let* consumer := consumer_Close consumer in
              ret (Returned, consumer, v)
        | inl msg =>
            let* _ := (if negb (v_successSent v) then beginSuccess queryStr
                       else emit (Body comma)) in
            let* _ := emit (Body (Value msg)) in
            let v := after_message v msg in
            if (v_offset v >=? offsetTo) || (v_length v =? 0) then
              let* consumer := consumer_Close consumer in
              ret (BreakConsumeLoop, consumer, v)
            else messageLoop fuel queryStr offsetTo consumer v
        end
  end.

(** The statements after the inner loop: grow the size after "no data",
    or give up at the maximum. *)
Definition growSize (v : locals) : flow * locals :=
  if v_notEnoughSize v then
    if v_size v >=? Consumer_MaxFetchSize Cfg then (BreakConsumeLoop, v)
    else
      (NextRound,
       {| v_offset := v_offset v; v_length := v_length v;
          v_size := add32 (v_size v) (Consumer_DefaultFetchSize Cfg);
          v_maxSize := v_maxSize v; v_notEnoughSize := false;
          v_successSent := v_successSent v; v_deferred := v_deferred v |})
  else (NextRound, v).

(** One round of [ConsumeLoop]. *)
Definition round (fuel : nat) (topic : string) (partition : Z)
    (queryStr : string) (offsetTo : Z) (v : locals) : M (flow * locals) :=
  let cfg := with_MaxFetchSize Cfg (fetchBudget (v_size v) (v_length v)) in
  let* r := Client_NewConsumer cfg topic partition (v_offset v) in
  match r with
  | inr err =>
      let* _ := (if negb (v_successSent v) then
                   errorResponse (httpStatusError err)
                     "Unable to make consumer: %v" (Some err)
                 else ret tt) in
      ret (Returned, v)
  | inl consumer =>
      let* (fl, consumer, v) := messageLoop fuel queryStr offsetTo consumer v in
      match fl with
      | NextRound =>
          let* consumer := consumer_Close consumer in
          ret (growSize (defer_Close v consumer))
      | _ => ret (fl, defer_Close v consumer)
      end
  end.

Fixpoint consumeLoop (fuel : nat) (topic : string) (partition : Z)
    (queryStr : string) (offsetTo : Z) (v : locals) : M (flow * locals) :=
  match fuel with
  | O => out_of_fuel
  | S fuel =>
      let* (fl, v) := round fuel topic partition queryStr offsetTo v in
      match fl with
      | NextRound => consumeLoop fuel topic partition queryStr offsetTo v
      | _ => ret (fl, v)
      end
  end.

(** The deferred [consumer.Close()] calls, run when the handler returns. *)
Fixpoint run_deferred (cs : list KafkaConsumer.t) : M unit :=
  match cs with
  | [] => ret tt
  | c :: cs => let* _ := consumer_Close c in run_deferred cs
  end.

(** The statements after [ConsumeLoop]. *)
Definition finish (topic : string) (queryStr : string) (v : locals) : M unit :=
  let* _ := (if negb (v_successSent v) then beginSuccess queryStr else ret tt) in
  let* _ := emit (Body close_all) in
  let* _ := emit EndResponseSuccess in
  if v_maxSize v >? 0 then MessageSize_Put topic (int32 (v_maxSize v))
  else ret tt.

(** From [cfg := *s.Cfg] to the end of the handler. *)
Definition readMessages (fuel : nat) (topic : string) (partition : Z)
    (queryStr : string) (offset offsetTo length : Z) : M unit :=
  let* size := MessageSize_Get topic (Consumer_DefaultFetchSize Cfg) in
  let v := {| v_offset := offset; v_length := length; v_size := size;
              v_maxSize := 0; v_notEnoughSize := false;
              v_successSent := false; v_deferred := [] |} in
  let* (fl, v) := consumeLoop fuel topic partition queryStr offsetTo v in
  match fl with
  | Returned => run_deferred (v_deferred v)
  | _ =>
      let* _ := finish topic queryStr v in
      run_deferred (v_deferred v)
  end.

Definition getHandler (fuel : nat) (p : Values) : M unit :=
  let topic := Get p "topic" in
  let partition := toInt32 H (Get p "partition") in
  let length := limitOf p in
  let* ok := validRequest p in
  if negb ok then ret tt
  else
    let* (offsetFrom, offsetTo, err) := Client_GetOffsets topic partition in
    match err with
    | Some err =>
        errorResponse (httpStatusError err) "Unable to get offset: %v" (Some err)
    | None =>
        let offset := resolveOffset p offsetFrom offsetTo in
        if outOfRange offset offsetFrom offsetTo then
          emit (ErrorOutOfRange topic partition offsetFrom offsetTo)
        else
          match json_Marshal H {| Topic := topic; Partition := partition;
                                  QueryOffset := offset |} with
          | inr err =>
              errorResponse (httpStatusError err)
                "Unable to marshal json: %v" (Some err)
          | inl queryStr =>
              readMessages fuel topic partition queryStr offset offsetTo length
          end
    end.

End Handlers.

(** ** The rest of the client: start-up and the background goroutines *)

(** [settings.Broker]: the fields [NewClient] reads itself. *)
Record BrokerConfig : Type := {
  NumConns : Z;
  Broker_GetMetadataTimeout : Z;
  Broker_MetadataCachePeriod : Z;
  Broker_GetOffsetsTimeout : Z;
  Broker_ReconnectPeriod : Z
}.

(** The client [NewClient] builds before it dials: empty queues, zero
    gauges, nothing cached. *)
Definition fresh_client (b : BrokerConfig) : KafkaClient :=
  {| GetMetadataTimeout := Broker_GetMetadataTimeout b;
     MetadataCachePeriod := Broker_MetadataCachePeriod b;
     GetOffsetsTimeout := Broker_GetOffsetsTimeout b;
     ReconnectPeriod := Broker_ReconnectPeriod b;
     deadBrokers := make_chan;
     freeBrokers := make_chan;
     lastMetadata := None;
     lastUpdateMetadata := 0;
     counters := {| DeadBrokers := 0; FreeBrokers := 0 |} |}.

(** How [NewClient] ends: with a client, with the error of a dial, or in
    the panic of [make] on a negative channel size.  A size too large for
    [make] to allocate is left out. *)
Inductive started : Type :=
| Started (client : KafkaClient)
| DialFailed (err : error)
| MakeChanPanic.

(** The loop [for brokerID < NumConns], [n] rounds of it from [brokerID];
    [dial brokerID] is the error of the [kafka.Dial] made for that id.
    [brokerID] stays below [NumConns], so [brokerID++] does not wrap. *)
Fixpoint dialLoop (n : nat) (brokerID : Z) (dial : Z -> option error)
    (client : KafkaClient) : started :=
  match n with
  | O => Started client
  | S n =>
      match dial brokerID with
      | Some err => DialFailed err
      | None => dialLoop n (brokerID + 1) dial (freeBroker brokerID client)
      end
  end.

Definition NewClient (b : BrokerConfig) (dial : Z -> option error) : started :=
  if NumConns b <? 0 then MakeChanPanic
  else dialLoop (Z.to_nat (NumConns b)) 0 dial (fresh_client b).

(** [v := <-c]: [None] when the receive has to wait. *)
Definition recv (c : chan) : option (Z * chan) :=
  match buf c with
  | v :: rest => Some (v, {| buf := rest; closed := closed c |})
  | [] => if closed c then Some (0, c) else None
  end.

(** One turn of a goroutine that may have to wait, or that may still be
    in its loop when the fuel is used up. *)
Inductive turn (A : Type) : Type :=
| Turned (a : A)
| Waits
| StillDialing.
Arguments Turned {A} _.
Arguments Waits {A}.
Arguments StillDialing {A}.

(** The dial loop of the reconnect goroutine for one id: dial until a dial
    succeeds, then give the id to the free queue.  [dial n] is the error of
    the dial number [n]. *)
Fixpoint redial (fuel : nat) (dial : nat -> option error) (n : nat) (id : Z)
    (k : KafkaClient) : turn KafkaClient :=
  match fuel with
  | O => StillDialing
  | S fuel =>
      match dial n with
      | None => Turned (freeBroker id k)
      | Some _ => redial fuel dial (S n) id k
      end
  end.

(** One turn of the reconnect goroutine: take an id from the dead queue,
    lower the [DeadBrokers] gauge, and redial for it.  The shutdown case of
    its select is left out. *)
Definition reconnector (fuel : nat) (dial : nat -> option error)
    (k : KafkaClient) : turn KafkaClient :=
  match recv (deadBrokers k) with
  | None => Waits
  | Some (id, c) =>
      redial fuel dial 0 id (with_dead k c (DeadBrokers (counters k) - 1))
  end.

(** One firing of the rolling-reconnect timer. *)
Definition rollingReconnect (k : KafkaClient) : KafkaClient :=
  match getBroker k with
  | ((id, None), k) => deadBroker id k
  | ((_, Some _), k) => k
  end.

Definition with_cache (k : KafkaClient) (meta : option KafkaMetadata) (now : Z)
    : KafkaClient :=
  {| GetMetadataTimeout := GetMetadataTimeout k;
     MetadataCachePeriod := MetadataCachePeriod k;
     GetOffsetsTimeout := GetOffsetsTimeout k;
     ReconnectPeriod := ReconnectPeriod k;
     deadBrokers := deadBrokers k;
     freeBrokers := freeBrokers k;
     lastMetadata := meta;
     lastUpdateMetadata := now;
     counters := counters k |}.

(** One firing of the metadata-refresh timer; [now] is the clock reading
    taken when the snapshot is stored. *)
Definition refreshMetadata (now : Z) (a : attempt (KafkaMetadata + error))
    (k : KafkaClient) : KafkaClient :=
  match GetMetadata a k with
  | ((_, Some _), k) => k
  | ((meta, None), k) => with_cache k meta now
  end.

(** ** The other handlers

    The values the handlers hand to [successResponse]; the field names are
    the ones of the source, each record in a module of its name. *)

Module consumerOffsetInfo.
Record t : Type := {
  Consumer : string;
  Topic : string;
  Partition : Z;
  Offset : Z;
  Metadata : string
}.
End consumerOffsetInfo.

Module responsePartitionInfo.
Record t : Type := {
  Topic : string;
  Partition : Z;
  Leader : Z;
  OffsetOldest : Z;
  OffsetNewest : Z;
  Writable : bool;
  ReplicasNum : Z;
  Replicas : list Z
}.
End responsePartitionInfo.

Module responseTopicListInfo.
Record t : Type := { Topic : string; Partitions : Z }.
End responseTopicListInfo.

(** What the handlers below need from outside the program besides [Env]:
    Go's JSON decoder on the request body, and the broker library behind a
    producer and an offset coordinator, by interaction number.  The decoder
    of [commitOffsetHandler] is given the value the handler prepared and
    returns an error, the value with the fields of the body written over
    it, or no value: the decoder is handed the address of a pointer, and
    sets that pointer to nil on the body [null]. *)
Record Backend : Type := {
  json_Unmarshal_raw : string -> option error;
  json_Unmarshal_info :
    string -> consumerOffsetInfo.t -> option consumerOffsetInfo.t + error;
  Producer_Produce : nat -> attempt (Z * option error);
  Broker_OffsetCoordinator : nat -> option error;
  Coordinator_CommitOffset : nat -> attempt (option error);
  Coordinator_FetchOffset : nat -> attempt (Z * string * option error)
}.

(** The metrics of the server.  A counter and a timer are objects of the
    metrics library, which is not part of the sources; [metrics.Timer] and
    [metrics.Counter] are interfaces there, so a map gives the nil
    interface for a key it does not hold. *)
Inductive Counter : Type := NewCounter.
Inductive Timer : Type := NewTimer.

(** [NewHTTPStatus]: a counter for each of the codes. *)
Definition NewHTTPStatus (codes : list Z) : gmap Z Counter :=
  fold_left (fun HTTPStatus code => <[code := NewCounter]> HTTPStatus) codes ∅.

(** [NewTimings]: a timer for each of the names.  The goroutine that ticks
    the timers is left out. *)
Definition NewTimings (names : list string) : gmap string Timer :=
  fold_left (fun res name => <[name := NewTimer]> res) names ∅.

Record MetricStats : Type := {
  HTTPStatus : gmap Z Counter;
  HTTPResponseTime : gmap string Timer
}.

Definition NewMetricStats : MetricStats :=
  {| HTTPStatus := NewHTTPStatus [200; 400; 404; 405; 416; 500; 502; 503];
     HTTPResponseTime :=
       NewTimings ["GET"; "POST"; "GetTopicList"; "GetTopicInfo";
                   "GetPartitionInfo"; "CommitOffset"] |}.

(** [timings[key].Start()]: the lookup of a key the map does not hold gives
    the nil timer, and the call on it panics.  The deferred [Stop] does
    nothing to what is modelled. *)
Definition Timer_Start (timer : option Timer) : M unit :=
  match timer with
  | Some _ => ret tt
  | None => panic
  end.

Section MoreHandlers.

Context (H : Helpers) (env : Env) (B : Backend) (Cfg : Config).

(** An error response followed by [return].  The result of a handler is
    the value it hands to [successResponse], its last statement, when it
    gets there; the numbers of a format with several arguments are not
    kept. *)
Definition refuse {A : Type} (status : Z) (format : string) (arg : option error)
    : M (option A) :=
  let* _ := errorResponse status format arg in
  ret None.

Definition Client_NewProducer : M (KafkaProducer.t + error) :=
  on_client (NewProducer Cfg).

Definition producer_Close (producer : KafkaProducer.t) : M KafkaProducer.t :=
  on_client (KafkaProducer.Close producer).

Definition producer_SendMessage (topic : string) (partitionID : Z)
    (message : string) (producer : KafkaProducer.t)
    : M ((Z * option error) * KafkaProducer.t) :=
  let* i := next in
  on_client (fun k =>
    let '(r, producer, k) :=
      KafkaProducer.SendMessage topic partitionID message
        (Producer_Produce B i) producer k in
    ((r, producer), k)).

Definition Client_NewOffsetCoordinator (consumerGroup : string)
    : M (KafkaOffsetCoordinator.t + error) :=
  let* i := next in
  on_client (NewOffsetCoordinator Cfg consumerGroup (Broker_OffsetCoordinator B i)).

Definition offsetCoordinator_Close (c : KafkaOffsetCoordinator.t)
    : M KafkaOffsetCoordinator.t :=
  on_client (KafkaOffsetCoordinator.Close c).

Definition offsetCoordinator_FetchOffset (topic : string) (partitionID : Z)
    (c : KafkaOffsetCoordinator.t)
    : M ((Z * string * option error) * KafkaOffsetCoordinator.t) :=
  let* i := next in
  on_client (fun k =>
    let '(r, c, k) :=
      KafkaOffsetCoordinator.FetchOffset topic partitionID
        (Coordinator_FetchOffset B i) c k in
    ((r, c), k)).

Definition offsetCoordinator_CommitOffset (topic : string)
    (partitionID offset : Z) (c : KafkaOffsetCoordinator.t)
    : M (option error * KafkaOffsetCoordinator.t) :=
  let* i := next in
  on_client (fun k =>
    let '(r, c, k) :=
      KafkaOffsetCoordinator.CommitOffset topic partitionID offset
        (Coordinator_CommitOffset B i) c k in
    ((r, c), k)).

(** *** sendHandler

    [body] is what [ioutil.ReadAll(r.Body)] returned.  The deferred
    [producer.Close()] runs on every way out once the producer exists. *)
Definition sendHandler (body : string + error) (p : Values)
    : M (option kafkaParameters) :=
  let topic := Get p "topic" in
  let partition := toInt32 H (Get p "partition") in
  match body with
  | inr err => refuse StatusBadRequest "Unable to read body: %s" (Some err)
  | inl msg =>
      let len := int32 (Z.of_nat (String.length msg)) in
      if len >? Consumer_MaxFetchSize Cfg then
        refuse StatusBadRequest
          "Message too large: Body size should be less than %d, but it is %d"
          None
      else
        match json_Unmarshal_raw B msg with
        | Some _ => refuse StatusBadRequest "Message must be JSON" None
        | None =>
            let* ok := validRequest H env p in
            if negb ok then ret None
            else
              let* r := Client_NewProducer in
              match r with
              | inr err =>
                  refuse (httpStatusError err)
                    "Unable to make producer: %v" (Some err)
              | inl producer =>
                  let* (sent, producer) :=
                    producer_SendMessage topic partition msg producer in
                  let '(offset, err) := sent in
                  match err with
                  | Some err =>
                      let* _ := errorResponse (httpStatusError err)
                                  "Unable to store your data: %v" (Some err) in
                      let* _ := producer_Close producer in
                      ret None
                  | None =>
                      let* _ := MessageSize_Put topic len in
                      let* _ := producer_Close producer in
                      ret (Some {| Topic := topic; Partition := partition;
                                   QueryOffset := offset |})
                  end
              end
        end
  end.

(** *** getOffsetHandler

    Every handler starts its response timer first.  The keys of the other
    handlers are among those [NewMetricStats] creates, and their models
    leave the timer out; the key of this handler is not, so its model
    takes the server's [Stats] and starts the timer. *)
Definition getOffsetHandler (Stats : MetricStats) (p : Values)
    : M (option consumerOffsetInfo.t) :=
  let* _ := Timer_Start (HTTPResponseTime Stats !! "FetchOffset") in
  let consumer := Get p "consumer" in
  let topic := Get p "topic" in
  let partition := toInt32 H (Get p "partition") in
  let* ok := validRequest H env p in
  if negb ok then ret None
  else if bool_decide (consumer = "") then
    refuse StatusBadRequest "Consumer name must be provided" None
  else
    let* r := Client_NewOffsetCoordinator consumer in
    match r with
    | inr err =>
        refuse (httpStatusError err)
          "Unable to make offset coordinator: %v" (Some err)
    | inl offsetCoordinator =>
        let* (fetched, offsetCoordinator) :=
          offsetCoordinator_FetchOffset topic partition offsetCoordinator in
        let '(offset, metadata, err) := fetched in
        match err with
        | Some err =>
            let* _ := errorResponse (httpStatusError err)
                        "Unable to fetch offset: %v" (Some err) in
            let* _ := offsetCoordinator_Close offsetCoordinator in
            ret None
        | None =>
            let* _ := offsetCoordinator_Close offsetCoordinator in
            ret (Some {| consumerOffsetInfo.Consumer := consumer;
                         consumerOffsetInfo.Topic := topic;
                         consumerOffsetInfo.Partition := partition;
                         consumerOffsetInfo.Offset := offset;
                         consumerOffsetInfo.Metadata := metadata |})
        end
    end.

(** *** commitOffsetHandler

    The handler reads [kafka.Offset] through the pointer the decoder may
    have set to nil. *)
Definition commitOffsetHandler (body : string + error) (p : Values)
    : M (option consumerOffsetInfo.t) :=
  match body with
  | inr err => refuse StatusBadRequest "Unable to read body: %s" (Some err)
  | inl msg =>
      let kafka := {| consumerOffsetInfo.Consumer := "";
                      consumerOffsetInfo.Topic := "";
                      consumerOffsetInfo.Partition := 0;
                      consumerOffsetInfo.Offset := -1;
                      consumerOffsetInfo.Metadata := "" |} in
      match json_Unmarshal_info B msg kafka with
      | inr _ => refuse StatusBadRequest "Request body must be JSON" None
      | inl None => panic
      | inl (Some kafka) =>
          if consumerOffsetInfo.Offset kafka <? 0 then
            refuse StatusBadRequest "Offset must be provided not less than 0" None
          else
            let kafka :=
              {| consumerOffsetInfo.Consumer := Get p "consumer";
                 consumerOffsetInfo.Topic := Get p "topic";
                 consumerOffsetInfo.Partition := toInt32 H (Get p "partition");
                 consumerOffsetInfo.Offset := consumerOffsetInfo.Offset kafka;
                 consumerOffsetInfo.Metadata := consumerOffsetInfo.Metadata kafka |}
            in
            let* ok := validRequest H env p in
            if negb ok then ret None
            else if bool_decide (consumerOffsetInfo.Consumer kafka = "") then
              refuse StatusBadRequest "Consumer name must be provided" None
            else
              let* r :=
                Client_NewOffsetCoordinator (consumerOffsetInfo.Consumer kafka) in
              match r with
              | inr err =>
                  refuse (httpStatusError err)
                    "Unable to make offset coordinator: %v" (Some err)
              | inl offsetCoordinator =>
                  let* (err, offsetCoordinator) :=
                    offsetCoordinator_CommitOffset
                      (consumerOffsetInfo.Topic kafka)
                      (consumerOffsetInfo.Partition kafka)
                      (consumerOffsetInfo.Offset kafka) offsetCoordinator in
                  match err with
                  | Some err =>
                      let* _ := errorResponse (httpStatusError err)
                                  "Unable to commit offset: %v" (Some err) in
                      let* _ := offsetCoordinator_Close offsetCoordinator in
                      ret None
                  | None =>
                      let* _ := offsetCoordinator_Close offsetCoordinator in
                      ret (Some kafka)
                  end
              end
      end
  end.

(** *** getTopicListHandler *)

(** [for _, topic := range topics] *)
Fixpoint topicList_loop (meta : KafkaMetadata) (topics : list string)
    (res : list responseTopicListInfo.t)
    : M (option (list responseTopicListInfo.t)) :=
  match topics with
  | [] => ret (Some res)
  | topic :: topics =>
      let '(parts, err) := Partitions meta topic in
      match err with
      | Some err =>
          refuse (httpStatusError err) "Unable to get partitions: %v" (Some err)
      | None =>
          let info :=
            {| responseTopicListInfo.Topic := topic;
               responseTopicListInfo.Partitions :=
                 Z.of_nat (length (default [] parts)) |} in
          topicList_loop meta topics (res ++ [info])
      end
  end.

Definition getTopicListHandler (p : Values)
    : M (option (list responseTopicListInfo.t)) :=
  let* (meta, err) := Client_FetchMetadata env in
  match err with
  | Some err =>
      refuse (httpStatusError err) "Unable to get metadata: %v" (Some err)
  | None =>
      match meta with
      | None => panic
      | Some meta =>
          let '(topics, err) := Topics meta in
          match err with
          | Some err =>
              refuse (httpStatusError err) "Unable to get topics: %v" (Some err)
          | None => topicList_loop meta (default [] topics) []
          end
      end
  end.

(** *** getPartitionInfoHandler *)
Definition getPartitionInfoHandler (p : Values)
    : M (option responsePartitionInfo.t) :=
  let* ok := validRequest H env p in
  if negb ok then ret None
  else
    let topic := Get p "topic" in
    let partition := toInt32 H (Get p "partition") in
    let* (meta, err) := Client_FetchMetadata env in
    match err with
    | Some err =>
        refuse (httpStatusError err) "Unable to get metadata: %v" (Some err)
    | None =>
        match meta with
        | None => panic
        | Some meta =>
            let '(leader, err) := Leader meta topic partition in
            match err with
            | Some err =>
                refuse (httpStatusError err) "Unable to get broker: %v" (Some err)
            | None =>
                let '(replicas, err) := Replicas meta topic partition in
                match
                  match err with
                  | Some err =>
                      if negb (bool_decide (err = KafkaErrReplicaNotAvailable))
                      then inr err else inl []
                  | None => inl replicas
                  end
                with
                | inr err =>
                    refuse (httpStatusError err)
                      "Unable to get replicas: %v" (Some err)
                | inl replicas =>
                    let* (offsetOldest, offsetNewest, err) :=
                      Client_GetOffsets env topic partition in
                    match err with
                    | Some err =>
                        refuse (httpStatusError err)
                          "Unable to get offset: %v" (Some err)
                    | None =>
                        let '(wp, err) := WritablePartitions meta topic in
                        match err with
                        | Some err =>
                            refuse (httpStatusError err)
                              "Unable to get writable partitions: %v" (Some err)
                        | None =>
                            ret (Some
                              {| responsePartitionInfo.Topic := topic;
                                 responsePartitionInfo.Partition := partition;
                                 responsePartitionInfo.Leader := leader;
                                 responsePartitionInfo.OffsetOldest := offsetOldest;
                                 responsePartitionInfo.OffsetNewest := offsetNewest;
                                 responsePartitionInfo.Writable :=
                                   inSlice H partition (default [] wp);
                                 responsePartitionInfo.ReplicasNum :=
                                   Z.of_nat (length replicas);
                                 responsePartitionInfo.Replicas := replicas |})
                        end
                    end
                end
            end
        end
    end.

(** *** getTopicInfoHandler *)

(** [for partition := range parts]: the loop variable is the index into
    [parts]. *)
Fixpoint topicInfo_loop (meta : KafkaMetadata) (topic : string)
    (writable : list Z) (indices : list nat)
    (res : list responsePartitionInfo.t)
    : M (option (list responsePartitionInfo.t)) :=
  match indices with
  | [] => ret (Some res)
  | partition :: indices =>
      let* alive := conn_alive env in
      if negb alive then ret None
      else
        let partition := int32 (Z.of_nat partition) in
        let '(leader, err) := Leader meta topic partition in
        match err with
        | Some err =>
            refuse (httpStatusError err) "Unable to get broker: %v" (Some err)
        | None =>
            let '(replicas, err) := Replicas meta topic partition in
            match
              match err with
              | Some err =>
                  if negb (bool_decide (err = KafkaErrReplicaNotAvailable))
                  then inr err else inl []
              | None => inl replicas
              end
            with
            | inr err =>
                refuse (httpStatusError err)
                  "Unable to get replicas: %v" (Some err)
            | inl replicas =>
                let* (offsetOldest, offsetNewest, err) :=
                  Client_GetOffsets env topic partition in
                match err with
                | Some err =>
                    refuse (httpStatusError err)
                      "Unable to get offset: %v" (Some err)
                | None =>
                    let r :=
                      {| responsePartitionInfo.Topic := topic;
                         responsePartitionInfo.Partition := partition;
                         responsePartitionInfo.Leader := leader;
                         responsePartitionInfo.OffsetOldest := offsetOldest;
                         responsePartitionInfo.OffsetNewest := offsetNewest;
                         responsePartitionInfo.Writable :=
                           inSlice H partition writable;
                         responsePartitionInfo.ReplicasNum :=
                           Z.of_nat (length replicas);
                         responsePartitionInfo.Replicas := replicas |} in
                    topicInfo_loop meta topic writable indices (res ++ [r])
                end
            end
        end
  end.

Definition getTopicInfoHandler (p : Values)
    : M (option (list responsePartitionInfo.t)) :=
  let* ok := validRequest H env p in
  if negb ok then ret None
  else
    let* (meta, err) := Client_FetchMetadata env in
    match err with
    | Some err =>
        refuse (httpStatusError err) "Unable to get metadata: %v" (Some err)
    | None =>
        match meta with
        | None => panic
        | Some meta =>
            let '(writable, err) := WritablePartitions meta (Get p "topic") in
            match err with
            | Some err =>
                refuse (httpStatusError err)
                  "Unable to get writable partitions: %v" (Some err)
            | None =>
                let '(parts, err) := Partitions meta (Get p "topic") in
                match err with
                | Some err =>
                    refuse (httpStatusError err)
                      "Unable to get partitions: %v" (Some err)
                | None =>
                    topicInfo_loop meta (Get p "topic") (default [] writable)
                      (seq 0 (length (default [] parts))) []
                end
            end
        end
    end.

End MoreHandlers.

(** ** Concrete data for the examples *)

(** [SetDefaults]: the default values of the fields of [Config] kept here,
    durations in nanoseconds. *)
Definition SetDefaults : Config :=
  {| Producer_SendMessageTimeout := 15000000000;
     Consumer_GetMessageTimeout := 15000000000;
     Consumer_MinFetchSize := 1;
     Consumer_MaxFetchSize := 4194304;
     Consumer_DefaultFetchSize := 524288;
     OffsetCoordinator_CommitOffsetTimeout := 15000000000;
     OffsetCoordinator_FetchOffsetTimeout := 15000000000 |}.

(** A client with the default timeouts, the given free ids and nothing
    cached. *)
Definition sample_client (free : list Z) : KafkaClient :=
  {| GetMetadataTimeout := 1000000000;
     MetadataCachePeriod := 3000000000;
     GetOffsetsTimeout := 10000000000;
     ReconnectPeriod := 15000000000;
     deadBrokers := make_chan;
     freeBrokers := {| buf := free; closed := false |};
     lastMetadata := None;
     lastUpdateMetadata := 0;
     counters := {| DeadBrokers := 0; FreeBrokers := Z.of_nat (length free) |} |}.

(** One topic "t" with partition 0 led by broker 5. *)
Definition sample_metadata : KafkaMetadata :=
  {| Metadata :=
       [ {| Name := "t"; TopicErr := None;
            TPartitions := [ {| ID := 0; PLeader := 5; Isrs := [5];
                                PartitionErr := None |} ] |} ] |}.

(** The same topic behind a topic record that carries an error marker. *)
Definition marked_metadata : KafkaMetadata :=
  {| Metadata :=
       {| Name := "a"; TopicErr := Some KafkaErrUnknownTopicOrPartition;
          TPartitions := [] |} :: Metadata sample_metadata |}.

(** A decimal reader standing in for the conversion helpers in the
    examples. *)
Definition digit_of (c : ascii) : option Z :=
  let n := Z.of_nat (nat_of_ascii c) in
  if (48 <=? n) && (n <=? 57) then Some (n - 48) else None.

Fixpoint digits (s : string) (acc : Z) : Z :=
  match s with
  | EmptyString => acc
  | String c s =>
      match digit_of c with
      | Some d => digits s (10 * acc + d)
      | None => 0
      end
  end.

Definition atoi (s : string) : Z :=
  match s with
  | String "-"%char s => - digits s 0
  | _ => digits s 0
  end.

Definition sample_helpers : Helpers :=
  {| toInt32_raw := atoi;
     toInt64_raw := atoi;
     inSlice := fun x l => existsb (Z.eqb x) l;
     json_Marshal := fun q => inl (Topic q) |}.

(** A broker that answers in time: the sample metadata, the offset bounds
    [0, 2), consumers that open, and the given answers to [Consume]. *)
Definition sample_env (consume : nat -> attempt (ProtoMessage + error)) : Env :=
  {| UnixNano := fun _ => 1700000000000000000;
     Broker_Metadata := fun _ => on_time (inl sample_metadata);
     Broker_Offsets := fun _ =>
       {| first_select := on_time None; second_select := on_time None;
          earliest := 0; latest := 2 |};
     Broker_Consumer := fun _ => None;
     Consumer_Consume := consume;
     connIsAlive := fun _ => true |}.

Definition sample_world (hints : gmap string Z) : World :=
  {| Client := sample_client [0; 1]; MessageSize := hints; tick := 0;
     response := []; sessions := [] |}.

(** [GET /v1/topics/t/0?offset=...&limit=...] *)
Definition request (offset limit : string) : Values :=
  {[ "topic" := ["t"]; "partition" := ["0"]; "offset" := [offset];
     "limit" := [limit] ]}.

(** The sixth interaction of a request, its second call of [Consume], fails;
    the calls before it deliver a message. *)
Definition message_then_error (i : nat) : attempt (ProtoMessage + error) :=
  match i with
  | 6%nat => on_time (inr (OtherError "connection reset"))
  | _ => on_time (inl {| Offset := 0; Value := "{}" |})
  end.

Definition always_no_data (i : nat) : attempt (ProtoMessage + error) :=
  on_time (inr KafkaErrNoData).

(** ** Vocabulary of the statements *)

(** The topic records a scan of the snapshot passes before it meets a
    record with an error marker, and that marker. *)
Fixpoint unmarked_prefix (ts : list MetadataRespTopic) : list MetadataRespTopic :=
  match ts with
  | [] => []
  | t :: ts =>
      match TopicErr t with
      | Some _ => []
      | None => t :: unmarked_prefix ts
      end
  end.

Fixpoint first_marker (ts : list MetadataRespTopic) : option error :=
  match ts with
  | [] => None
  | t :: ts =>
      match TopicErr t with
      | Some e => Some e
      | None => first_marker ts
      end
  end.

(** The topic and the partition are present among the records [ts]. *)
Definition has_partition (ts : list MetadataRespTopic) (topic : string)
    (partitionID : Z) : Prop :=
  exists t p, In t ts /\ Name t = topic /\ In p (TPartitions t) /\ ID p = partitionID.

(** [Leader] answers with the leader of a record of the partition found
    among [ts]. *)
Definition answers_leader_in (ts : list MetadataRespTopic) (m : KafkaMetadata)
    (topic : string) (partitionID : Z) : Prop :=
  exists t p, In t ts /\ Name t = topic /\ In p (TPartitions t) /\
              ID p = partitionID /\ Leader m topic partitionID = (PLeader p, None).

(** What is said of [Leader] on a snapshot: the leader when the topic and
    the partition are present, -1 and no error when they are not. *)
Definition Leader_found_or_minus_one (m : KafkaMetadata) (topic : string)
    (partitionID : Z) : Prop :=
  (has_partition (Metadata m) topic partitionID ->
   answers_leader_in (Metadata m) m topic partitionID) /\
  (~ has_partition (Metadata m) topic partitionID ->
   Leader m topic partitionID = (-1, None)).



(** A client that holds a snapshot stored at 1.7e18 ns. *)
Definition cached_client : KafkaClient :=
  {| GetMetadataTimeout := 1000000000;
     MetadataCachePeriod := 3000000000;
     GetOffsetsTimeout := 10000000000;
     ReconnectPeriod := 15000000000;
     deadBrokers := make_chan;
     freeBrokers := {| buf := [0]; closed := false |};
     lastMetadata := Some sample_metadata;
     lastUpdateMetadata := 1700000000000000000;
     counters := {| DeadBrokers := 0; FreeBrokers := 1 |} |}.

(** The out-of-range responses among what was done to the response. *)
Definition is_range_error (o : Out) : bool :=
  match o with ErrorOutOfRange _ _ _ _ => true | _ => false end.

Definition range_errors (w : World) : list Out :=
  List.filter is_range_error (response w).

(** The success header was written to the response. *)
Definition header_sent (w : World) : Prop :=
  In (BeginResponse StatusOK) (response w).

(** Proof steps shared by the lemmas on the handler: unfold the plumbing
    of [M], and split on the innermost matches of the goal. *)
Ltac unfold_monad :=
  unfold bind, conn_alive, consumer_Message, consumer_Close, Client_NewConsumer,
    Client_GetOffsets, Client_FetchMetadata, log_session, next, ret, on_client,
    beginSuccess, errorResponse, emit, MessageSize_Get, MessageSize_Put,
    out_of_fuel, panic.

Ltac crack :=
  repeat match goal with
  | |- context [match ?x with _ => _ end] =>
      match x with
      | context [match _ with _ => _ end] => fail 1
      | _ => destruct x eqn:?
      end; cbn in *
  end.

(** What is said of a read that fails after a message was sent: the
    response is closed, the closing bytes written and the success end
    made. *)
Definition ends_closed (w : World) : Prop :=
  In (Body close_all) (response w) /\ last (response w) = Some EndResponseSuccess.

(** What is said of the number of rounds: the sessions opened between [w]
    and [w'] are at most the ceiling of the maximal fetch size over the
    default fetch size. *)
Definition within_ceil_rounds (Cfg : Config) (w w' : World) : Prop :=
  Z.of_nat (length (sessions w')) - Z.of_nat (length (sessions w))
  <= (Consumer_MaxFetchSize Cfg + Consumer_DefaultFetchSize Cfg - 1)
     / Consumer_DefaultFetchSize Cfg.

(** The defaults with the maximal fetch size at the top of [int32] and a
    default fetch size of 2^30. *)
Definition wide_config : Config :=
  with_MaxFetchSize
    {| Producer_SendMessageTimeout := 15000000000;
       Consumer_GetMessageTimeout := 15000000000;
       Consumer_MinFetchSize := 1;
       Consumer_MaxFetchSize := 0;
       Consumer_DefaultFetchSize := 1073741824;
       OffsetCoordinator_CommitOffsetTimeout := 15000000000;
       OffsetCoordinator_FetchOffsetTimeout := 15000000000 |}
    2147483647.

(** The loop variables at the start of a read of one message at offset 0
    with the given size. *)
Definition first_read (size : Z) : locals :=
  {| v_offset := 0; v_length := 1; v_size := size; v_maxSize := 0;
     v_notEnoughSize := false; v_successSent := false; v_deferred := [] |}.

(** A consumer on broker id 0, open, with the default deadline. *)
Definition open_consumer : KafkaConsumer.t :=
  {| KafkaConsumer.brokerID := 0; KafkaConsumer.opened := true;
     KafkaConsumer.GetMessageTimeout := 15000000000 |}.

(** The world of a request after five interactions. *)
Definition world_at (n : nat) : World :=
  {| Client := sample_client [1]; MessageSize := ∅; tick := n;
     response := []; sessions := [] |}.

(** The world in which a run ends, the given world when it does not end. *)
Definition world_after {A : Type} (r : exec A) (otherwise : World) : World :=
  match r with Done _ w => w | _ => otherwise end.

(** ** Vocabulary of the further statements *)

(** The ids the pool holds, free ones first. *)
Definition pool_ids (k : KafkaClient) : list Z :=
  buf (freeBrokers k) ++ buf (deadBrokers k).

(** The gauges show the lengths of the queues. *)
Definition gauges_ok (k : KafkaClient) : Prop :=
  FreeBrokers (counters k) = Z.of_nat (length (buf (freeBrokers k))) /\
  DeadBrokers (counters k) = Z.of_nat (length (buf (deadBrokers k))).

(** The settings and the cache of two clients are the same. *)
Definition same_settings (k k' : KafkaClient) : Prop :=
  GetMetadataTimeout k' = GetMetadataTimeout k /\
  MetadataCachePeriod k' = MetadataCachePeriod k /\
  GetOffsetsTimeout k' = GetOffsetsTimeout k /\
  ReconnectPeriod k' = ReconnectPeriod k /\
  lastMetadata k' = lastMetadata k /\
  lastUpdateMetadata k' = lastUpdateMetadata k /\
  closed (freeBrokers k') = closed (freeBrokers k) /\
  closed (deadBrokers k') = closed (deadBrokers k).

(** From [k] with the ids [held] lent out to [k'] with [held'] lent out, no
    id was lost or made up, the gauges stayed right, and nothing but the
    queues and the gauges changed. *)
Definition kept (held held' : list Z) (k k' : KafkaClient) : Prop :=
  pool_ids k' ++ held' ≡ₚ pool_ids k ++ held /\
  (gauges_ok k -> gauges_ok k') /\
  same_settings k k'.

(** [getBroker], [n] times in a row: the ids lent, in order, and the number
    of refusals. *)
Fixpoint borrow_many (n : nat) (k : KafkaClient) : list Z * nat * KafkaClient :=
  match n with
  | O => ([], O, k)
  | S n =>
      match getBroker k with
      | ((id, None), k) =>
          let '(ids, refused, k) := borrow_many n k in (id :: ids, refused, k)
      | ((_, Some _), k) =>
          let '(ids, refused, k) := borrow_many n k in (ids, S refused, k)
      end
  end.

(** The ids 0, 1, ..., n-1. *)
Definition first_ids (n : nat) : list Z := map Z.of_nat (seq 0 n).

(** [freeBroker] for each of the ids, in order. *)
Definition release_all (ids : list Z) (k : KafkaClient) : KafkaClient :=
  fold_left (fun k id => freeBroker id k) ids k.

(** Sample start-up settings: the defaults with three connections. *)
Definition sample_broker_config : BrokerConfig :=
  {| NumConns := 3;
     Broker_GetMetadataTimeout := 1000000000;
     Broker_MetadataCachePeriod := 3000000000;
     Broker_GetOffsetsTimeout := 10000000000;
     Broker_ReconnectPeriod := 15000000000 |}.


(** The client [NewClient] returns for these settings when every dial
    succeeds. *)
Definition started_client : KafkaClient :=
  release_all [0; 1; 2] (fresh_client sample_broker_config).

(** A topic record a listing of the topics passes over: no marker, or the
    marker of a missing leader. *)
Definition tolerated (t : MetadataRespTopic) : Prop :=
  TopicErr t = None \/ TopicErr t = Some ErrLeaderNotAvailable.

(** A partition record the listing of kind [pType] keeps. *)
Definition listed (pType : partitionType) (p : MetadataRespPartition) : Prop :=
  pType = writablePartitions -> PartitionErr p <> Some ErrLeaderNotAvailable.

(** The ids of the partition records of [topic] among [ts] that the
    listing of kind [pType] keeps, in the order of the snapshot. *)
Definition listed_ids (ts : list MetadataRespTopic) (topic : string)
    (pType : partitionType) : list Z :=
  flat_map (fun t => if bool_decide (Name t = topic)
                     then partitions_of (TPartitions t) pType []
                     else []) ts.

(** What a holder of a consumer handle can do with it, and a sequence of
    such uses; likewise for the producer and the offset coordinator.  The
    answers of the broker library come with the uses. *)
Inductive consumer_use : Type :=
| UseConsumerClose
| UseConsumerCorrupt
| UseMessage (a : attempt (ProtoMessage + error)).

Definition consumer_step (cs : KafkaConsumer.t * KafkaClient) (u : consumer_use)
    : KafkaConsumer.t * KafkaClient :=
  let '(c, k) := cs in
  match u with
  | UseConsumerClose => KafkaConsumer.Close c k
  | UseConsumerCorrupt => KafkaConsumer.Corrupt c k
  | UseMessage a => let '(_, c, k) := KafkaConsumer.Message a c k in (c, k)
  end.

Definition consumer_uses (us : list consumer_use) (c : KafkaConsumer.t)
    (k : KafkaClient) : KafkaConsumer.t * KafkaClient :=
  fold_left consumer_step us (c, k).

Inductive producer_use : Type :=
| UseProducerClose
| UseProducerCorrupt
| UseSendMessage (topic : string) (partitionID : Z) (message : string)
    (a : attempt (Z * option error)).

Definition producer_step (ps : KafkaProducer.t * KafkaClient) (u : producer_use)
    : KafkaProducer.t * KafkaClient :=
  let '(p, k) := ps in
  match u with
  | UseProducerClose => KafkaProducer.Close p k
  | UseProducerCorrupt => KafkaProducer.Corrupt p k
  | UseSendMessage topic partitionID message a =>
      let '(_, p, k) := KafkaProducer.SendMessage topic partitionID message a p k
      in (p, k)
  end.

Definition producer_uses (us : list producer_use) (p : KafkaProducer.t)
    (k : KafkaClient) : KafkaProducer.t * KafkaClient :=
  fold_left producer_step us (p, k).

Inductive coordinator_use : Type :=
| UseCoordinatorClose
| UseCoordinatorCorrupt
| UseCommitOffset (topic : string) (partitionID offset : Z)
    (a : attempt (option error))
| UseFetchOffset (topic : string) (partitionID : Z)
    (a : attempt (Z * string * option error)).

Definition coordinator_step (cs : KafkaOffsetCoordinator.t * KafkaClient)
    (u : coordinator_use) : KafkaOffsetCoordinator.t * KafkaClient :=
  let '(c, k) := cs in
  match u with
  | UseCoordinatorClose => KafkaOffsetCoordinator.Close c k
  | UseCoordinatorCorrupt => KafkaOffsetCoordinator.Corrupt c k
  | UseCommitOffset topic partitionID offset a =>
      let '(_, c, k) :=
        KafkaOffsetCoordinator.CommitOffset topic partitionID offset a c k
      in (c, k)
  | UseFetchOffset topic partitionID a =>
      let '(_, c, k) := KafkaOffsetCoordinator.FetchOffset topic partitionID a c k
      in (c, k)
  end.

Definition coordinator_uses (us : list coordinator_use)
    (c : KafkaOffsetCoordinator.t) (k : KafkaClient)
    : KafkaOffsetCoordinator.t * KafkaClient :=
  fold_left coordinator_step us (c, k).

(** The id a handle still owes to the pool. *)
Definition consumer_owes (c : KafkaConsumer.t) : list Z :=
  if KafkaConsumer.opened c then [KafkaConsumer.brokerID c] else [].
Definition producer_owes (p : KafkaProducer.t) : list Z :=
  if KafkaProducer.opened p then [KafkaProducer.brokerID p] else [].
Definition coordinator_owes (c : KafkaOffsetCoordinator.t) : list Z :=
  if KafkaOffsetCoordinator.opened c then [KafkaOffsetCoordinator.brokerID c]
  else [].

(** A cache with a stamp holds a snapshot. *)
Definition cache_ok (k : KafkaClient) : Prop :=
  0 < lastUpdateMetadata k -> lastMetadata k <> None.

(** Between [w] and [w'] exactly one error response was made. *)
Definition one_error (w w' : World) : Prop :=
  exists status format arg,
    response w' = response w ++ [ErrorResponse status format arg].

(** The same, with the format of the error response among [formats]. *)
Definition one_error_of (formats : list string) (w w' : World) : Prop :=
  exists status format arg,
    response w' = response w ++ [ErrorResponse status format arg] /\
    In format formats.

(** The formats of the error responses of [validRequest]. *)
Definition validRequest_formats : list string :=
  [ "Topic name required"; "Unable to get metadata: %v";
    "Unable to get topic: %v"; "Topic unknown";
    "Unable to get partitions: %v";
    "Unknown partition for the specified topic" ].

(** Between [w] and [w'] the pool lost no id and kept its gauges right, no
    consumer session was opened and the size hints were left alone. *)
Definition world_kept (w w' : World) : Prop :=
  kept [] [] (Client w) (Client w') /\ sessions w' = sessions w /\
  MessageSize w' = MessageSize w.

(** Every request gets one answer: an error response and no success
    value, or a success value and no error response. *)
Definition answered_once {A : Type} (w w' : World) (r : option A) : Prop :=
  match r with
  | None => one_error w w'
  | Some _ => response w' = response w
  end.

(** A JSON decoder and a broker for the examples: every body is JSON and
    decodes to offset 7, the producer stores at offset 41, coordinators
    open and answer in time. *)
Definition sample_backend : Backend :=
  {| json_Unmarshal_raw := fun _ => None;
     json_Unmarshal_info := fun _ kafka =>
       inl (Some {| consumerOffsetInfo.Consumer := consumerOffsetInfo.Consumer kafka;
                    consumerOffsetInfo.Topic := consumerOffsetInfo.Topic kafka;
                    consumerOffsetInfo.Partition :=
                      consumerOffsetInfo.Partition kafka;
                    consumerOffsetInfo.Offset := 7;
                    consumerOffsetInfo.Metadata :=
                      consumerOffsetInfo.Metadata kafka |});
     Producer_Produce := fun _ => on_time (41, None);
     Broker_OffsetCoordinator := fun _ => None;
     Coordinator_CommitOffset := fun _ => on_time None;
     Coordinator_FetchOffset := fun _ => on_time (7, "", None) |}.

(** The topic "t" in front of a topic record with the marker of a missing
    leader, and a broker that answers with this snapshot. *)
Definition trailing_marker_metadata : KafkaMetadata :=
  {| Metadata :=
       Metadata sample_metadata
       ++ [ {| Name := "z"; TopicErr := Some ErrLeaderNotAvailable;
               TPartitions := [] |} ] |}.

Definition trailing_marker_env : Env :=
  {| UnixNano := fun _ => 1700000000000000000;
     Broker_Metadata := fun _ => on_time (inl trailing_marker_metadata);
     Broker_Offsets := fun _ =>
       {| first_select := on_time None; second_select := on_time None;
          earliest := 0; latest := 2 |};
     Broker_Consumer := fun _ => None;
     Consumer_Consume := fun _ => on_time (inr KafkaErrNoData);
     connIsAlive := fun _ => true |}.

(** The consumers of the deferred closes have all been closed. *)
Definition all_closed (cs : list KafkaConsumer.t) : Prop :=
  Forall (fun c => KafkaConsumer.opened c = false) cs.

(** What both offset handlers do to the pool: they keep every id, unless
    the library refused the coordinator, in which case the one error
    response says so and one id is left out of both queues. *)
Definition pool_kept_or_coordinator_refused {A : Type} (B : Backend)
    (w w' : World)
    (r : option A) : Prop :=
  kept [] [] (Client w) (Client w') \/
  (exists id err,
     Broker_OffsetCoordinator B (S (tick w)) = Some err /\
     kept [] [id] (Client w) (Client w') /\ r = None /\
     response w' = response w
       ++ [ErrorResponse (httpStatusError err)
             "Unable to make offset coordinator: %v" (Some err)]).


(** The metrics of [NewMetricStats] with a timer for the key
    [FetchOffset] added. *)
Definition stats_with_FetchOffset : MetricStats :=
  {| HTTPStatus := HTTPStatus NewMetricStats;
     HTTPResponseTime :=
       <["FetchOffset" := NewTimer]> (HTTPResponseTime NewMetricStats) |}.

(** The sample backend with a decoder that turns the body [null] into a
    nil pointer. *)
Definition null_backend : Backend :=
  {| json_Unmarshal_raw := json_Unmarshal_raw sample_backend;
     json_Unmarshal_info := fun msg kafka =>
       if bool_decide (msg = "null") then inl None
       else json_Unmarshal_info sample_backend msg kafka;
     Producer_Produce := Producer_Produce sample_backend;
     Broker_OffsetCoordinator := Broker_OffsetCoordinator sample_backend;
     Coordinator_CommitOffset := Coordinator_CommitOffset sample_backend;
     Coordinator_FetchOffset := Coordinator_FetchOffset sample_backend |}.

(** The sixth interaction of a request, its second call of [Consume], runs
    into the deadline; the calls before it deliver a message. *)
Definition message_then_deadline (i : nat) : attempt (ProtoMessage + error) :=
  match i with
  | 6%nat => too_late (inl {| Offset := 1; Value := "{}" |})
  | _ => on_time (inl {| Offset := 0; Value := "{}" |})
  end.

Ltac in_formats := cbn; repeat (first [left; reflexivity | right]).

(** The formats of the error responses of [getPartitionInfoHandler] and
    [getTopicInfoHandler] that are ever made. *)
Definition partitionInfo_formats : list string :=
  validRequest_formats
  ++ [ "Unable to get metadata: %v"; "Unable to get broker: %v";
       "Unable to get offset: %v"; "Unable to get writable partitions: %v" ].

(** What [getTopicListHandler] answers on a snapshot without markers: for
    every topic record its name and the number of partition records of
    all records of that name. *)
Definition topic_counts (ts : list MetadataRespTopic)
    : list responseTopicListInfo.t :=
  map (fun t =>
         {| responseTopicListInfo.Topic := Name t;
            responseTopicListInfo.Partitions :=
              Z.of_nat (length (listed_ids ts (Name t) allPartitions)) |}) ts.

(** The partition numbers 0, 1, ..., n-1 as [int32]. *)
Definition index_numbers (n : nat) : list Z :=
  map (fun i => int32 (Z.of_nat i)) (seq 0 n).

(** A topic "t" whose partition records carry the ids 3 and 5, and a
    broker that answers with this snapshot. *)
Definition sparse_metadata : KafkaMetadata :=
  {| Metadata :=
       [ {| Name := "t"; TopicErr := None;
            TPartitions :=
              [ {| ID := 3; PLeader := 7; Isrs := [7]; PartitionErr := None |};
                {| ID := 5; PLeader := 8; Isrs := [8]; PartitionErr := None |} ] |} ] |}.

Definition sparse_env : Env :=
  {| UnixNano := fun _ => 1700000000000000000;
     Broker_Metadata := fun _ => on_time (inl sparse_metadata);
     Broker_Offsets := fun _ =>
       {| first_select := on_time None; second_select := on_time None;
          earliest := 0; latest := 2 |};
     Broker_Consumer := fun _ => None;
     Consumer_Consume := fun _ => on_time (inr KafkaErrNoData);
     connIsAlive := fun _ => true |}.

(** The events of the success header, and of the messages written after
    it, a comma before each but the first. *)
Definition header_events (q : string) : list Out :=
  [BeginResponse StatusOK; Body open_brace; Body query_key; Body q;
   Body messages_key].

Definition message_events (msgs : list string) : list Out :=
  match msgs with
  | [] => []
  | m :: rest => Body m :: flat_map (fun x => [Body comma; Body x]) rest
  end.

(** What a GET request may add to the response: nothing, one error
    response, the out-of-range response, or the success header with at most
    [limit] messages, cut off after a message or closed and ended. *)
Inductive get_output (q : string) (limit : Z) : list Out -> Prop :=
| out_nothing : get_output q limit []
| out_error (status : Z) (format : string) (arg : option error) :
    get_output q limit [ErrorResponse status format arg]
| out_range (topic : string) (partition offsetFrom offsetTo : Z) :
    get_output q limit [ErrorOutOfRange topic partition offsetFrom offsetTo]
| out_truncated (msgs : list string) :
    msgs <> [] -> Z.of_nat (length msgs) <= limit ->
    get_output q limit (header_events q ++ message_events msgs)
| out_complete (msgs : list string) :
    Z.of_nat (length msgs) <= limit ->
    get_output q limit
      (header_events q ++ message_events msgs
       ++ [Body close_all; EndResponseSuccess]).

(** The state of the read loop: after [base], the response holds the
    header and the messages written so far when [successSent] is on and
    nothing when it is off, and the messages written and the count still
    asked for add up to [limit]. *)
Definition in_progress (base : list Out) (q : string) (limit : Z) (v : locals)
    (w : World) : Prop :=
  exists msgs,
    response w = base ++ (if v_successSent v
                          then header_events q ++ message_events msgs else []) /\
    (if v_successSent v then msgs <> [] else msgs = []) /\
    Z.of_nat (length msgs) + v_length v = limit /\
    0 <= v_length v.
(** ** Properties: integers *)

Lemma int32_id (x : Z) : is_int32 x -> int32 x = x.
Proof.
  unfold is_int32, min_int32, max_int32, int32, wrap. intros Hx.
  change (2 ^ (32 - 1)) with 2147483648. change (2 ^ 32) with 4294967296.
  change (- 2 ^ 31) with (-2147483648) in Hx.
  change (2 ^ 31 - 1) with 2147483647 in Hx.
  rewrite Z.mod_small; lia.
Qed.

Lemma int64_id (x : Z) : is_int64 x -> int64 x = x.
Proof.
  unfold is_int64, min_int64, max_int64, int64, wrap. intros Hx.
  change (2 ^ (64 - 1)) with 9223372036854775808.
  change (2 ^ 64) with 18446744073709551616.
  change (- 2 ^ 63) with (-9223372036854775808) in Hx.
  change (2 ^ 63 - 1) with 9223372036854775807 in Hx.
  rewrite Z.mod_small; lia.
Qed.


(** ** Properties: the pool *)

(** C1. [getBroker] is a total function of the pool state, a single
    non-blocking receive: when the free queue holds an id it returns the id
    at its head, takes it out of the queue and lowers the [FreeBrokers]
    gauge by one, leaving the rest of the client as it was; when the free
    queue is empty it returns the [KhpErrorNoBrokers] error and the client
    unchanged. *)
Theorem getBroker_nonblocking (k : KafkaClient) :
  (forall id rest, buf (freeBrokers k) = id :: rest ->
     In id (buf (freeBrokers k)) /\
     fst (getBroker k) = (id, None) /\
     snd (getBroker k) =
       with_free k {| buf := rest; closed := closed (freeBrokers k) |}
                 (FreeBrokers (counters k) - 1) /\
     FreeBrokers (counters (snd (getBroker k))) = FreeBrokers (counters k) - 1 /\
     deadBrokers (snd (getBroker k)) = deadBrokers k) /\
  (buf (freeBrokers k) = [] ->
     getBroker k = ((0, Some (KhpError KhpErrorNoBrokers "no brokers available")), k)).
Proof.
  split.
  - intros id rest Hbuf. unfold getBroker, try_recv. rewrite Hbuf. simpl.
    repeat split; auto.
  - intros Hbuf. unfold getBroker, try_recv. rewrite Hbuf.
    destruct (closed (freeBrokers k)); reflexivity.
Qed.

Lemma getBroker_nonblocking_witness :
  fst (getBroker (sample_client [0; 1])) = (0, None) /\
  buf (freeBrokers (snd (getBroker (sample_client [0; 1])))) = [1] /\
  FreeBrokers (counters (snd (getBroker (sample_client [0; 1])))) = 1 /\
  getBroker (sample_client []) =
    ((0, Some (KhpError KhpErrorNoBrokers "no brokers available")), sample_client []).
Proof.
  destruct (getBroker_nonblocking (sample_client [0; 1])) as [Hfree _].
  destruct (Hfree 0 [1] eq_refl) as (_ & Hid & Hk & Hn & _).
  destruct (getBroker_nonblocking (sample_client [])) as [_ Hempty].
  split; [exact Hid|]. split; [rewrite Hk; reflexivity|].
  split; [rewrite Hn; reflexivity|]. apply Hempty. reflexivity.
Defined.

(** ** Properties: the session facades *)

Lemma Consumer_Close_idempotent (c : KafkaConsumer.t) (k : KafkaClient) :
  let '(c1, k1) := KafkaConsumer.Close c k in
  KafkaConsumer.opened c1 = false /\ KafkaConsumer.Close c1 k1 = (c1, k1) /\
  KafkaConsumer.Corrupt c1 k1 = (c1, k1).
Proof.
  unfold KafkaConsumer.Close, KafkaConsumer.Corrupt.
  destruct (KafkaConsumer.opened c) eqn:Ho; simpl; rewrite ?Ho; auto.
Qed.

(** The sibling constructor gives the id back when the library refuses the
    sub-session. *)
Lemma NewConsumer_releases_on_error (settings : Config) (topic : string)
    (partitionID offset : Z) (err : error) (k : KafkaClient) (id : Z)
    (rest : list Z) :
  buf (freeBrokers k) = id :: rest ->
  let '(r, k') := NewConsumer settings topic partitionID offset (Some err) k in
  r = inr err /\ buf (freeBrokers k') = rest ++ [id] /\
  deadBrokers k' = deadBrokers k /\
  FreeBrokers (counters k') = FreeBrokers (counters k).
Proof.
  intros Hbuf. unfold NewConsumer, getBroker, try_recv. rewrite Hbuf. simpl.
  repeat split; auto. lia.
Qed.

(** On any pool with a free id, a refused coordinator leaves the borrowed
    id in neither queue. *)
Lemma NewOffsetCoordinator_keeps_on_error (settings : Config)
    (consumerGroup : string) (err : error) (k : KafkaClient) (id : Z)
    (rest : list Z) :
  buf (freeBrokers k) = id :: rest ->
  let '(r, k') := NewOffsetCoordinator settings consumerGroup (Some err) k in
  r = inr err /\ buf (freeBrokers k') = rest /\
  deadBrokers k' = deadBrokers k /\
  FreeBrokers (counters k') = FreeBrokers (counters k) - 1.
Proof.
  intros Hbuf. unfold NewOffsetCoordinator, getBroker, try_recv. rewrite Hbuf.
  simpl. repeat split; auto.
Qed.

(** C2. [NewOffsetCoordinator] on a pool whose only free id is 7, when the
    library refuses to create the coordinator: the error is returned with
    no handle, and id 7 is left in neither queue, the [FreeBrokers] gauge
    one short: nothing released it and nothing quarantined it.
    [NewConsumer] in the same situation puts the id back. *)
Theorem NewOffsetCoordinator_leaks_the_id :
  let k := sample_client [7] in
  let err := OtherError "no coordinator" in
  let '(r, k') := NewOffsetCoordinator SetDefaults "group" (Some err) k in
  let '(r2, k2) := NewConsumer SetDefaults "t" 0 0 (Some err) k in
  r = inr err /\
  buf (freeBrokers k') = [] /\ buf (deadBrokers k') = [] /\
  FreeBrokers (counters k') = 0 /\
  r2 = inr err /\ buf (freeBrokers k2) = [7] /\ FreeBrokers (counters k2) = 1.
Proof. vm_compute. repeat split; reflexivity. Qed.

(** The deadline branch of the five single-call operations: the id is
    quarantined, the handle closed, and the matching error returned; the
    answer of the call is not looked at. *)
Lemma Message_deadline (a : attempt (ProtoMessage + error))
    (c : KafkaConsumer.t) (k : KafkaClient) :
  KafkaConsumer.opened c = true -> 0 < KafkaConsumer.GetMessageTimeout c ->
  late a = true ->
  KafkaConsumer.Message a c k =
    (inr (KhpError KhpErrorReadTimeout "Read timeout"),
     KafkaConsumer.closed_handle c, deadBroker (KafkaConsumer.brokerID c) k).
Proof.
  intros Ho Ht Hl. unfold KafkaConsumer.Message, KafkaConsumer.Corrupt, timer_fires.
  rewrite Ho, Hl. simpl. destruct (Z.ltb_spec 0 (KafkaConsumer.GetMessageTimeout c)); [|lia].
  reflexivity.
Qed.

Lemma SendMessage_deadline (topic : string) (partitionID : Z) (message : string)
    (a : attempt (Z * option error)) (p : KafkaProducer.t) (k : KafkaClient) :
  KafkaProducer.opened p = true -> 0 < KafkaProducer.SendMessageTimeout p ->
  late a = true ->
  KafkaProducer.SendMessage topic partitionID message a p k =
    ((0, Some (KhpError KhpErrorWriteTimeout "Write timeout")),
     KafkaProducer.closed_handle p, deadBroker (KafkaProducer.brokerID p) k).
Proof.
  intros Ho Ht Hl. unfold KafkaProducer.SendMessage, KafkaProducer.Corrupt, timer_fires.
  rewrite Ho, Hl. simpl. destruct (Z.ltb_spec 0 (KafkaProducer.SendMessageTimeout p)); [|lia].
  reflexivity.
Qed.

Lemma CommitOffset_deadline (topic : string) (partitionID offset : Z)
    (a : attempt (option error)) (c : KafkaOffsetCoordinator.t) (k : KafkaClient) :
  KafkaOffsetCoordinator.opened c = true ->
  0 < KafkaOffsetCoordinator.CommitOffsetTimeout c -> late a = true ->
  KafkaOffsetCoordinator.CommitOffset topic partitionID offset a c k =
    (Some (KhpError KhpErrorOffsetCommitTimeout "Offset commit timeout"),
     KafkaOffsetCoordinator.closed_handle c,
     deadBroker (KafkaOffsetCoordinator.brokerID c) k).
Proof.
  intros Ho Ht Hl.
  unfold KafkaOffsetCoordinator.CommitOffset, KafkaOffsetCoordinator.Corrupt, timer_fires.
  rewrite Ho, Hl. simpl.
  destruct (Z.ltb_spec 0 (KafkaOffsetCoordinator.CommitOffsetTimeout c)); [|lia].
  reflexivity.
Qed.

Lemma FetchOffset_deadline (topic : string) (partitionID : Z)
    (a : attempt (Z * string * option error)) (c : KafkaOffsetCoordinator.t)
    (k : KafkaClient) :
  KafkaOffsetCoordinator.opened c = true ->
  0 < KafkaOffsetCoordinator.FetchOffsetTimeout c -> late a = true ->
  KafkaOffsetCoordinator.FetchOffset topic partitionID a c k =
    ((0, "", Some (KhpError KhpErrorOffsetFetchTimeout "Offset fetch timeout")),
     KafkaOffsetCoordinator.closed_handle c,
     deadBroker (KafkaOffsetCoordinator.brokerID c) k).
Proof.
  intros Ho Ht Hl.
  unfold KafkaOffsetCoordinator.FetchOffset, KafkaOffsetCoordinator.Corrupt, timer_fires.
  rewrite Ho, Hl. simpl.
  destruct (Z.ltb_spec 0 (KafkaOffsetCoordinator.FetchOffsetTimeout c)); [|lia].
  reflexivity.
Qed.

Lemma GetMetadata_deadline (a : attempt (KafkaMetadata + error))
    (k : KafkaClient) (id : Z) (rest : list Z) :
  buf (freeBrokers k) = id :: rest -> 0 < GetMetadataTimeout k -> late a = true ->
  GetMetadata a k =
    ((None, Some (KhpError KhpErrorMetadataReadTimeout "Read timeout")),
     deadBroker id (snd (getBroker k))).
Proof.
  intros Hbuf Ht Hl. unfold GetMetadata, getBroker, try_recv, timer_fires.
  rewrite Hbuf, Hl. simpl. destruct (Z.ltb_spec 0 (GetMetadataTimeout k)); [|lia].
  reflexivity.
Qed.

(** [GetOffsets] quarantines the id as soon as one of its two selects takes
    the deadline branch. *)
Lemma GetOffsets_deadline_quarantines (topic : string) (partitionID : Z)
    (run : offsetsRun) (k : KafkaClient) (id : Z) (rest : list Z) :
  buf (freeBrokers k) = id :: rest -> 0 < GetOffsetsTimeout k ->
  late (first_select run) = true \/ late (second_select run) = true ->
  snd (GetOffsets topic partitionID run k) = deadBroker id (snd (getBroker k)).
Proof.
  intros Hbuf Ht Hl. unfold GetOffsets, getBroker, try_recv, offsets_select, timer_fires.
  rewrite Hbuf. simpl. destruct (Z.ltb_spec 0 (GetOffsetsTimeout k)); [|lia]. simpl.
  destruct (late (first_select run)), (late (second_select run)); simpl; auto.
  destruct Hl; discriminate.
Qed.

(** C3. [GetOffsets] with the default 10 s deadline on a pool with free ids
    0 and 1, when the deadline passes at the first select and a goroutine
    delivers its nil error before the second select: the borrowed id 0 goes
    to the dead queue, but the error returned is nil, not the read-timeout
    error the first select had set. *)
Theorem GetOffsets_loses_the_timeout_error :
  let k := sample_client [0; 1] in
  let run := {| first_select := too_late None; second_select := on_time None;
                earliest := 0; latest := 0 |} in
  let '(r, k') := GetOffsets "t" 0 run k in
  0 < GetOffsetsTimeout k /\
  r = (0, 0, None) /\
  buf (deadBrokers k') = [0] /\ buf (freeBrokers k') = [1].
Proof. vm_compute. repeat split; reflexivity. Qed.

(** ** Properties: the metadata cache *)





(** ** Properties: queries over a snapshot *)

Lemma Leader_partitions_Some (ps : list MetadataRespPartition) (pid l : Z) :
  Leader_partitions ps pid = Some l ->
  exists p, In p ps /\ ID p = pid /\ PLeader p = l.
Proof.
  induction ps as [|p ps IH]; simpl; [discriminate|].
  destruct (Z.eqb_spec (ID p) pid) as [He|Hne]; simpl.
  - intros [= <-]. exists p. auto.
  - intros Hl. destruct (IH Hl) as (q & Hq & Hid & Hlq). exists q. auto.
Qed.

Lemma Leader_partitions_None (ps : list MetadataRespPartition) (pid : Z) :
  Leader_partitions ps pid = None -> forall p, In p ps -> ID p <> pid.
Proof.
  induction ps as [|p ps IH]; simpl; [tauto|].
  destruct (Z.eqb_spec (ID p) pid) as [He|Hne]; simpl; [discriminate|].
  intros Hl q [<-|Hq]; auto.
Qed.

Lemma has_partition_skip (t : MetadataRespTopic) (ts : list MetadataRespTopic)
    (topic : string) (pid : Z) :
  (Name t <> topic \/ Leader_partitions (TPartitions t) pid = None) ->
  has_partition (t :: ts) topic pid -> has_partition ts topic pid.
Proof.
  intros Hskip (t' & p & [<-|Hin] & Hn & Hp & Hid).
  - destruct Hskip as [Hne|Hnone]; [contradiction|].
    exfalso. exact (Leader_partitions_None _ _ Hnone p Hp Hid).
  - exists t', p. auto.
Qed.

Lemma Leader_loop_scan (ts : list MetadataRespTopic) (topic : string) (pid : Z) :
  (has_partition (unmarked_prefix ts) topic pid ->
   exists t p, In t (unmarked_prefix ts) /\ Name t = topic /\
               In p (TPartitions t) /\ ID p = pid /\
               Leader_loop ts topic pid = (PLeader p, None)) /\
  (~ has_partition (unmarked_prefix ts) topic pid ->
   Leader_loop ts topic pid = (-1, first_marker ts)).
Proof.
  induction ts as [|t ts [IHyes IHno]]; simpl.
  - split; [intros (t & p & [] & _)|reflexivity].
  - destruct (TopicErr t) as [e|] eqn:He.
    + split; [intros (t' & p & [] & _)|reflexivity].
    + destruct (bool_decide_reflect (Name t = topic)) as [Hn|Hn]; simpl.
      * destruct (Leader_partitions (TPartitions t) pid) as [l|] eqn:Hl.
        -- destruct (Leader_partitions_Some _ _ _ Hl) as (p & Hp & Hid & Hlp).
           split.
           ++ intros _. exists t, p. rewrite Hlp. simpl. auto 6.
           ++ intros Hno. exfalso. apply Hno. exists t, p. simpl. auto.
        -- split.
           ++ intros Hhas. apply has_partition_skip in Hhas; [|auto].
              destruct (IHyes Hhas) as (t' & p & Hin & Hrest).
              exists t', p. simpl. auto.
           ++ intros Hno. apply IHno. intros (t' & p & Hin & Hrest).
              apply Hno. exists t', p. simpl. auto.
      * split.
        -- intros Hhas. apply has_partition_skip in Hhas; [|auto].
           destruct (IHyes Hhas) as (t' & p & Hin & Hrest).
           exists t', p. simpl. auto.
        -- intros Hno. apply IHno. intros (t' & p & Hin & Hrest).
           apply Hno. exists t', p. simpl. auto.
Qed.

Lemma unmarked_prefix_clean (ts : list MetadataRespTopic) :
  (forall t, In t ts -> TopicErr t = None) ->
  unmarked_prefix ts = ts /\ first_marker ts = None.
Proof.
  induction ts as [|t ts IH]; simpl; [auto|].
  intros Hc. rewrite (Hc t (or_introl eq_refl)).
  destruct IH as [-> ->]; auto.
Qed.

(** C9, as stated, fails: on the snapshot whose first topic record carries
    an error marker, topic "t" and partition 0 are present, and [Leader]
    returns -1 with that marker as its error. *)
Lemma Leader_marker_counterexample :
  ~ Leader_found_or_minus_one marked_metadata "t" 0.
Proof.
  intros [Hfound _].
  assert (Hhas : has_partition (Metadata marked_metadata) "t" 0).
  { exists {| Name := "t"; TopicErr := None;
              TPartitions := [ {| ID := 0; PLeader := 5; Isrs := [5];
                                  PartitionErr := None |} ] |},
           {| ID := 0; PLeader := 5; Isrs := [5]; PartitionErr := None |}.
    simpl. auto. }
  destruct (Hfound Hhas) as (t & p & _ & _ & _ & _ & Heq).
  vm_compute in Heq. discriminate Heq.
Qed.

(** C9, amended. [Leader] scans the topic records in order and stops at the
    first record with an error marker.  When the topic and the partition
    are present among the records before that marker, it returns the leader
    of such a partition record with no error; when they are not, it returns
    -1 with the marker as the error, and with no error when no record has
    a marker.  On a snapshot without markers this is the leader when
    present and -1 with no error when not. *)
Theorem Leader_scan (m : KafkaMetadata) (topic : string) (partitionID : Z) :
  (has_partition (unmarked_prefix (Metadata m)) topic partitionID ->
   answers_leader_in (unmarked_prefix (Metadata m)) m topic partitionID) /\
  (~ has_partition (unmarked_prefix (Metadata m)) topic partitionID ->
   Leader m topic partitionID = (-1, first_marker (Metadata m))) /\
  ((forall t, In t (Metadata m) -> TopicErr t = None) ->
   Leader_found_or_minus_one m topic partitionID).
Proof.
  destruct (Leader_loop_scan (Metadata m) topic partitionID) as [Hyes Hno].
  split; [exact Hyes|]. split; [exact Hno|].
  intros Hclean. destruct (unmarked_prefix_clean _ Hclean) as [Hpre Hmark].
  rewrite Hpre, Hmark in *. split; assumption.
Qed.

Lemma Leader_scan_witness :
  Leader sample_metadata "t" 0 = (5, None) /\
  Leader sample_metadata "t" 1 = (-1, None) /\
  Leader marked_metadata "t" 0 = (-1, Some KafkaErrUnknownTopicOrPartition).
Proof.
  destruct (Leader_scan sample_metadata "t" 0) as (Hyes & _ & _).
  destruct (Leader_scan sample_metadata "t" 1) as (_ & Hno & _).
  destruct (Leader_scan marked_metadata "t" 0) as (_ & Hmarked & _).
  split; [|split].
  - destruct Hyes as (t & p & Hin & _ & Hp & _ & Heq).
    + exists {| Name := "t"; TopicErr := None;
                TPartitions := [ {| ID := 0; PLeader := 5; Isrs := [5];
                                    PartitionErr := None |} ] |},
             {| ID := 0; PLeader := 5; Isrs := [5]; PartitionErr := None |}.
      simpl. auto.
    + rewrite Heq. simpl in Hin. destruct Hin as [<-|[]].
      simpl in Hp. destruct Hp as [<-|[]]. reflexivity.
  - apply Hno. intros (t & p & Hin & _ & Hp & Hid).
    simpl in Hin. destruct Hin as [<-|[]].
    simpl in Hp. destruct Hp as [<-|[]]. discriminate Hid.
  - apply Hmarked. intros (t & p & [] & _).
Defined.

(** ** Properties: the read loop *)

Section HandlerProperties.
Context (H : Helpers) (env : Env) (Cfg : Config).

Lemma sub32_pred (n : Z) : 1 <= n <= max_int32 -> sub32 n 1 = n - 1.
Proof.
  intros Hn. unfold sub32. apply int32_id. unfold is_int32, min_int32, max_int32 in *. lia.
Qed.

Lemma messageLoop_facts (q : string) (offsetTo : Z) (fuel : nat) :
  forall c v w fl c' v' w',
  messageLoop env fuel q offsetTo c v w = Done (fl, c', v') w' ->
  sessions w' = sessions w /\ v_size v' = v_size v /\
  v_deferred v' = v_deferred v /\
  (fl = NextRound -> v_notEnoughSize v' = true) /\
  (fl <> NextRound -> v_notEnoughSize v' = v_notEnoughSize v) /\
  (1 <= v_length v <= max_int32 ->
   v_length v' <= v_length v /\ (fl = NextRound -> 1 <= v_length v')).
Proof.
  induction fuel as [|fuel IH]; intros c v w fl c' v' w'; [discriminate|].
  cbn [messageLoop]. unfold_monad. cbn.
  crack; intros Heq; try discriminate Heq.
  all: try (injection Heq as <- <- <- <-; cbn; split_and!; try reflexivity;
            try (intros Hx; discriminate Hx);
            try (intros Hx; congruence);
            try (intros Hr; rewrite ?(sub32_pred _ Hr); split;
                 [lia | intros Hx; discriminate Hx || lia]); fail).
  all: apply IH in Heq; cbn in Heq; destruct Heq as (Hs & Hz & Hd & Hn & Hk & Hl);
    split_and!; auto; intros Hr; rewrite (sub32_pred _ Hr) in *;
    match goal with
    | Hb : _ || (_ =? 0) = false |- _ =>
        apply orb_false_elim in Hb; destruct Hb as [_ Hb]; apply Z.eqb_neq in Hb
    end;
    destruct Hl as [Hl1 Hl2]; [unfold max_int32 in *; lia|]; split; [lia|auto].
Qed.

Lemma messageLoop_total (q : string) (offsetTo : Z) (fuel : nat) :
  forall c v w,
  1 <= v_length v <= max_int32 -> v_length v <= Z.of_nat fuel ->
  exists r w', messageLoop env fuel q offsetTo c v w = Done r w'.
Proof.
  induction fuel as [|fuel IH]; intros c v w Hr Hf; [lia|].
  cbn [messageLoop]. unfold_monad. cbn.
  crack; eauto.
  all: apply IH; cbn; rewrite (sub32_pred _ Hr);
    match goal with
    | Hb : _ || (_ =? 0) = false |- _ =>
        rewrite (sub32_pred _ Hr) in Hb;
        apply orb_false_elim in Hb; destruct Hb as [_ Hb]; apply Z.eqb_neq in Hb
    end; unfold max_int32 in *; lia.
Qed.

Lemma consumer_Close_frame (c : KafkaConsumer.t) (w : World) :
  exists c' k', consumer_Close c w =
    Done c' {| Client := k'; MessageSize := MessageSize w; tick := tick w;
               response := response w; sessions := sessions w |}.
Proof.
  unfold consumer_Close, on_client.
  destruct (KafkaConsumer.Close c (Client w)) as [c' k']. eauto.
Qed.

Lemma round_facts (fuel : nat) (topic : string) (partition : Z) (q : string)
    (offsetTo : Z) (v : locals) (w : World) (fl : flow) (v' : locals) (w' : World) :
  round env Cfg fuel topic partition q offsetTo v w = Done (fl, v') w' ->
  sessions w' = sessions w ++ [(fetchBudget Cfg (v_size v) (v_length v), v_offset v)] /\
  (fl = NextRound ->
   v_size v < Consumer_MaxFetchSize Cfg /\
   v_size v' = add32 (v_size v) (Consumer_DefaultFetchSize Cfg) /\
   v_notEnoughSize v' = false) /\
  (fl <> NextRound -> v_size v' = v_size v) /\
  (v_notEnoughSize v = false -> v_notEnoughSize v' = true ->
   fl = BreakConsumeLoop /\ Consumer_MaxFetchSize Cfg <= v_size v) /\
  (1 <= v_length v <= max_int32 ->
   v_length v' <= v_length v /\ (fl = NextRound -> 1 <= v_length v')).
Proof.
  unfold round. unfold_monad. cbn.
  destruct (NewConsumer _ _ _ _ _ _) as [[consumer|err] k1] eqn:Hnew.
  - match goal with
    | |- context [messageLoop ?e ?f ?q ?o ?c ?vv ?ww] =>
        destruct (messageLoop e f q o c vv ww) as [[[fl1 c1] v1] w1| |] eqn:Hloop
    end; try discriminate.
    apply messageLoop_facts in Hloop. cbn in Hloop.
    destruct Hloop as (Hs & Hz & Hd & Hn & Hk & Hl).
    destruct fl1.
    + destruct (KafkaConsumer.Close c1 (Client w1)) as [c2 k2]. cbn.
      unfold growSize. cbn. rewrite (Hn eq_refl).
      destruct (Z.geb_spec (v_size v1) (Consumer_MaxFetchSize Cfg)) as [Hge|Hlt];
        intros [= <- <- <-]; cbn; rewrite ?Hz; split_and!; auto; try discriminate;
        try congruence; try lia;
        try (intros _ _; split; [reflexivity | lia]);
        try (intros Hr; destruct (Hl Hr) as [Hl1 Hl2]; split;
             [lia | first [intros Hx; discriminate Hx | auto]]).
    + intros [= <- <- <-]. cbn. split_and!; auto; try discriminate;
        try (intros Hv Hv'; rewrite Hk in Hv' by discriminate; congruence);
        try (intros Hr; destruct (Hl Hr) as [Hl1 Hl2]; split;
             [lia | intros Hx; discriminate Hx]).
    + intros [= <- <- <-]. cbn. split_and!; auto; try discriminate;
        try (intros Hv Hv'; rewrite Hk in Hv' by discriminate; congruence);
        try (intros Hr; destruct (Hl Hr) as [Hl1 Hl2]; split;
             [lia | intros Hx; discriminate Hx]).
  - destruct (negb (v_successSent v)); cbn; intros [= <- <- <-]; cbn;
      split_and!; auto; try discriminate;
      try (intros Hv Hv'; congruence);
      try (intros Hr; split; [lia | intros Hx; discriminate Hx]).
Qed.

Lemma round_total (fuel : nat) (topic : string) (partition : Z) (q : string)
    (offsetTo : Z) (v : locals) (w : World) :
  1 <= v_length v <= max_int32 -> v_length v <= Z.of_nat fuel ->
  exists r w', round env Cfg fuel topic partition q offsetTo v w = Done r w'.
Proof.
  intros Hr Hf. unfold round. unfold_monad. cbn.
  destruct (NewConsumer _ _ _ _ _ _) as [[consumer|err] k1] eqn:Hnew.
  - match goal with
    | |- context [messageLoop ?e ?f ?q ?o ?c ?vv ?ww] =>
        destruct (messageLoop_total q o f c vv ww Hr Hf) as ([[fl1 c1] v1] & w1 & ->)
    end.
    destruct fl1; cbn; eauto.
    destruct (KafkaConsumer.Close c1 (Client w1)); cbn. eauto.
  - destruct (negb (v_successSent v)); cbn; eauto.
Qed.

Lemma consumeLoop_bound (topic : string) (partition : Z) (q : string)
    (offsetTo : Z) (n : nat) :
  0 < Consumer_DefaultFetchSize Cfg ->
  Consumer_MaxFetchSize Cfg + Consumer_DefaultFetchSize Cfg <= 2 ^ 31 ->
  forall fuel v w,
  min_int32 <= v_size v ->
  Consumer_MaxFetchSize Cfg - v_size v <= Z.of_nat n * Consumer_DefaultFetchSize Cfg ->
  1 <= v_length v <= max_int32 ->
  Z.of_nat n + 1 + v_length v <= Z.of_nat fuel ->
  exists fl v' w',
    consumeLoop env Cfg fuel topic partition q offsetTo v w = Done (fl, v') w' /\
    fl <> NextRound /\
    (length (sessions w') <= length (sessions w) + n + 1)%nat.
Proof.
  intros HD HGD.
  induction n as [|n IH]; intros fuel v w Hmin Hgap Hlen Hfuel;
    (destruct fuel as [|fuel]; [lia|]);
    cbn [consumeLoop]; unfold bind;
    (destruct (round_total fuel topic partition q offsetTo v w Hlen ltac:(lia))
       as ([fl v1] & w1 & Hround));
    rewrite Hround;
    (destruct (round_facts _ _ _ _ _ _ _ _ _ _ Hround) as (Hs & Hnext & _ & _ & Hl));
    (destruct (Hl Hlen) as [Hl1 Hl2]);
    (destruct fl;
     [ destruct (Hnext eq_refl) as (Hlt & Hsize & _)
     | exists BreakConsumeLoop, v1, w1; split; [reflexivity|]; split; [discriminate|];
       rewrite Hs, length_app; simpl; lia
     | exists Returned, v1, w1; split; [reflexivity|]; split; [discriminate|];
       rewrite Hs, length_app; simpl; lia ]).
  - lia.
  - assert (Hadd : v_size v1 = v_size v + Consumer_DefaultFetchSize Cfg).
    { rewrite Hsize. unfold add32. apply int32_id.
      unfold is_int32, min_int32, max_int32 in *. lia. }
    destruct (IH fuel v1 w1) as (fl & v' & w' & Hrun & Hfl & Hbound).
    + lia.
    + rewrite Hadd. lia.
    + specialize (Hl2 eq_refl). lia.
    + lia.
    + exists fl, v', w'. split; [exact Hrun|]. split; [exact Hfl|].
      rewrite Hs, length_app in Hbound. simpl in Hbound. lia.
Qed.

Lemma run_deferred_frame (cs : list KafkaConsumer.t) (w : World) :
  exists k', run_deferred cs w =
    Done tt {| Client := k'; MessageSize := MessageSize w; tick := tick w;
               response := response w; sessions := sessions w |}.
Proof.
  revert w. induction cs as [|c cs IH]; intros w; cbn [run_deferred].
  - exists (Client w). destruct w; reflexivity.
  - unfold bind. destruct (consumer_Close_frame c w) as (c' & k' & ->).
    destruct (IH {| Client := k'; MessageSize := MessageSize w; tick := tick w;
                    response := response w; sessions := sessions w |}) as (k2 & ->).
    exists k2. reflexivity.
Qed.

Lemma finish_frame (topic q : string) (v : locals) (w : World) :
  exists w', finish topic q v w = Done tt w' /\
    sessions w' = sessions w /\ Client w' = Client w /\ tick w' = tick w.
Proof.
  unfold finish. unfold_monad.
  destruct (negb (v_successSent v)); cbn;
    destruct (v_maxSize v >? 0); cbn; eauto.
Qed.

Lemma ceil_div_covers (a d : Z) : 0 < d -> a <= Z.max 0 ((a + d - 1) / d) * d.
Proof.
  intros Hd.
  pose proof (Z.div_mod (a + d - 1) d ltac:(lia)) as Hdm.
  pose proof (Z.mod_pos_bound (a + d - 1) d Hd) as Hm.
  destruct (Z.max_spec 0 ((a + d - 1) / d)) as [[Hlt ->]|[Hge ->]]; nia.
Qed.

(** C6, amended.  The read loop from the seeding of [size] to the end of
    the handler, for a count [limit >= 1], a positive default fetch size
    [step], a positive maximal fetch size [maxFetch] with
    [maxFetch + step <= 2^31], and a seed [size >= 0] (the stored hint of
    the topic, or [step]): whatever the broker answers, with fuel beyond
    [rounds + 2 + limit] the run ends, having opened at most [rounds + 1]
    consumer sessions, where [rounds] is the ceiling of [maxFetch / step];
    and at most [rounds] sessions when the seed is at least [step]. *)
Theorem readMessages_terminates (fuel : nat) (topic : string) (partition : Z)
    (q : string) (offset offsetTo limit : Z) (w : World) :
  let maxFetch := Consumer_MaxFetchSize Cfg in
  let step := Consumer_DefaultFetchSize Cfg in
  let size := default step (MessageSize w !! topic) in
  let rounds := (maxFetch + step - 1) / step in
  0 < step -> 0 < maxFetch -> maxFetch + step <= 2 ^ 31 ->
  1 <= limit <= max_int32 -> 0 <= size ->
  rounds + 2 + limit <= Z.of_nat fuel ->
  exists w',
    readMessages env Cfg fuel topic partition q offset offsetTo limit w = Done tt w' /\
    Z.of_nat (length (sessions w')) <= Z.of_nat (length (sessions w)) + rounds + 1 /\
    (step <= size ->
     Z.of_nat (length (sessions w')) <= Z.of_nat (length (sessions w)) + rounds).
Proof.
  intros maxFetch step size rounds Hstep Hmax Hsum Hlimit Hsize Hfuel.
  set (n := Z.to_nat (Z.max 0 ((maxFetch - size + step - 1) / step))).
  assert (Hn : Z.of_nat n = Z.max 0 ((maxFetch - size + step - 1) / step)).
  { unfold n. rewrite Z2Nat.id; lia. }
  assert (Hrounds : rounds = (maxFetch - 1) / step + 1).
  { unfold rounds. replace (maxFetch + step - 1) with (maxFetch - 1 + 1 * step) by lia.
    apply Z.div_add. lia. }
  assert (Hpos : 0 <= (maxFetch - 1) / step) by (apply Z.div_pos; lia).
  assert (Hle : Z.of_nat n <= rounds).
  { rewrite Hn. apply Z.max_lub; [lia|]. unfold rounds.
    apply Z.div_le_mono; lia. }
  assert (Hle' : step <= size -> Z.of_nat n + 1 <= rounds).
  { intros Hs. rewrite Hn, Hrounds.
    assert ((maxFetch - size + step - 1) / step <= (maxFetch - 1) / step)
      by (apply Z.div_le_mono; lia).
    lia. }
  unfold readMessages, bind, MessageSize_Get. fold step. fold size.
  match goal with
  | |- context [consumeLoop env Cfg fuel topic partition q offsetTo ?v w] =>
      destruct (consumeLoop_bound topic partition q offsetTo n Hstep Hsum fuel v w)
        as (fl & v' & w1 & Hrun & Hfl & Hbound)
  end; cbn.
  - unfold min_int32. lia.
  - rewrite Hn. apply ceil_div_covers. exact Hstep.
  - exact Hlimit.
  - lia.
  - rewrite Hrun.
    assert (Hend : exists w', (match fl with
              | Returned => run_deferred (v_deferred v')
              | _ => bind (finish topic q v') (fun _ => run_deferred (v_deferred v'))
              end) w1 = Done tt w' /\ sessions w' = sessions w1).
    { destruct fl; [contradiction| |].
      - unfold bind. destruct (finish_frame topic q v' w1) as (w2 & -> & Hs2 & _).
        destruct (run_deferred_frame (v_deferred v') w2) as (k' & ->).
        eexists. split; [reflexivity|]. exact Hs2.
      - destruct (run_deferred_frame (v_deferred v') w1) as (k' & ->).
        eexists. split; reflexivity. }
    destruct Hend as (w' & Hw' & Hs').
    exists w'. split; [exact Hw'|]. rewrite Hs'. split; [lia|].
    intros Hs. specialize (Hle' Hs). lia.
Qed.

Lemma messageLoop_range_errors (q : string) (offsetTo : Z) (fuel : nat) :
  forall c v w r w',
  messageLoop env fuel q offsetTo c v w = Done r w' ->
  range_errors w' = range_errors w.
Proof.
  induction fuel as [|fuel IH]; intros c v w r w'; [discriminate|].
  cbn [messageLoop]. unfold_monad. cbn.
  crack; intros Heq; try discriminate Heq;
    try (injection Heq as <- <-; unfold range_errors; cbn;
         rewrite ?List.filter_app; cbn; rewrite ?app_nil_r; reflexivity);
    apply IH in Heq; rewrite Heq; unfold range_errors; cbn;
    rewrite ?List.filter_app; cbn; rewrite ?app_nil_r; reflexivity.
Qed.

Lemma round_range_errors (fuel : nat) (topic : string) (partition : Z)
    (q : string) (offsetTo : Z) (v : locals) (w : World) r w' :
  round env Cfg fuel topic partition q offsetTo v w = Done r w' ->
  range_errors w' = range_errors w.
Proof.
  unfold round. unfold_monad. cbn.
  destruct (NewConsumer _ _ _ _ _ _) as [[consumer|err] k1] eqn:Hnew.
  - match goal with
    | |- context [messageLoop ?e ?f ?q ?o ?c ?vv ?ww] =>
        destruct (messageLoop e f q o c vv ww) as [[[fl1 c1] v1] w1| |] eqn:Hloop
    end; try discriminate.
    apply messageLoop_range_errors in Hloop.
    destruct fl1; [destruct (KafkaConsumer.Close c1 (Client w1)) as [c2 k2]|..];
      cbn; intros [= <- <-]; unfold range_errors in *; cbn in *; congruence.
  - destruct (negb (v_successSent v)); cbn; intros [= <- <-];
      unfold range_errors; cbn; rewrite ?List.filter_app; cbn;
      rewrite ?app_nil_r; reflexivity.
Qed.

Lemma consumeLoop_range_errors (topic : string) (partition : Z) (q : string)
    (offsetTo : Z) (fuel : nat) :
  forall v w r w',
  consumeLoop env Cfg fuel topic partition q offsetTo v w = Done r w' ->
  range_errors w' = range_errors w.
Proof.
  induction fuel as [|fuel IH]; intros v w r w'; [discriminate|].
  cbn [consumeLoop]. unfold bind.
  destruct (round env Cfg fuel topic partition q offsetTo v w)
    as [[fl v1] w1| |] eqn:Hround; try discriminate.
  apply round_range_errors in Hround.
  destruct fl.
  - intros Hrun. apply IH in Hrun. congruence.
  - intros [= <- <-]. exact Hround.
  - intros [= <- <-]. exact Hround.
Qed.

Lemma readMessages_range_errors (fuel : nat) (topic : string) (partition : Z)
    (q : string) (offset offsetTo limit : Z) (w w' : World) :
  readMessages env Cfg fuel topic partition q offset offsetTo limit w = Done tt w' ->
  range_errors w' = range_errors w.
Proof.
  unfold readMessages, bind, MessageSize_Get.
  match goal with
  | |- context [consumeLoop env Cfg fuel topic partition q offsetTo ?v w] =>
      destruct (consumeLoop env Cfg fuel topic partition q offsetTo v w)
        as [[fl v1] w1| |] eqn:Hrun
  end; try discriminate.
  apply consumeLoop_range_errors in Hrun. rewrite <- Hrun.
  assert (Hfin : forall w2, finish topic q v1 w1 = Done tt w2 ->
                            range_errors w2 = range_errors w1).
  { unfold finish. unfold_monad. intros w2.
    destruct (negb (v_successSent v1)); cbn;
      destruct (v_maxSize v1 >? 0); cbn; intros [= <-];
      unfold range_errors; cbn; rewrite ?List.filter_app; cbn;
      rewrite ?app_nil_r; reflexivity. }
  destruct fl.
  - destruct (finish topic q v1 w1) as [[] w2| |] eqn:Hf; try discriminate.
    destruct (run_deferred_frame (v_deferred v1) w2) as (k' & ->).
    intros [= <-]. rewrite <- (Hfin w2 eq_refl). reflexivity.
  - destruct (finish topic q v1 w1) as [[] w2| |] eqn:Hf; try discriminate.
    destruct (run_deferred_frame (v_deferred v1) w2) as (k' & ->).
    intros [= <-]. rewrite <- (Hfin w2 eq_refl). reflexivity.
  - destruct (run_deferred_frame (v_deferred v1) w1) as (k' & ->).
    intros [= <-]. reflexivity.
Qed.
Lemma validRequest_true (p : Values) (w w1 : World) :
  validRequest H env p w = Done true w1 ->
  response w1 = response w /\ sessions w1 = sessions w.
Proof.
  unfold validRequest. unfold_monad. cbn.
  crack; intros Heq; try discriminate Heq; injection Heq as <-; auto.
Qed.

Lemma Client_GetOffsets_frame (topic : string) (partitionID : Z) (w w2 : World)
    (r : Z * Z * option error) :
  Client_GetOffsets env topic partitionID w = Done r w2 ->
  response w2 = response w /\ sessions w2 = sessions w.
Proof.
  unfold_monad. cbn. destruct (GetOffsets _ _ _ _) as [r' k']. cbn.
  intros [= <- <-]. auto.
Qed.

(** C4. A GET request that passed [validRequest] and got the offset bounds
    [offsetFrom] and [offsetTo] without error, with [offset] the start
    offset resolved from its parameters.  When [offset < offsetFrom] or
    [offset >= offsetTo], the handler ends with the out-of-range response
    as its only output, opens no consumer session and leaves the client as
    [GetOffsets] left it; when [offsetFrom <= offset < offsetTo], whatever
    the handler does next, it makes no out-of-range response. *)
Theorem getHandler_range_check (fuel : nat) (p : Values) (w w1 w2 : World)
    (offsetFrom offsetTo : Z) :
  let topic := Get p "topic" in
  let partition := toInt32 H (Get p "partition") in
  let offset := resolveOffset H p offsetFrom offsetTo in
  validRequest H env p w = Done true w1 ->
  Client_GetOffsets env topic partition w1 = Done (offsetFrom, offsetTo, None) w2 ->
  (offset < offsetFrom \/ offset >= offsetTo ->
   exists w',
     getHandler H env Cfg fuel p w = Done tt w' /\
     response w' = response w ++ [ErrorOutOfRange topic partition offsetFrom offsetTo] /\
     sessions w' = sessions w /\ Client w' = Client w2 /\ tick w' = tick w2) /\
  (offsetFrom <= offset < offsetTo ->
   forall w', getHandler H env Cfg fuel p w = Done tt w' ->
              range_errors w' = range_errors w).
Proof.
  intros topic partition offset Hvalid Hoffsets.
  destruct (validRequest_true _ _ _ Hvalid) as [Hr1 Hs1].
  destruct (Client_GetOffsets_frame _ _ _ _ _ Hoffsets) as [Hr2 Hs2].
  assert (Hrun : getHandler H env Cfg fuel p w =
    (if outOfRange offset offsetFrom offsetTo
     then emit (ErrorOutOfRange topic partition offsetFrom offsetTo)
     else match json_Marshal H {| Topic := topic; Partition := partition;
                                  QueryOffset := offset |} with
          | inl queryStr =>
              readMessages env Cfg fuel topic partition queryStr offset offsetTo
                (limitOf H p)
          | inr err =>
              errorResponse (httpStatusError err) "Unable to marshal json: %v"
                (Some err)
          end) w2).
  { unfold getHandler. unfold bind at 1. rewrite Hvalid. cbn [negb].
    unfold bind at 1. fold topic. fold partition. rewrite Hoffsets. reflexivity. }
  rewrite Hrun. clear Hrun. clearbody offset. unfold outOfRange. split.
  - intros Hout.
    assert (Hb : orb (offset <? offsetFrom) (offset >=? offsetTo) = true).
    { apply orb_true_iff. destruct Hout; [left|right]; lia. }
    rewrite Hb. unfold emit. eexists. split; [reflexivity|]. cbn.
    rewrite Hr2, Hr1, Hs2, Hs1. auto.
  - intros Hin w'.
    assert (Hb : orb (offset <? offsetFrom) (offset >=? offsetTo) = false).
    { apply orb_false_iff. split; lia. }
    rewrite Hb.
    destruct (json_Marshal H _) as [queryStr|err].
    + intros Hread. apply readMessages_range_errors in Hread.
      rewrite Hread. unfold range_errors. rewrite Hr2, Hr1. reflexivity.
    + unfold errorResponse, emit. intros [= <-]. unfold range_errors. cbn.
      rewrite List.filter_app. cbn. rewrite app_nil_r, Hr2, Hr1. reflexivity.
Qed.

(** [successSent] is the handler's record of "a message was sent": along
    the read loop it is on exactly when the success header is in the
    response. *)
Lemma messageLoop_successSent (q : string) (offsetTo : Z) (fuel : nat) :
  forall c v w fl c' v' w',
  (v_successSent v = true <-> header_sent w) ->
  messageLoop env fuel q offsetTo c v w = Done (fl, c', v') w' ->
  (v_successSent v' = true <-> header_sent w').
Proof.
  induction fuel as [|fuel IH]; intros c v w fl c' v' w' Hinv; [discriminate|].
  cbn [messageLoop]. unfold_monad. cbn.
  destruct (negb (connIsAlive env (tick w))); cbn.
  - destruct (KafkaConsumer.Close c (Client w)) as [c2 k2]. cbn.
    intros [= <- <- <- <-]. exact Hinv.
  - destruct (KafkaConsumer.Message _ c (Client w)) as [[[msg|err] c1] k1]; cbn.
    + assert (Hnext : forall w1,
        response w1 = response w ++
          (if negb (v_successSent v)
           then [BeginResponse StatusOK; Body open_brace; Body query_key;
                 Body q; Body messages_key]
           else [Body comma]) ++ [Body (Value msg)] ->
        (v_successSent (after_message v msg) = true <-> header_sent w1)).
      { intros w1 Hresp. unfold header_sent in *. rewrite Hresp. cbn.
        split; [intros _|reflexivity]. apply in_or_app.
        destruct (v_successSent v) eqn:Hsent; cbn.
        - left. apply Hinv. reflexivity.
        - right. left. reflexivity. }
      destruct (negb (v_successSent v)) eqn:Hneg; cbn;
        (destruct ((add64 (Offset msg) 1 >=? offsetTo) || (sub32 (v_length v) 1 =? 0));
         [ cbn; destruct (KafkaConsumer.Close c1 k1) as [c2 k2]; cbn;
           intros [= <- <- <- <-]; apply Hnext; cbn;
           rewrite <- ?app_assoc; reflexivity
         | apply IH; apply Hnext; cbn; rewrite <- ?app_assoc; reflexivity ]).
    + destruct (bool_decide (err = KafkaErrNoData)); cbn.
      * intros [= <- <- <- <-]. exact Hinv.
      * destruct (v_successSent v) eqn:Hsent; cbn;
          destruct (KafkaConsumer.Close c1 k1) as [c2 k2]; cbn;
          intros [= <- <- <- <-]; rewrite Hsent; unfold header_sent in *; cbn.
        -- exact Hinv.
        -- split; [discriminate|]. intros Hin. apply in_app_or in Hin.
           destruct Hin as [Hin|Hin].
           ++ destruct Hinv as [_ Hinv]. discriminate (Hinv Hin).
           ++ cbn in Hin. destruct Hin as [Hin|[]]. discriminate Hin.
Qed.

Lemma round_successSent (fuel : nat) (topic : string) (partition : Z)
    (q : string) (offsetTo : Z) (v : locals) (w : World) (fl : flow)
    (v' : locals) (w' : World) :
  (v_successSent v = true <-> header_sent w) ->
  round env Cfg fuel topic partition q offsetTo v w = Done (fl, v') w' ->
  (v_successSent v' = true <-> header_sent w').
Proof.
  intros Hinv. unfold round. unfold_monad. cbn.
  destruct (NewConsumer _ _ _ _ _ _) as [[consumer|err] k1] eqn:Hnew.
  - match goal with
    | |- context [messageLoop ?e ?f ?q ?o ?c ?vv ?ww] =>
        destruct (messageLoop e f q o c vv ww) as [[[fl1 c1] v1] w1| |] eqn:Hloop
    end; try discriminate.
    apply messageLoop_successSent in Hloop; [|exact Hinv].
    destruct fl1; [destruct (KafkaConsumer.Close c1 (Client w1)) as [c2 k2]|..];
      cbn; [unfold growSize; cbn;
            destruct (v_notEnoughSize v1);
            [destruct (v_size v1 >=? Consumer_MaxFetchSize Cfg)|]|..];
      intros [= <- <- <-]; exact Hloop.
  - destruct (v_successSent v) eqn:Hsent; cbn; intros [= <- <- <-];
      rewrite Hsent; unfold header_sent in *; cbn; [exact Hinv|].
    split; [discriminate|]. intros Hin. apply in_app_or in Hin.
    destruct Hin as [Hin|Hin].
    + destruct Hinv as [_ Hinv]. discriminate (Hinv Hin).
    + cbn in Hin. destruct Hin as [Hin|[]]. discriminate Hin.
Qed.

Lemma consumeLoop_successSent (topic : string) (partition : Z) (q : string)
    (offsetTo : Z) (fuel : nat) :
  forall v w fl v' w',
  (v_successSent v = true <-> header_sent w) ->
  consumeLoop env Cfg fuel topic partition q offsetTo v w = Done (fl, v') w' ->
  (v_successSent v' = true <-> header_sent w').
Proof.
  induction fuel as [|fuel IH]; intros v w fl v' w' Hinv; [discriminate|].
  cbn [consumeLoop]. unfold bind.
  destruct (round env Cfg fuel topic partition q offsetTo v w)
    as [[fl1 v1] w1| |] eqn:Hround; try discriminate.
  apply round_successSent in Hround; [|exact Hinv].
  destruct fl1.
  - apply IH. exact Hround.
  - intros [= <- <- <-]. exact Hround.
  - intros [= <- <- <-]. exact Hround.
Qed.

(** C5, amended.  In the read loop, when the connection is alive and
    [Message] returns an error other than "no data":
    - the inner loop ends by [return], with the loop variables as they
      were; if no message was sent yet ([successSent] is off, which by
      [consumeLoop_successSent] means the success header is not in the
      response) the error response with the status of the error is the one
      thing written; if a message was sent, nothing is written;
    - the same holds of a round whose consumer cannot be made;
    - a [return] of the inner loop is the [return] of the round and of
      [ConsumeLoop], in the same world;
    - after such a [return] the handler only runs its deferred closes: the
      response stays as it was, so the messages array and the envelope are
      not closed and no success end is made. *)
Theorem read_error_ends_response :
  (forall (fuel : nat) (q : string) (offsetTo : Z) (c : KafkaConsumer.t)
          (v : locals) (w : World) (err : error) (c1 : KafkaConsumer.t)
          (k1 : KafkaClient),
     connIsAlive env (tick w) = true ->
     KafkaConsumer.Message (Consumer_Consume env (S (tick w))) c (Client w)
       = (inr err, c1, k1) ->
     err <> KafkaErrNoData ->
     exists c' w',
       messageLoop env (S fuel) q offsetTo c v w = Done (Returned, c', v) w' /\
       response w' =
         response w ++
         (if v_successSent v then []
          else [ErrorResponse (httpStatusError err) "Unable to get message: %v"
                  (Some err)])) /\
  (forall (fuel : nat) (topic : string) (partition : Z) (q : string)
          (offsetTo : Z) (v : locals) (w w0 : World) (err : error),
     Client_NewConsumer env
       (with_MaxFetchSize Cfg (fetchBudget Cfg (v_size v) (v_length v)))
       topic partition (v_offset v) w = Done (inr err) w0 ->
     exists w',
       round env Cfg fuel topic partition q offsetTo v w = Done (Returned, v) w' /\
       response w' =
         response w ++
         (if v_successSent v then []
          else [ErrorResponse (httpStatusError err) "Unable to make consumer: %v"
                  (Some err)])) /\
  (forall (fuel : nat) (topic : string) (partition : Z) (q : string)
          (offsetTo : Z) (v : locals) (w w0 : World) (c c' : KafkaConsumer.t)
          (v' : locals) (w' : World),
     Client_NewConsumer env
       (with_MaxFetchSize Cfg (fetchBudget Cfg (v_size v) (v_length v)))
       topic partition (v_offset v) w = Done (inl c) w0 ->
     messageLoop env fuel q offsetTo c v w0 = Done (Returned, c', v') w' ->
     round env Cfg fuel topic partition q offsetTo v w
       = Done (Returned, defer_Close v' c') w' /\
     consumeLoop env Cfg (S fuel) topic partition q offsetTo v w
       = Done (Returned, defer_Close v' c') w') /\
  (forall (fuel : nat) (topic : string) (partition : Z) (q : string)
          (offset offsetTo limit : Z) (w : World) (v' : locals) (w1 : World),
     consumeLoop env Cfg fuel topic partition q offsetTo
       {| v_offset := offset; v_length := limit;
          v_size := default (Consumer_DefaultFetchSize Cfg) (MessageSize w !! topic);
          v_maxSize := 0; v_notEnoughSize := false; v_successSent := false;
          v_deferred := [] |} w = Done (Returned, v') w1 ->
     exists w',
       readMessages env Cfg fuel topic partition q offset offsetTo limit w
         = Done tt w' /\
       response w' = response w1).
Proof.
  split; [|split; [|split]].
  - intros fuel q offsetTo c v w err c1 k1 Halive Hmsg Herr.
    cbn [messageLoop]. unfold_monad. cbn. rewrite Halive. cbn. rewrite Hmsg. cbn.
    destruct (bool_decide_reflect (err = KafkaErrNoData)) as [He|_]; [contradiction|].
    destruct (v_successSent v); cbn;
      destruct (KafkaConsumer.Close c1 _) as [c2 k2]; cbn;
      eexists; eexists; (split; [reflexivity|]); cbn;
      rewrite ?app_nil_r; reflexivity.
  - intros fuel topic partition q offsetTo v w w0 err Hnew.
    assert (Hresp : response w0 = response w).
    { revert Hnew. unfold_monad. cbn.
      destruct (NewConsumer _ _ _ _ _ _) as [r k1]. cbn. intros [= _ <-]. reflexivity. }
    unfold round. unfold bind at 1. rewrite Hnew.
    destruct (v_successSent v); cbn; unfold_monad; cbn;
      eexists; (split; [reflexivity|]); cbn; rewrite Hresp, ?app_nil_r; reflexivity.
  - intros fuel topic partition q offsetTo v w w0 c c' v' w' Hnew Hloop.
    assert (Hround : round env Cfg fuel topic partition q offsetTo v w
                     = Done (Returned, defer_Close v' c') w').
    { unfold round. unfold bind at 1. rewrite Hnew.
      unfold bind at 1. rewrite Hloop. reflexivity. }
    split; [exact Hround|].
    cbn [consumeLoop]. unfold bind at 1. rewrite Hround. reflexivity.
  - intros fuel topic partition q offset offsetTo limit w v' w1 Hrun.
    unfold readMessages. unfold bind at 1. unfold MessageSize_Get at 1.
    unfold bind at 1. rewrite Hrun.
    destruct (run_deferred_frame (v_deferred v') w1) as (k' & ->).
    eexists. split; reflexivity.
Qed.

(** A round of [ConsumeLoop] that runs to its end asks for one
    consumer session, with the fetch budget [min (size * length, max)],
    the product taken in wrapping 32-bit arithmetic.  The round hands over
    to a next round only when [size] is below the maximum, and then [size]
    has become the wrapping 32-bit sum of [size] and the default fetch size;
    in every other case [size] is as it was.  A round that started with
    [notEnoughSize] off and ends with it on has left the loop, with [size]
    at or above the maximum.  When the default fetch size is not negative
    and the maximum plus the default fetch size does not pass 2^31, the
    sum does not wrap: [size] never decreases, and grows by exactly the
    default fetch size when the loop goes on.  When the product of [size]
    and [length] fits 32 bits, the budget is the minimum of that product
    and the maximum. *)
Lemma round_budget_and_growth (fuel : nat) (topic : string) (partition : Z)
    (q : string) (offsetTo : Z) (v : locals) (w : World) (fl : flow)
    (v' : locals) (w' : World) :
  round env Cfg fuel topic partition q offsetTo v w = Done (fl, v') w' ->
  sessions w' =
    sessions w ++ [(Z.min (mul32 (v_size v) (v_length v)) (Consumer_MaxFetchSize Cfg),
                    v_offset v)] /\
  (fl = NextRound ->
   v_size v < Consumer_MaxFetchSize Cfg /\
   v_size v' = add32 (v_size v) (Consumer_DefaultFetchSize Cfg)) /\
  (fl <> NextRound -> v_size v' = v_size v) /\
  (v_notEnoughSize v = false -> v_notEnoughSize v' = true ->
   fl = BreakConsumeLoop /\ Consumer_MaxFetchSize Cfg <= v_size v) /\
  (0 <= Consumer_DefaultFetchSize Cfg ->
   Consumer_MaxFetchSize Cfg + Consumer_DefaultFetchSize Cfg <= 2 ^ 31 ->
   min_int32 <= v_size v ->
   v_size v <= v_size v' /\
   (fl = NextRound -> v_size v' = v_size v + Consumer_DefaultFetchSize Cfg)) /\
  (is_int32 (v_size v * v_length v) ->
   sessions w' =
     sessions w ++ [(Z.min (v_size v * v_length v) (Consumer_MaxFetchSize Cfg),
                     v_offset v)]).
Proof.
  intros Hround.
  destruct (round_facts _ _ _ _ _ _ _ _ _ _ Hround) as (Hs & Hnext & Hother & Hflag & _).
  assert (Hbudget : fetchBudget Cfg (v_size v) (v_length v)
                    = Z.min (mul32 (v_size v) (v_length v)) (Consumer_MaxFetchSize Cfg)).
  { unfold fetchBudget.
    destruct (Z.gtb_spec (mul32 (v_size v) (v_length v)) (Consumer_MaxFetchSize Cfg)).
    - rewrite Z.min_r by lia. reflexivity.
    - rewrite Z.min_l by lia. reflexivity. }
  split_and!; auto.
  - rewrite Hs, Hbudget. reflexivity.
  - intros Hx. destruct (Hnext Hx) as (Hlt & Hsz & _). auto.
  - intros HD HGD Hmin.
    assert (Hgrow : fl = NextRound ->
                    v_size v' = v_size v + Consumer_DefaultFetchSize Cfg).
    { intros Hx. destruct (Hnext Hx) as (Hlt & Hsz & _). rewrite Hsz.
      unfold add32. apply int32_id. unfold is_int32, min_int32, max_int32 in *. lia. }
    split; [|exact Hgrow].
    destruct (decide (fl = NextRound)) as [Hx|Hx].
    + rewrite (Hgrow Hx). lia.
    + rewrite (Hother Hx). lia.
  - intros Hprod. rewrite Hs, Hbudget. unfold mul32.
    rewrite (int32_id _ Hprod). reflexivity.
Qed.

Lemma Get_insert_ne (p : Values) (key key' : string) (vs : list string) :
  key' <> key -> Get (<[key' := vs]> p) key = Get p key.
Proof. intros Hne. unfold Get. rewrite lookup_insert_ne by exact Hne. reflexivity. Qed.

Lemma Get_insert_eq (p : Values) (key : string) (s : string) :
  Get (<[key := [s]]> p) key = s.
Proof. unfold Get. rewrite lookup_insert_eq. reflexivity. Qed.

(** When the [limit] parameter of a GET request is absent, or converts to a
    value that is not positive, [length] is 1, the handler does exactly
    what it does for the same request with [limit=1], and in the read loop
    the first message returned at [length = 1] is written and ends the
    loop.  The conversion helper is taken to read "1" as 1. *)
Lemma limit_one_equivalence (p : Values) :
  toInt32 H "1" = 1 ->
  Get p "limit" = "" \/ toInt32 H (Get p "limit") <= 0 ->
  limitOf H p = 1 /\
  (forall (fuel : nat) (w : World),
     getHandler H env Cfg fuel p w
       = getHandler H env Cfg fuel (<["limit" := ["1"]]> p) w) /\
  (forall (fuel : nat) (q : string) (offsetTo : Z) (c c1 : KafkaConsumer.t)
          (v : locals) (w : World) (msg : ProtoMessage) (k1 : KafkaClient),
     v_length v = 1 ->
     connIsAlive env (tick w) = true ->
     KafkaConsumer.Message (Consumer_Consume env (S (tick w))) c (Client w)
       = (inl msg, c1, k1) ->
     exists c' w',
       messageLoop env (S fuel) q offsetTo c v w
         = Done (BreakConsumeLoop, c', after_message v msg) w' /\
       last (response w') = Some (Body (Value msg))).
Proof.
  intros Hone Hlimit.
  assert (Hl : limitOf H p = 1).
  { unfold limitOf.
    destruct (bool_decide_reflect (Get p "limit" = "")) as [He|Hne].
    - rewrite Hone. reflexivity.
    - destruct Hlimit as [Habsent|Hle]; [contradiction|].
      destruct (Z.leb_spec (toInt32 H (Get p "limit")) 0); [reflexivity|lia]. }
  assert (Hl' : limitOf H (<["limit" := ["1"]]> p) = 1).
  { unfold limitOf. rewrite Get_insert_eq.
    destruct (bool_decide_reflect ("1" = "")) as [He|_]; [discriminate He|].
    rewrite Hone. reflexivity. }
  split; [exact Hl|]. split.
  - intros fuel w. unfold getHandler, validRequest, resolveOffset.
    rewrite Hl, Hl'. rewrite !Get_insert_ne by discriminate. reflexivity.
  - intros fuel q offsetTo c c1 v w msg k1 Hv Halive Hmsg.
    cbn [messageLoop]. unfold_monad. cbn. rewrite Halive. cbn. rewrite Hmsg. cbn.
    rewrite Hv. change (sub32 1 1 =? 0) with true. rewrite orb_true_r.
    destruct (negb (v_successSent v)); cbn;
      destruct (KafkaConsumer.Close c1 _) as [c2 k2]; cbn;
      eexists; eexists; (split; [reflexivity|]); cbn; apply last_snoc.
Qed.

End HandlerProperties.

(** ** The read loop on concrete requests *)

Lemma getHandler_range_check_witness :
  (exists w',
     getHandler sample_helpers (sample_env always_no_data) SetDefaults 10
       (request "5" "1") (sample_world ∅) = Done tt w' /\
     response w' = [ErrorOutOfRange "t" 0 0 2] /\ sessions w' = []) /\
  (forall w',
     getHandler sample_helpers (sample_env message_then_error) SetDefaults 10
       (request "0" "1") (sample_world ∅) = Done tt w' ->
     range_errors w' = []).
Proof.
  set (w1 := fun p => world_after
    (validRequest sample_helpers (sample_env always_no_data) p (sample_world ∅))
    (sample_world ∅)).
  set (w2 := fun p => world_after
    (Client_GetOffsets (sample_env always_no_data) "t" 0 (w1 p)) (sample_world ∅)).
  split.
  - destruct (getHandler_range_check sample_helpers (sample_env always_no_data)
                SetDefaults 10 (request "5" "1") (sample_world ∅)
                (w1 (request "5" "1")) (w2 (request "5" "1")) 0 2)
      as [Hout _]; [vm_compute; reflexivity | vm_compute; reflexivity |].
    destruct Hout as (w' & Hrun & Hresp & Hsess & _).
    + right. vm_compute. discriminate.
    + exists w'. split; [exact Hrun|]. split; [exact Hresp | exact Hsess].
  - destruct (getHandler_range_check sample_helpers (sample_env message_then_error)
                SetDefaults 10 (request "0" "1") (sample_world ∅)
                (w1 (request "0" "1")) (w2 (request "0" "1")) 0 2)
      as [_ Hin]; [vm_compute; reflexivity | vm_compute; reflexivity |].
    intros w' Hrun. apply Hin; [|exact Hrun].
    vm_compute. split; [discriminate | reflexivity].
Defined.

(** C5, as stated, fails: the request for two messages at offset 0 whose
    first message arrives and whose second read fails ends with status 200,
    the envelope opened and the first message written, and with neither the
    closing bytes nor the success end. *)
Lemma unclosed_response_counterexample :
  exists w',
    getHandler sample_helpers (sample_env message_then_error) SetDefaults 10
      (request "0" "2") (sample_world ∅) = Done tt w' /\
    response w' =
      [BeginResponse 200; Body open_brace; Body query_key; Body "t";
       Body messages_key; Body "{}"] /\
    ~ ends_closed w'.
Proof.
  eexists. split; [vm_compute; reflexivity|]. split; [reflexivity|].
  intros [_ Hlast]. vm_compute in Hlast. discriminate Hlast.
Qed.

Lemma read_error_ends_response_witness :
  exists c' w',
    messageLoop (sample_env message_then_error) 1 "t" 2 open_consumer
      (first_read 524288) (world_at 5) = Done (Returned, c', first_read 524288) w' /\
    response w' =
      [ErrorResponse 500 "Unable to get message: %v"
         (Some (OtherError "connection reset"))].
Proof.
  destruct (read_error_ends_response (sample_env message_then_error) SetDefaults)
    as (Hstep & _ & _ & _).
  destruct (Hstep 0%nat "t" 2 open_consumer (first_read 524288) (world_at 5)
              (OtherError "connection reset") open_consumer (sample_client [1]))
    as (c' & w' & Hrun & Hresp).
  - reflexivity.
  - reflexivity.
  - discriminate.
  - exists c', w'. split; [exact Hrun | exact Hresp].
Defined.

(** C6, as stated, fails: with the default sizes (maximum 4194304, default
    524288, ceiling of the quotient 8) and a stored hint of 1 for the
    topic, a request for one message that is answered "no data" throughout
    opens nine consumer sessions. *)
Lemma nine_rounds_counterexample :
  exists w',
    getHandler sample_helpers (sample_env always_no_data) SetDefaults 30
      (request "0" "1") (sample_world {[ "t" := 1 ]}) = Done tt w' /\
    length (sessions w') = 9%nat /\
    ~ within_ceil_rounds SetDefaults (sample_world {[ "t" := 1 ]}) w'.
Proof.
  eexists. split; [vm_compute; reflexivity|]. split; [reflexivity|].
  unfold within_ceil_rounds. vm_compute. intros Hle. apply Hle. reflexivity.
Qed.

Lemma readMessages_terminates_witness :
  exists w',
    readMessages (sample_env always_no_data) SetDefaults 20 "t" 0 "t" 0 2 1
      (sample_world ∅) = Done tt w' /\
    Z.of_nat (length (sessions w')) <= 8.
Proof.
  destruct (readMessages_terminates (sample_env always_no_data) SetDefaults 20
              "t" 0 "t" 0 2 1 (sample_world ∅))
    as (w' & Hrun & _ & Hbound).
  - reflexivity.
  - reflexivity.
  - vm_compute. discriminate.
  - vm_compute. split; discriminate.
  - vm_compute. discriminate.
  - vm_compute. discriminate.
  - exists w'. split; [exact Hrun|].
    assert (Hhint : 524288 <= 524288) by lia.
    exact (Hbound Hhint).
Defined.

(** The sum wraps as well, outside the default settings: with a maximal
    fetch size of 2147483647 and a default fetch size of 2^30, a round at
    size 2^30 that gets "no data" hands over to the next round with size
    -2^31. *)
Lemma size_wraps_example :
  exists v' w',
    round (sample_env always_no_data) wide_config 5 "t" 0 "t" 2
      (first_read 1073741824) (sample_world ∅) = Done (NextRound, v') w' /\
    v_size v' = -2147483648 /\
    v_size v' < v_size (first_read 1073741824).
Proof.
  eexists. eexists. split; [vm_compute; reflexivity|].
  split; [reflexivity | reflexivity].
Qed.

Lemma round_budget_and_growth_witness :
  exists v' w',
    round (sample_env always_no_data) SetDefaults 5 "t" 0 "t" 2
      (first_read 524288) (sample_world ∅) = Done (NextRound, v') w' /\
    sessions w' = [(524288, 0)] /\ v_size v' = 1048576.
Proof.
  destruct (round (sample_env always_no_data) SetDefaults 5 "t" 0 "t" 2
              (first_read 524288) (sample_world ∅)) as [[fl v'] w'| |] eqn:Hround;
    [|vm_compute in Hround; discriminate Hround..].
  destruct (round_budget_and_growth _ _ _ _ _ _ _ _ _ _ _ _ Hround)
    as (Hs & _ & _ & _ & Hgrow & _).
  assert (Hfl : fl = NextRound).
  { vm_compute in Hround. injection Hround as Hfl _ _. symmetry. exact Hfl. }
  subst fl. exists v', w'. split; [reflexivity|]. split; [exact Hs|].
  destruct Hgrow as [_ Hgrow]; [vm_compute; discriminate ..|].
  rewrite (Hgrow eq_refl). reflexivity.
Defined.

(** ** Properties: the pool from start-up on *)

Lemma same_settings_refl (k : KafkaClient) : same_settings k k.
Proof. unfold same_settings. repeat split. Qed.

Lemma same_settings_trans (k1 k2 k3 : KafkaClient) :
  same_settings k1 k2 -> same_settings k2 k3 -> same_settings k1 k3.
Proof. unfold same_settings. intuition congruence. Qed.

Lemma kept_refl (held : list Z) (k : KafkaClient) : kept held held k k.
Proof. split; [reflexivity|]. split; [auto | apply same_settings_refl]. Qed.

Lemma kept_trans (h1 h2 h3 : list Z) (k1 k2 k3 : KafkaClient) :
  kept h1 h2 k1 k2 -> kept h2 h3 k2 k3 -> kept h1 h3 k1 k3.
Proof.
  intros (Hp1 & Hg1 & Hs1) (Hp2 & Hg2 & Hs2).
  split; [rewrite Hp2; exact Hp1|].
  split; [auto | eapply same_settings_trans; eauto].
Qed.

(** More ids lent on both sides change nothing. *)
Lemma kept_frame (extra h h' : list Z) (k k' : KafkaClient) :
  kept h h' k k' -> kept (h ++ extra) (h' ++ extra) k k'.
Proof.
  intros (Hp & Hg & Hs). split; [|auto].
  rewrite !app_assoc. rewrite Hp. reflexivity.
Qed.

Lemma getBroker_kept (k k' : KafkaClient) (id : Z) (held : list Z) :
  getBroker k = ((id, None), k') -> kept held (id :: held) k k'.
Proof.
  unfold getBroker, try_recv.
  destruct (buf (freeBrokers k)) as [|x rest] eqn:Hbuf.
  - destruct (closed (freeBrokers k)); discriminate.
  - intros [= <- <-]. unfold kept, pool_ids, gauges_ok, same_settings. cbn.
    rewrite Hbuf. split; [solve_Permutation|]. split; [|repeat split].
    cbn. intros [Hf Hd]. split; [lia | exact Hd].
Qed.

Lemma getBroker_refused (k k' : KafkaClient) (x : Z) (err : error) :
  getBroker k = ((x, Some err), k') ->
  k' = k /\ x = 0 /\ err = NoBrokers /\ buf (freeBrokers k) = [].
Proof.
  unfold getBroker, try_recv.
  destruct (buf (freeBrokers k)) as [|y rest] eqn:Hbuf.
  - destruct (closed (freeBrokers k)); intros [= <- <- <-]; auto.
  - discriminate.
Qed.

Lemma freeBroker_kept (k : KafkaClient) (id : Z) (held : list Z) :
  kept (id :: held) held k (freeBroker id k).
Proof.
  unfold kept, pool_ids, gauges_ok, same_settings, freeBroker. cbn.
  split; [solve_Permutation|]. split; [|repeat split].
  intros [Hf Hd]. rewrite length_app. cbn. split; [lia | exact Hd].
Qed.

Lemma deadBroker_kept (k : KafkaClient) (id : Z) (held : list Z) :
  kept (id :: held) held k (deadBroker id k).
Proof.
  unfold kept, pool_ids, gauges_ok, same_settings, deadBroker. cbn.
  split; [solve_Permutation|]. split; [|repeat split].
  intros [Hf Hd]. rewrite length_app. cbn. split; [exact Hf | lia].
Qed.

Lemma dialLoop_all (dial : Z -> option error) (n : nat) :
  forall (id0 : Z) (k : KafkaClient),
  (forall i : nat, (i < n)%nat -> dial (id0 + Z.of_nat i) = None) ->
  exists k',
    dialLoop n id0 dial k = Started k' /\
    buf (freeBrokers k') =
      buf (freeBrokers k) ++ map (fun i => id0 + Z.of_nat i) (seq 0 n) /\
    buf (deadBrokers k') = buf (deadBrokers k) /\
    FreeBrokers (counters k') = FreeBrokers (counters k) + Z.of_nat n /\
    DeadBrokers (counters k') = DeadBrokers (counters k) /\
    same_settings k k'.
Proof.
  induction n as [|n IH]; intros id0 k Hdial.
  - exists k. cbn. rewrite app_nil_r, Z.add_0_r.
    repeat split; auto.
  - cbn [dialLoop]. pose proof (Hdial 0%nat ltac:(lia)) as H0.
    rewrite Z.add_0_r in H0. rewrite H0.
    destruct (IH (id0 + 1) (freeBroker id0 k)) as (k' & Hrun & Hf & Hd & Hgf & Hgd & Hs).
    { intros i Hi. replace (id0 + 1 + Z.of_nat i) with (id0 + Z.of_nat (S i)) by lia.
      apply Hdial. lia. }
    exists k'. split; [exact Hrun|]. cbn in Hf, Hd, Hgf, Hgd.
    split.
    { rewrite Hf, <- app_assoc. f_equal. cbn. rewrite Z.add_0_r. f_equal.
      rewrite <- seq_shift, map_map. apply map_ext. intros i. lia. }
    split; [exact Hd|]. split; [lia|]. split; [exact Hgd|].
    eapply same_settings_trans; [|exact Hs].
    unfold same_settings, freeBroker. cbn. repeat split.
Qed.

Lemma dialLoop_fails (dial : Z -> option error) (err : error) (j : nat) :
  forall (n : nat) (id0 : Z) (k : KafkaClient),
  (j < n)%nat ->
  (forall i : nat, (i < j)%nat -> dial (id0 + Z.of_nat i) = None) ->
  dial (id0 + Z.of_nat j) = Some err ->
  dialLoop n id0 dial k = DialFailed err.
Proof.
  induction j as [|j IH]; intros n id0 k Hj Hbefore Hfail;
    (destruct n as [|n]; [lia|]); cbn [dialLoop].
  - rewrite Z.add_0_r in Hfail. rewrite Hfail. reflexivity.
  - pose proof (Hbefore 0%nat ltac:(lia)) as H0. rewrite Z.add_0_r in H0.
    rewrite H0. apply IH; [lia| |].
    + intros i Hi. replace (id0 + 1 + Z.of_nat i) with (id0 + Z.of_nat (S i)) by lia.
      apply Hbefore. lia.
    + replace (id0 + 1 + Z.of_nat j) with (id0 + Z.of_nat (S j)) by lia. exact Hfail.
Qed.

Lemma borrow_many_queue (m : nat) (l : list Z) :
  forall k : KafkaClient,
  buf (freeBrokers k) = l ->
  exists k',
    borrow_many (length l + m) k = (l, m, k') /\
    buf (freeBrokers k') = [] /\
    buf (deadBrokers k') = buf (deadBrokers k) /\
    FreeBrokers (counters k') = FreeBrokers (counters k) - Z.of_nat (length l).
Proof.
  induction l as [|id l IH]; intros k Hbuf.
  - cbn. induction m as [|m IHm].
    + exists k. cbn. repeat split; auto. lia.
    + destruct IHm as (k' & Hrun & Hf & Hd & Hg).
      exists k'. cbn [borrow_many]. unfold getBroker, try_recv. rewrite Hbuf.
      destruct (closed (freeBrokers k)); rewrite Hrun; auto.
  - cbn [length Nat.add borrow_many]. unfold getBroker, try_recv. rewrite Hbuf.
    destruct (IH (with_free k {| buf := l; closed := closed (freeBrokers k) |}
                    (FreeBrokers (counters k) - 1)) eq_refl)
      as (k' & Hrun & Hf & Hd & Hg).
    rewrite Hrun. exists k'. cbn in Hd, Hg. repeat split; auto. lia.
Qed.

Lemma release_all_queue (ids : list Z) :
  forall k : KafkaClient,
  buf (freeBrokers (release_all ids k)) = buf (freeBrokers k) ++ ids /\
  buf (deadBrokers (release_all ids k)) = buf (deadBrokers k) /\
  FreeBrokers (counters (release_all ids k))
    = FreeBrokers (counters k) + Z.of_nat (length ids).
Proof.
  induction ids as [|id ids IH]; intros k; cbn.
  - rewrite app_nil_r. repeat split; lia.
  - destruct (IH (freeBroker id k)) as (Hf & Hd & Hg).
    unfold release_all in *. rewrite Hf, Hd, Hg. cbn.
    rewrite <- app_assoc. repeat split; auto. lia.
Qed.

(** X1.  [NewClient] with a pool size that is not negative.  When every dial
    succeeds, the client holds the ids 0 to [NumConns - 1] in its free
    queue, in that order, an empty dead queue, gauges that show the lengths
    of the queues, the timeouts of the settings and an empty cache; the
    first [NumConns] borrows then lend these ids in order and every borrow
    after them is refused.  When the dial for some id below [NumConns]
    fails after the dials before it succeeded, there is no client and the
    error is that of this dial.  A negative pool size is a panic. *)
Theorem NewClient_fills_the_pool (b : BrokerConfig) (dial : Z -> option error) :
  (0 <= NumConns b ->
   (forall id, 0 <= id < NumConns b -> dial id = None) ->
   exists k,
     NewClient b dial = Started k /\
     buf (freeBrokers k) = first_ids (Z.to_nat (NumConns b)) /\
     buf (deadBrokers k) = [] /\
     gauges_ok k /\
     same_settings (fresh_client b) k /\
     forall m : nat,
       exists k',
         borrow_many (Z.to_nat (NumConns b) + m) k
           = (first_ids (Z.to_nat (NumConns b)), m, k') /\
         buf (freeBrokers k') = [] /\ FreeBrokers (counters k') = 0) /\
  (forall (j : Z) (err : error),
     0 <= j < NumConns b ->
     (forall id, 0 <= id < j -> dial id = None) ->
     dial j = Some err ->
     NewClient b dial = DialFailed err) /\
  (NumConns b < 0 -> NewClient b dial = MakeChanPanic).
Proof.
  unfold NewClient. split; [|split].
  - intros Hn Hdial.
    destruct (Z.ltb_spec (NumConns b) 0); [lia|].
    destruct (dialLoop_all dial (Z.to_nat (NumConns b)) 0 (fresh_client b))
      as (k & Hrun & Hf & Hd & Hgf & Hgd & Hs).
    { intros i Hi. apply Hdial. lia. }
    cbn in Hf, Hd, Hgf, Hgd.
    assert (Hfree : buf (freeBrokers k) = first_ids (Z.to_nat (NumConns b))).
    { rewrite Hf. unfold first_ids. apply map_ext. intros i. lia. }
    exists k. split; [exact Hrun|]. split; [exact Hfree|]. split; [exact Hd|].
    split.
    { unfold gauges_ok. rewrite Hfree, Hd, Hgf, Hgd. unfold first_ids.
      rewrite length_map, length_seq. cbn. lia. }
    split; [exact Hs|].
    intros m.
    destruct (borrow_many_queue m _ k Hfree) as (k' & Hb & Hf' & _ & Hg').
    unfold first_ids in Hb at 1. rewrite length_map, length_seq in Hb.
    exists k'. split; [exact Hb|]. split; [exact Hf'|].
    rewrite Hg', Hgf. unfold first_ids. rewrite length_map, length_seq. lia.
  - intros j err Hj Hbefore Hfail.
    destruct (Z.ltb_spec (NumConns b) 0); [lia|].
    apply (dialLoop_fails dial err (Z.to_nat j)); [lia| |].
    + intros i Hi. apply Hbefore. lia.
    + replace (0 + Z.of_nat (Z.to_nat j)) with j by lia. exact Hfail.
  - intros Hneg. destruct (Z.ltb_spec (NumConns b) 0); [reflexivity|lia].
Qed.

Lemma NewClient_fills_the_pool_witness :
  (exists k,
     NewClient sample_broker_config (fun _ => None) = Started k /\
     buf (freeBrokers k) = [0; 1; 2] /\
     exists k', borrow_many 5 k = ([0; 1; 2], 2%nat, k')) /\
  NewClient sample_broker_config
    (fun id => if id =? 1 then Some (OtherError "refused") else None)
    = DialFailed (OtherError "refused").
Proof.
  split.
  - destruct (NewClient_fills_the_pool sample_broker_config (fun _ => None))
      as (Hok & _ & _).
    destruct Hok as (k & Hrun & Hf & _ & _ & _ & Hborrow);
      [vm_compute; discriminate | reflexivity |].
    exists k. split; [exact Hrun|]. split; [exact Hf|].
    destruct (Hborrow 2%nat) as (k' & Hb & _). exists k'. exact Hb.
  - destruct (NewClient_fills_the_pool sample_broker_config
                (fun id => if id =? 1 then Some (OtherError "refused") else None))
      as (_ & Hfail & _).
    apply (Hfail 1).
    + vm_compute. split; [discriminate | reflexivity].
    + intros id Hid. assert (id = 0) as -> by lia. reflexivity.
    + reflexivity.
Defined.

(** X2.  Lending is first in, first out: after the ids [ids] were released in
    order to a pool, the next borrows lend the ids of the free queue as it
    was, then [ids], in that order, and every borrow after them is
    refused. *)
Theorem lending_is_fifo (ids : list Z) (m : nat) (k : KafkaClient) :
  exists k',
    borrow_many (length (buf (freeBrokers k) ++ ids) + m) (release_all ids k)
      = (buf (freeBrokers k) ++ ids, m, k') /\
    buf (freeBrokers k') = [] /\
    buf (deadBrokers k') = buf (deadBrokers k) /\
    FreeBrokers (counters k') =
      FreeBrokers (counters k) - Z.of_nat (length (buf (freeBrokers k))).
Proof.
  destruct (release_all_queue ids k) as (Hf & Hd & Hg).
  destruct (borrow_many_queue m _ (release_all ids k) Hf) as (k' & Hb & Hf' & Hd' & Hg').
  exists k'. split; [exact Hb|]. split; [exact Hf'|]. split; [congruence|].
  rewrite Hg', Hg, length_app. lia.
Qed.

(** ** Properties: the background goroutines *)

Lemma redial_succeeds (dial : nat -> option error) (id : Z) (k : KafkaClient)
    (j : nat) :
  forall (fuel n : nat),
  (j < fuel)%nat ->
  (forall i : nat, (i < j)%nat -> dial (n + i)%nat <> None) ->
  dial (n + j)%nat = None ->
  redial fuel dial n id k = Turned (freeBroker id k).
Proof.
  induction j as [|j IH]; intros fuel n Hfuel Hfails Hok;
    (destruct fuel as [|fuel]; [lia|]); cbn [redial].
  - rewrite Nat.add_0_r in Hok. rewrite Hok. reflexivity.
  - pose proof (Hfails 0%nat ltac:(lia)) as H0. rewrite Nat.add_0_r in H0.
    destruct (dial n) as [e|]; [|contradiction].
    apply IH; [lia| |].
    + intros i Hi. replace (S n + i)%nat with (n + S i)%nat by lia.
      apply Hfails. lia.
    + replace (S n + j)%nat with (n + S j)%nat by lia. exact Hok.
Qed.

(** X3.  One turn of the reconnect goroutine on a pool whose dead queue starts
    with [id], when the dial number [j] is the first to succeed and the
    fuel covers it: however many dials failed before, the id leaves the
    dead queue for the back of the free queue, the gauges follow, and no
    other id moves.  On an empty dead queue the goroutine waits. *)
Theorem reconnector_frees_the_id (fuel : nat) (dial : nat -> option error)
    (k : KafkaClient) :
  (forall (id : Z) (rest : list Z) (j : nat),
     buf (deadBrokers k) = id :: rest ->
     (j < fuel)%nat ->
     (forall i : nat, (i < j)%nat -> dial i <> None) ->
     dial j = None ->
     exists k',
       reconnector fuel dial k = Turned k' /\
       buf (freeBrokers k') = buf (freeBrokers k) ++ [id] /\
       buf (deadBrokers k') = rest /\
       FreeBrokers (counters k') = FreeBrokers (counters k) + 1 /\
       DeadBrokers (counters k') = DeadBrokers (counters k) - 1 /\
       kept [] [] k k') /\
  (buf (deadBrokers k) = [] -> closed (deadBrokers k) = false ->
   reconnector fuel dial k = Waits).
Proof.
  split.
  - intros id rest j Hbuf Hfuel Hfails Hok.
    unfold reconnector, recv. rewrite Hbuf.
    rewrite (redial_succeeds dial id _ j fuel 0 Hfuel Hfails Hok).
    eexists. split; [reflexivity|]. cbn.
    repeat split; auto.
    + unfold pool_ids. cbn. rewrite Hbuf. solve_Permutation.
    + destruct H as [Hf Hd]. cbn. rewrite length_app. cbn. lia.
    + destruct H as [Hf Hd]. cbn. rewrite Hbuf in Hd. cbn in Hd. lia.
  - intros Hbuf Hopen. unfold reconnector, recv. rewrite Hbuf, Hopen. reflexivity.
Qed.

Lemma reconnector_frees_the_id_witness :
  exists k',
    reconnector 5 (fun n => if (n <? 3)%nat then Some (OtherError "down") else None)
      (deadBroker 1 (sample_client [0])) = Turned k' /\
    buf (freeBrokers k') = [0; 1] /\ buf (deadBrokers k') = [].
Proof.
  destruct (reconnector_frees_the_id 5
              (fun n => if (n <? 3)%nat then Some (OtherError "down") else None)
              (deadBroker 1 (sample_client [0]))) as [Hturn _].
  destruct (Hturn 1 [] 3%nat) as (k' & Hrun & Hf & Hd & _).
  - reflexivity.
  - lia.
  - intros i Hi. destruct i as [|[|[|i]]]; [discriminate..|lia].
  - reflexivity.
  - exists k'. split; [exact Hrun|]. split; [exact Hf | exact Hd].
Defined.

(** X4.  One firing of the rolling-reconnect timer moves the id at the head of
    the free queue to the back of the dead queue and does nothing on an
    empty free queue; no id is lost and the gauges stay right.  With an
    empty dead queue, the turn of the reconnect goroutine that follows puts
    that id at the back of the free queue: the free queue is rotated by
    one. *)
Theorem rollingReconnect_recycles (k : KafkaClient) :
  kept [] [] k (rollingReconnect k) /\
  (buf (freeBrokers k) = [] -> rollingReconnect k = k) /\
  (forall (id : Z) (rest : list Z),
     buf (freeBrokers k) = id :: rest ->
     buf (freeBrokers (rollingReconnect k)) = rest /\
     buf (deadBrokers (rollingReconnect k)) = buf (deadBrokers k) ++ [id] /\
     (buf (deadBrokers k) = [] ->
      forall (fuel : nat) (dial : nat -> option error),
        dial 0%nat = None ->
        exists k',
          reconnector (S fuel) dial (rollingReconnect k) = Turned k' /\
          buf (freeBrokers k') = rest ++ [id] /\
          buf (deadBrokers k') = [] /\
          counters k' = counters k)).
Proof.
  unfold rollingReconnect.
  destruct (getBroker k) as [[id [err|]] k1] eqn:Hget.
  - destruct (getBroker_refused _ _ _ _ Hget) as (-> & _ & _ & Hempty).
    split; [apply kept_refl|]. split; [reflexivity|].
    intros id' rest Hbuf. rewrite Hbuf in Hempty. discriminate.
  - split.
    { eapply kept_trans; [apply (getBroker_kept _ _ _ [] Hget)|].
      apply deadBroker_kept. }
    revert Hget. unfold getBroker, try_recv.
    destruct (buf (freeBrokers k)) as [|x rest'] eqn:Hbuf.
    + destruct (closed (freeBrokers k)); discriminate.
    + intros [= <- <-]. split; [discriminate|].
      intros id' rest [= <- <-]. cbn. split; [reflexivity|]. split; [reflexivity|].
      intros Hdead fuel dial Hdial. unfold reconnector, recv. cbn.
      rewrite Hdead. cbn. rewrite Hdial. eexists. split; [reflexivity|]. cbn.
      repeat split. destruct (counters k) as [d f]. cbn. f_equal; lia.
Qed.

Lemma rollingReconnect_recycles_witness :
  buf (freeBrokers (rollingReconnect (sample_client [0; 1]))) = [1] /\
  buf (deadBrokers (rollingReconnect (sample_client [0; 1]))) = [0] /\
  rollingReconnect (sample_client []) = sample_client [].
Proof.
  destruct (rollingReconnect_recycles (sample_client [0; 1])) as (_ & _ & Hmove).
  destruct (Hmove 0 [1] eq_refl) as (Hf & Hd & _).
  destruct (rollingReconnect_recycles (sample_client [])) as (_ & Hidle & _).
  split; [exact Hf|]. split; [exact Hd|]. apply Hidle. reflexivity.
Defined.

(** ** Properties: metadata and offsets through the pool *)

Lemma GetMetadata_kept (a : attempt (KafkaMetadata + error)) (k : KafkaClient) :
  kept [] [] k (snd (GetMetadata a k)) /\
  ((exists meta, fst (GetMetadata a k) = (Some meta, None)) \/
   (exists err, fst (GetMetadata a k) = (None, Some err))).
Proof.
  unfold GetMetadata.
  destruct (getBroker k) as [[id [err|]] k1] eqn:Hget.
  - destruct (getBroker_refused _ _ _ _ Hget) as (-> & _).
    split; [apply kept_refl | right; eexists; reflexivity].
  - pose proof (getBroker_kept _ _ _ [] Hget) as Hk.
    destruct (timer_fires (GetMetadataTimeout k1) a); [|destruct (outcome a)];
      cbn; (split; [eapply kept_trans; [exact Hk|];
                    first [apply deadBroker_kept | apply freeBroker_kept]|]);
      first [left; eexists; reflexivity | right; eexists; reflexivity].
Qed.

Lemma GetOffsets_kept (topic : string) (partitionID : Z) (run : offsetsRun)
    (k : KafkaClient) :
  kept [] [] k (snd (GetOffsets topic partitionID run k)).
Proof.
  unfold GetOffsets.
  destruct (getBroker k) as [[id [err|]] k1] eqn:Hget.
  - destruct (getBroker_refused _ _ _ _ Hget) as (-> & _). apply kept_refl.
  - pose proof (getBroker_kept _ _ _ [] Hget) as Hk. cbn.
    match goal with |- context [if ?b then _ else _] => destruct b end;
      (eapply kept_trans; [exact Hk|]);
      first [apply deadBroker_kept | apply freeBroker_kept].
Qed.

(** X5.  [GetMetadata] never loses the id it borrows and keeps the gauges right.
    On an empty free queue it returns the no-brokers error and leaves the
    client alone.  Otherwise the id at the head of the free queue goes to
    the back of the dead queue, with the metadata-timeout error, exactly
    when the deadline fired (a positive timeout and a late call), and to
    the back of the free queue in every other case, with the snapshot the
    call delivered and no error, or with the error of the call. *)
Theorem GetMetadata_hands_back (a : attempt (KafkaMetadata + error))
    (k : KafkaClient) :
  kept [] [] k (snd (GetMetadata a k)) /\
  (buf (freeBrokers k) = [] -> GetMetadata a k = ((None, Some NoBrokers), k)) /\
  (forall (id : Z) (rest : list Z),
     buf (freeBrokers k) = id :: rest ->
     (0 < GetMetadataTimeout k /\ late a = true ->
      snd (fst (GetMetadata a k)) = Some MetadataReadTimeout /\
      buf (freeBrokers (snd (GetMetadata a k))) = rest /\
      buf (deadBrokers (snd (GetMetadata a k))) = buf (deadBrokers k) ++ [id]) /\
     (~ (0 < GetMetadataTimeout k /\ late a = true) ->
      match outcome a with
      | inl meta => fst (GetMetadata a k) = (Some meta, None)
      | inr kafkaErr => snd (fst (GetMetadata a k)) = Some kafkaErr
      end /\
      buf (freeBrokers (snd (GetMetadata a k))) = rest ++ [id] /\
      buf (deadBrokers (snd (GetMetadata a k))) = buf (deadBrokers k))).
Proof.
  split; [|split].
  - apply GetMetadata_kept.
  - intros Hbuf. unfold GetMetadata, getBroker, try_recv. rewrite Hbuf.
    destruct (closed (freeBrokers k)); reflexivity.
  - intros id rest Hbuf. unfold GetMetadata, getBroker, try_recv, timer_fires.
    rewrite Hbuf. cbn. split.
    + intros [Ht Hl]. rewrite Hl.
      destruct (Z.ltb_spec 0 (GetMetadataTimeout k)); [|lia]. cbn. auto.
    + intros Hno.
      assert (Hf : (0 <? GetMetadataTimeout k) && late a = false).
      { destruct (Z.ltb_spec 0 (GetMetadataTimeout k)); [|reflexivity].
        destruct (late a); [|reflexivity]. exfalso. apply Hno. auto. }
      rewrite Hf. destruct (outcome a); cbn; auto.
Qed.

Lemma GetMetadata_hands_back_witness :
  buf (freeBrokers (snd (GetMetadata (too_late (inl sample_metadata))
                           (sample_client [0; 1])))) = [1] /\
  buf (deadBrokers (snd (GetMetadata (too_late (inl sample_metadata))
                           (sample_client [0; 1])))) = [0] /\
  buf (freeBrokers (snd (GetMetadata (on_time (inr KafkaErrNoData))
                           (sample_client [0; 1])))) = [1; 0] /\
  GetMetadata (on_time (inl sample_metadata)) (sample_client [])
    = ((None, Some NoBrokers), sample_client []).
Proof.
  destruct (GetMetadata_hands_back (too_late (inl sample_metadata))
              (sample_client [0; 1])) as (_ & _ & Hlate).
  destruct (Hlate 0 [1] eq_refl) as [Hfired _].
  destruct Hfired as (_ & Hf & Hd); [split; reflexivity|].
  destruct (GetMetadata_hands_back (on_time (inr KafkaErrNoData))
              (sample_client [0; 1])) as (_ & _ & Hok).
  destruct (Hok 0 [1] eq_refl) as [_ Hdone].
  destruct Hdone as (_ & Hf' & _); [intros [_ Hl]; discriminate Hl|].
  destruct (GetMetadata_hands_back (on_time (inl sample_metadata))
              (sample_client [])) as (_ & Hnone & _).
  split; [exact Hf|]. split; [exact Hd|]. split; [exact Hf'|].
  apply Hnone. reflexivity.
Defined.

(** X6.  [GetOffsets] never loses the id it borrows and keeps the gauges right.
    On an empty free queue it returns zero offsets with the no-brokers
    error and leaves the client alone.  Otherwise the id goes to the dead
    queue exactly when one of the two selects took the deadline branch, and
    back to the free queue when none did; and the error returned is the one
    the second select sets, whatever the first select set: the read-timeout
    error when the second select took the deadline branch, and else the
    error it received, nil included. *)
Theorem GetOffsets_hands_back (topic : string) (partitionID : Z)
    (run : offsetsRun) (k : KafkaClient) :
  kept [] [] k (snd (GetOffsets topic partitionID run k)) /\
  (buf (freeBrokers k) = [] ->
   GetOffsets topic partitionID run k = ((0, 0, Some NoBrokers), k)) /\
  (forall (id : Z) (rest : list Z),
     buf (freeBrokers k) = id :: rest ->
     let fired :=
       timer_fires (GetOffsetsTimeout k) (first_select run)
       || timer_fires (GetOffsetsTimeout k) (second_select run) in
     let k' := snd (GetOffsets topic partitionID run k) in
     fst (GetOffsets topic partitionID run k) =
       (earliest run, latest run,
        if timer_fires (GetOffsetsTimeout k) (second_select run)
        then Some ReadTimeout else outcome (second_select run)) /\
     buf (freeBrokers k') = (if fired then rest else rest ++ [id]) /\
     buf (deadBrokers k') =
       (if fired then buf (deadBrokers k) ++ [id] else buf (deadBrokers k))).
Proof.
  split; [|split].
  - apply GetOffsets_kept.
  - intros Hbuf. unfold GetOffsets, getBroker, try_recv. rewrite Hbuf.
    destruct (closed (freeBrokers k)); reflexivity.
  - intros id rest Hbuf. unfold GetOffsets, getBroker, try_recv, offsets_select.
    rewrite Hbuf. cbn.
    destruct (timer_fires (GetOffsetsTimeout k) (first_select run));
      destruct (timer_fires (GetOffsetsTimeout k) (second_select run));
      cbn; auto.
Qed.

Lemma GetOffsets_hands_back_witness :
  fst (GetOffsets "t" 0
         {| first_select := on_time (Some (OtherError "broken pipe"));
            second_select := on_time None; earliest := 0; latest := 7 |}
         (sample_client [0; 1])) = (0, 7, None) /\
  buf (freeBrokers (snd (GetOffsets "t" 0
         {| first_select := on_time (Some (OtherError "broken pipe"));
            second_select := on_time None; earliest := 0; latest := 7 |}
         (sample_client [0; 1])))) = [1; 0].
Proof.
  destruct (GetOffsets_hands_back "t" 0
              {| first_select := on_time (Some (OtherError "broken pipe"));
                 second_select := on_time None; earliest := 0; latest := 7 |}
              (sample_client [0; 1])) as (_ & _ & Hrun).
  destruct (Hrun 0 [1] eq_refl) as (Hres & Hf & _).
  split; [exact Hres | exact Hf].
Defined.

Lemma FetchMetadata_fresh_enough (now : Z) (a : attempt (KafkaMetadata + error))
    (k : KafkaClient) :
  0 <= now <= max_int64 ->
  0 < lastUpdateMetadata k <= max_int64 ->
  0 < MetadataCachePeriod k <= max_int64 ->
  Z.abs (now - lastUpdateMetadata k) < MetadataCachePeriod k ->
  FetchMetadata now a k = ((lastMetadata k, None), k).
Proof.
  intros Hnow Hlast Hp Hnear. unfold FetchMetadata, sub64, neg64.
  unfold max_int64 in *.
  destruct (Z.ltb_spec 0 (MetadataCachePeriod k)); [|lia].
  destruct (Z.ltb_spec 0 (lastUpdateMetadata k)); [|lia]. cbn.
  rewrite (int64_id (now - lastUpdateMetadata k))
    by (unfold is_int64, min_int64, max_int64; lia).
  rewrite (int64_id (MetadataCachePeriod k))
    by (unfold is_int64, min_int64, max_int64; lia).
  destruct (Z.ltb_spec (now - lastUpdateMetadata k) 0).
  - rewrite int64_id by (unfold is_int64, min_int64, max_int64; lia).
    destruct (Z.ltb_spec (- (now - lastUpdateMetadata k)) (MetadataCachePeriod k));
      [reflexivity | lia].
  - destruct (Z.ltb_spec (now - lastUpdateMetadata k) (MetadataCachePeriod k));
      [reflexivity | lia].
Qed.

(** X7.  One firing of the metadata-refresh timer at the clock reading [t].
    When [GetMetadata] fails, the cache is left as it was.  When it
    delivers a snapshot, the snapshot is stored with the stamp [t], and
    from then on [FetchMetadata] at any clock reading less than the cache
    period away from [t] returns that very snapshot and leaves the client
    alone.  In both cases no id is lost. *)
Theorem refresh_then_fetch (t : Z) (a : attempt (KafkaMetadata + error))
    (k : KafkaClient) :
  pool_ids (refreshMetadata t a k) ≡ₚ pool_ids k /\
  (forall err, snd (fst (GetMetadata a k)) = Some err ->
     lastMetadata (refreshMetadata t a k) = lastMetadata k /\
     lastUpdateMetadata (refreshMetadata t a k) = lastUpdateMetadata k) /\
  (forall (meta : KafkaMetadata) (now : Z) (a' : attempt (KafkaMetadata + error)),
     fst (GetMetadata a k) = (Some meta, None) ->
     0 < t <= max_int64 ->
     0 <= now <= max_int64 ->
     0 < MetadataCachePeriod k <= max_int64 ->
     Z.abs (now - t) < MetadataCachePeriod k ->
     FetchMetadata now a' (refreshMetadata t a k)
       = ((Some meta, None), refreshMetadata t a k)).
Proof.
  destruct (GetMetadata_kept a k) as ((Hperm & _ & Hset) & _).
  unfold refreshMetadata.
  destruct (GetMetadata a k) as [[meta [err|]] k1] eqn:Hget; cbn in *.
  - rewrite app_nil_r in Hperm. rewrite app_nil_r in Hperm.
    split; [exact Hperm|]. split.
    + intros err' _. unfold same_settings in Hset. intuition.
    + intros meta' now a' Hres. discriminate Hres.
  - rewrite !app_nil_r in Hperm.
    split; [exact Hperm|]. split; [intros err' Hx; discriminate Hx|].
    intros meta' now a' [= ->] Ht Hnow Hp Hnear.
    apply (FetchMetadata_fresh_enough now a' (with_cache k1 (Some meta') t)); cbn;
      unfold same_settings in Hset; destruct Hset as (_ & Hmcp & _);
      rewrite ?Hmcp; auto.
Qed.

Lemma refresh_then_fetch_witness :
  FetchMetadata 1700000002000000000 (on_time (inr KafkaErrNoData))
    (refreshMetadata 1700000000000000000 (on_time (inl sample_metadata))
       (sample_client [0]))
  = ((Some sample_metadata, None),
     refreshMetadata 1700000000000000000 (on_time (inl sample_metadata))
       (sample_client [0])).
Proof.
  destruct (refresh_then_fetch 1700000000000000000 (on_time (inl sample_metadata))
              (sample_client [0])) as (_ & _ & Hfetch).
  apply Hfetch.
  - reflexivity.
  - vm_compute. split; [reflexivity | discriminate].
  - vm_compute. split; discriminate.
  - vm_compute. split; [reflexivity | discriminate].
  - vm_compute. reflexivity.
Defined.

(** ** Properties: what start-up establishes for good *)

Lemma dialLoop_started (dial : Z -> option error) (n : nat) :
  forall (id0 : Z) (k0 k : KafkaClient),
  dialLoop n id0 dial k0 = Started k ->
  length (pool_ids k) = (length (pool_ids k0) + n)%nat /\
  lastMetadata k = lastMetadata k0 /\
  lastUpdateMetadata k = lastUpdateMetadata k0.
Proof.
  induction n as [|n IH]; intros id0 k0 k; cbn [dialLoop].
  - intros [= <-]. split; [lia | auto].
  - destruct (dial id0); [discriminate|]. intros Hrun.
    apply IH in Hrun. destruct Hrun as (Hlen & Hm & Hu).
    split; [|split; [exact Hm | exact Hu]].
    rewrite Hlen. unfold pool_ids, freeBroker. cbn.
    rewrite !length_app. cbn. lia.
Qed.

(** X8.  The two queues are channels made with room for [NumConns] ids.  From
    the client [NewClient] returns, through whatever keeps the ids (the
    pool operations, the sessions, the handlers), the ids in the free
    queue, those in the dead queue and those lent out number [NumConns]
    together: a send to either queue always finds room. *)
Theorem queues_fit_their_channels (b : BrokerConfig) (dial : Z -> option error)
    (k k' : KafkaClient) (held : list Z) :
  NewClient b dial = Started k ->
  kept [] held k k' ->
  (length (buf (freeBrokers k')) + length (buf (deadBrokers k')) + length held)%nat
    = Z.to_nat (NumConns b).
Proof.
  unfold NewClient. destruct (NumConns b <? 0); [discriminate|].
  intros Hrun (Hperm & _). apply dialLoop_started in Hrun.
  destruct Hrun as (Hlen & _).
  apply Permutation_length in Hperm. rewrite !length_app in Hperm.
  unfold pool_ids in *. rewrite !length_app in *. cbn in *. lia.
Qed.

Lemma queues_fit_their_channels_witness :
  (length (buf (freeBrokers (rollingReconnect started_client)))
   + length (buf (deadBrokers (rollingReconnect started_client))) + 0)%nat
  = 3%nat.
Proof.
  apply (queues_fit_their_channels sample_broker_config (fun _ => None)
           started_client (rollingReconnect started_client) []).
  - reflexivity.
  - eapply kept_trans; [apply (getBroker_kept _ _ 0 []); reflexivity|].
    apply deadBroker_kept.
Defined.

(** X9.  A cache with a stamp always holds a snapshot: [NewClient] returns a
    client without a stamp, a firing of the refresh timer stores a stamp
    only together with the snapshot [GetMetadata] delivered, and nothing
    that keeps the ids touches the cache.  With such a cache
    [FetchMetadata] never returns neither a snapshot nor an error. *)
Theorem cache_stays_sound :
  (forall b dial k, NewClient b dial = Started k -> cache_ok k) /\
  (forall t a k, cache_ok k -> cache_ok (refreshMetadata t a k)) /\
  (forall h h' k k', kept h h' k k' -> cache_ok k -> cache_ok k') /\
  (forall now a k, cache_ok k ->
     snd (fst (FetchMetadata now a k)) = None ->
     fst (fst (FetchMetadata now a k)) <> None).
Proof.
  split; [|split; [|split]].
  - intros b dial k. unfold NewClient. destruct (NumConns b <? 0); [discriminate|].
    intros Hrun. apply dialLoop_started in Hrun. destruct Hrun as (_ & _ & Hu).
    unfold cache_ok. rewrite Hu. cbn. lia.
  - intros t a k Hc. unfold refreshMetadata.
    destruct (GetMetadata_kept a k) as ((_ & _ & Hs) & Hr).
    destruct (GetMetadata a k) as [[meta err] k1]. cbn in *.
    destruct err as [err|].
    + unfold same_settings in Hs. unfold cache_ok in *.
      destruct Hs as (_ & _ & _ & _ & -> & -> & _). exact Hc.
    + destruct Hr as [[m [= -> ]]|[e Hx]]; [|discriminate Hx].
      unfold cache_ok. cbn. intros _. discriminate.
  - intros h h' k k' (_ & _ & Hs) Hc. unfold same_settings in Hs.
    unfold cache_ok in *. destruct Hs as (_ & _ & _ & _ & -> & -> & _). exact Hc.
  - intros now a k Hc.
    assert (Hget : snd (fst (GetMetadata a k)) = None ->
                   fst (fst (GetMetadata a k)) <> None).
    { destruct (GetMetadata_kept a k) as [_ [[meta ->]|[err ->]]]; cbn;
        [intros _ | ]; discriminate. }
    unfold FetchMetadata.
    destruct ((0 <? MetadataCachePeriod k) && (0 <? lastUpdateMetadata k)) eqn:Hon;
      [|exact Hget].
    match goal with |- context [if ?b then _ else _] => destruct b end;
      [|exact Hget].
    cbn. intros _. apply andb_true_iff in Hon. destruct Hon as [_ Hs].
    apply Z.ltb_lt in Hs. exact (Hc Hs).
Qed.

Lemma cache_stays_sound_witness :
  cache_ok (refreshMetadata 1700000000000000000 (on_time (inl sample_metadata))
              (sample_client [0])) /\
  fst (fst (FetchMetadata 1700000000000000000 (on_time (inr KafkaErrNoData))
              cached_client)) <> None.
Proof.
  destruct cache_stays_sound as (_ & Hrefresh & _ & Hfetch).
  split.
  - apply Hrefresh. intros Hlt. vm_compute in Hlt. discriminate Hlt.
  - apply Hfetch.
    + intros _. discriminate.
    + reflexivity.
Defined.

(** ** Properties: the views of a snapshot *)

Lemma Topics_loop_tolerated (ts : list MetadataRespTopic) (topics : list string) :
  Forall tolerated ts ->
  Topics_loop ts topics = (Some (topics ++ map Name ts), None).
Proof.
  revert topics. induction ts as [|t ts IH]; intros topics Hall; simpl.
  - rewrite app_nil_r. reflexivity.
  - inversion Hall as [|? ? Ht Hts]; subst.
    assert (Hstep : Topics_loop ts (topics ++ [Name t])
                    = (Some (topics ++ Name t :: map Name ts), None)).
    { rewrite (IH _ Hts). rewrite <- app_assoc. reflexivity. }
    destruct Ht as [-> | ->]; [exact Hstep|].
    rewrite bool_decide_eq_true_2 by reflexivity. exact Hstep.
Qed.

Lemma Topics_loop_stops (pre post : list MetadataRespTopic)
    (t : MetadataRespTopic) (e : error) (topics : list string) :
  Forall tolerated pre -> TopicErr t = Some e -> e <> ErrLeaderNotAvailable ->
  Topics_loop (pre ++ t :: post) topics = (None, Some e).
Proof.
  revert topics. induction pre as [|u pre IH]; intros topics Hall He Hne; simpl.
  - rewrite He. rewrite bool_decide_eq_false_2 by exact Hne. reflexivity.
  - inversion Hall as [|? ? Hu Hpre]; subst.
    destruct Hu as [-> | ->]; [apply IH; assumption|].
    rewrite bool_decide_eq_true_2 by reflexivity. apply IH; assumption.
Qed.

(** X10.  [Topics] lists the names of all topic records, in the order of the
    snapshot, when every record has no marker or the marker of a missing
    leader; and it returns the first marker of another kind, with no list,
    as soon as there is one. *)
Theorem Topics_lists_or_fails (m : KafkaMetadata) :
  (Forall tolerated (Metadata m) ->
   Topics m = (Some (map Name (Metadata m)), None)) /\
  (forall pre t post e,
     Metadata m = pre ++ t :: post -> Forall tolerated pre ->
     TopicErr t = Some e -> e <> ErrLeaderNotAvailable ->
     Topics m = (None, Some e)).
Proof.
  unfold Topics. split.
  - intros Hall. apply (Topics_loop_tolerated _ [] Hall).
  - intros pre t post e -> Hall He Hne. apply Topics_loop_stops; assumption.
Qed.

Lemma Topics_lists_or_fails_witness :
  Topics marked_metadata = (None, first_marker (Metadata marked_metadata)) /\
  Topics sample_metadata = (Some (map Name (Metadata sample_metadata)), None).
Proof.
  split.
  - destruct (Topics_lists_or_fails marked_metadata) as [_ Hstop].
    apply (Hstop [] {| Name := "a";
                       TopicErr := Some KafkaErrUnknownTopicOrPartition;
                       TPartitions := [] |}
                 (Metadata sample_metadata) KafkaErrUnknownTopicOrPartition).
    + reflexivity.
    + constructor.
    + reflexivity.
    + discriminate.
  - destruct (Topics_lists_or_fails sample_metadata) as [Hall _].
    apply Hall. repeat constructor.
Defined.

Lemma inTopics_loop_scan (ts : list MetadataRespTopic) (name : string) :
  (In name (map Name (unmarked_prefix ts)) ->
   inTopics_loop ts name = (true, None)) /\
  (~ In name (map Name (unmarked_prefix ts)) ->
   inTopics_loop ts name = (false, first_marker ts)).
Proof.
  induction ts as [|t ts [IHyes IHno]]; simpl.
  - split; [intros []|reflexivity].
  - destruct (TopicErr t) as [e|]; simpl.
    + split; [intros []|reflexivity].
    + destruct (bool_decide_reflect (name = Name t)) as [Heq|Hne].
      * split; [reflexivity|]. intros Hno. exfalso. apply Hno. left. auto.
      * split.
        -- intros [Heq|Hin]; [congruence|auto].
        -- intros Hno. apply IHno. intros Hin. apply Hno. right. exact Hin.
Qed.

Lemma unmarked_prefix_all (ts : list MetadataRespTopic) :
  first_marker ts = None -> unmarked_prefix ts = ts.
Proof.
  induction ts as [|t ts IH]; simpl; [reflexivity|].
  destruct (TopicErr t); [discriminate|]. intros Hm. rewrite (IH Hm). reflexivity.
Qed.

Lemma first_marker_clean (ts : list MetadataRespTopic) :
  first_marker ts = None <-> Forall (fun t => TopicErr t = None) ts.
Proof.
  induction ts as [|t ts IH]; simpl.
  - split; [constructor|reflexivity].
  - destruct (TopicErr t) eqn:He.
    + split; [discriminate|]. intros Hall. inversion Hall; congruence.
    + rewrite IH. split; [intros Hall; constructor; assumption|].
      intros Hall. inversion Hall; assumption.
Qed.

(** X11.  [inTopics] scans the topic records in order: it answers true when the
    name is met before any marker, and else false with the first marker
    of the snapshot, of whatever kind.  So on a snapshot without markers it
    answers true exactly for the names [Topics] lists, while a marker of a
    missing leader on a record, which [Topics] lists all the same, makes
    [inTopics] fail for every name not met before it. *)
Theorem inTopics_against_Topics (m : KafkaMetadata) (name : string) :
  (In name (map Name (unmarked_prefix (Metadata m))) ->
   inTopics m name = (true, None)) /\
  (~ In name (map Name (unmarked_prefix (Metadata m))) ->
   inTopics m name = (false, first_marker (Metadata m))) /\
  (first_marker (Metadata m) = None ->
   exists topics, Topics m = (Some topics, None) /\
                  snd (inTopics m name) = None /\
                  (fst (inTopics m name) = true <-> In name topics)) /\
  (forall pre t post,
     Metadata m = pre ++ t :: post ->
     Forall (fun u => TopicErr u = None) pre ->
     TopicErr t = Some ErrLeaderNotAvailable ->
     Forall tolerated post ->
     ~ In name (map Name pre) ->
     Topics m = (Some (map Name (Metadata m)), None) /\
     inTopics m name = (false, Some ErrLeaderNotAvailable)).
Proof.
  destruct (inTopics_loop_scan (Metadata m) name) as [Hyes Hno].
  unfold inTopics. split; [exact Hyes|]. split; [exact Hno|]. split.
  - intros Hclean. exists (map Name (Metadata m)).
    assert (Hall : Forall tolerated (Metadata m)).
    { pose proof (proj1 (first_marker_clean _) Hclean) as Hnone.
      eapply Forall_impl; [exact Hnone|]. intros t Ht. left. exact Ht. }
    split; [apply Topics_loop_tolerated; exact Hall|].
    rewrite (unmarked_prefix_all _ Hclean) in Hyes, Hno.
    destruct (in_dec string_dec name (map Name (Metadata m))) as [Hin|Hout].
    + rewrite (Hyes Hin). cbn. tauto.
    + rewrite (Hno Hout), Hclean. cbn. split; [reflexivity|].
      split; [discriminate|contradiction].
  - intros pre t post Hm Hpre Ht Hpost Hout. split.
    + apply (Topics_loop_tolerated _ []). rewrite Hm.
      apply Forall_app. split.
      * eapply Forall_impl; [exact Hpre|]. intros u Hu. left. exact Hu.
      * constructor; [right; exact Ht | exact Hpost].
    + assert (Hpref : unmarked_prefix (Metadata m) = pre
                      /\ first_marker (Metadata m) = Some ErrLeaderNotAvailable).
      { rewrite Hm. clear Hm Hout Hyes Hno.
        induction Hpre as [|u pre Hu Hpre IH]; simpl.
        - rewrite Ht. auto.
        - rewrite Hu. destruct IH as [-> ->]. auto. }
      destruct Hpref as [Hp Hf]. rewrite Hp in Hno. rewrite (Hno Hout), Hf.
      reflexivity.
Qed.

Lemma inTopics_against_Topics_witness :
  inTopics sample_metadata "t" = (true, None) /\
  inTopics marked_metadata "t"
    = (false, Some KafkaErrUnknownTopicOrPartition) /\
  inTopics {| Metadata := [ {| Name := "a"; TopicErr := Some ErrLeaderNotAvailable;
                               TPartitions := [] |};
                            {| Name := "t"; TopicErr := None;
                               TPartitions := [] |} ] |} "t"
    = (false, Some ErrLeaderNotAvailable).
Proof.
  split; [|split].
  - destruct (inTopics_against_Topics sample_metadata "t") as (Hyes & _).
    apply Hyes. left. reflexivity.
  - destruct (inTopics_against_Topics marked_metadata "t") as (_ & Hno & _).
    apply Hno. intros [].
  - destruct (inTopics_against_Topics
                {| Metadata := [ {| Name := "a";
                                    TopicErr := Some ErrLeaderNotAvailable;
                                    TPartitions := [] |};
                                 {| Name := "t"; TopicErr := None;
                                    TPartitions := [] |} ] |} "t")
      as (_ & _ & _ & Hmark).
    apply (Hmark [] {| Name := "a"; TopicErr := Some ErrLeaderNotAvailable;
                       TPartitions := [] |}
                 [ {| Name := "t"; TopicErr := None; TPartitions := [] |} ]).
    + reflexivity.
    + constructor.
    + reflexivity.
    + repeat constructor.
    + intros [].
Defined.

Lemma partitions_of_acc (ps : list MetadataRespPartition) (pType : partitionType)
    (partitions : list Z) :
  partitions_of ps pType partitions = partitions ++ partitions_of ps pType [].
Proof.
  revert partitions. induction ps as [|p ps IH]; intros partitions; simpl.
  - rewrite app_nil_r. reflexivity.
  - destruct (bool_decide (pType = writablePartitions)
              && bool_decide (PartitionErr p = Some ErrLeaderNotAvailable)).
    + apply IH.
    + rewrite (IH (partitions ++ [ID p])), (IH [ID p]).
      rewrite <- app_assoc. reflexivity.
Qed.

Lemma partitions_of_In (ps : list MetadataRespPartition) (pType : partitionType)
    (pid : Z) :
  In pid (partitions_of ps pType []) <->
  exists p, In p ps /\ ID p = pid /\ listed pType p.
Proof.
  induction ps as [|p ps IH]; simpl.
  - split; [intros []|intros (p & [] & _)].
  - destruct (bool_decide_reflect (pType = writablePartitions)) as [Hw|Hw];
      [destruct (bool_decide_reflect (PartitionErr p = Some ErrLeaderNotAvailable))
         as [Hl|Hl]|]; simpl.
    + rewrite IH. split.
      * intros (q & Hq & Hid & Hk). exists q. auto.
      * intros (q & [<-|Hq] & Hid & Hk); [exfalso; exact (Hk Hw Hl)|].
        exists q. auto.
    + rewrite partitions_of_acc. simpl. rewrite IH. split.
      * intros [<-|(q & Hq & Hid & Hk)].
        -- exists p. split; [auto|]. split; [reflexivity|]. intros _. exact Hl.
        -- exists q. auto.
      * intros (q & [<-|Hq] & Hid & Hk); [left; exact Hid|].
        right. exists q. auto.
    + rewrite partitions_of_acc. simpl. rewrite IH. split.
      * intros [<-|(q & Hq & Hid & Hk)].
        -- exists p. split; [auto|]. split; [reflexivity|].
           intros Hx. contradiction.
        -- exists q. auto.
      * intros (q & [<-|Hq] & Hid & Hk); [left; exact Hid|].
        right. exists q. auto.
Qed.

Lemma partitions_of_all (ps : list MetadataRespPartition) :
  partitions_of ps allPartitions [] = map ID ps.
Proof.
  induction ps as [|p ps IH]; simpl; [reflexivity|].
  rewrite partitions_of_acc, IH. reflexivity.
Qed.

Lemma partitions_of_sublist (ps : list MetadataRespPartition) :
  sublist (partitions_of ps writablePartitions [])
          (partitions_of ps allPartitions []).
Proof.
  induction ps as [|p ps IH]; simpl; [constructor|].
  rewrite (partitions_of_acc ps allPartitions [ID p]). simpl.
  destruct (bool_decide (PartitionErr p = Some ErrLeaderNotAvailable)).
  - apply sublist_cons. exact IH.
  - rewrite (partitions_of_acc ps writablePartitions [ID p]). simpl.
    apply sublist_skip. exact IH.
Qed.

Lemma getPartitions_loop_scan (ts : list MetadataRespTopic) (topic : string)
    (pType : partitionType) (partitions : list Z) :
  getPartitions_loop ts topic pType partitions =
    match first_marker ts with
    | Some e => (None, Some e)
    | None => (Some (partitions ++ listed_ids ts topic pType), None)
    end.
Proof.
  revert partitions. induction ts as [|t ts IH]; intros partitions; simpl.
  - rewrite app_nil_r. reflexivity.
  - destruct (TopicErr t); [reflexivity|].
    destruct (bool_decide (Name t = topic)); simpl.
    + rewrite IH. destruct (first_marker ts); [reflexivity|].
      rewrite (partitions_of_acc _ _ partitions), <- app_assoc. reflexivity.
    + apply IH.
Qed.

Lemma listed_ids_In (ts : list MetadataRespTopic) (topic : string)
    (pType : partitionType) (pid : Z) :
  In pid (listed_ids ts topic pType) <->
  exists t p, In t ts /\ Name t = topic /\ In p (TPartitions t) /\
              ID p = pid /\ listed pType p.
Proof.
  unfold listed_ids. rewrite in_flat_map. split.
  - intros (t & Ht & Hin).
    destruct (bool_decide_reflect (Name t = topic)) as [Hn|Hn]; [|destruct Hin].
    apply partitions_of_In in Hin. destruct Hin as (p & Hp & Hid & Hk).
    exists t, p. auto.
  - intros (t & p & Ht & Hn & Hp & Hid & Hk). exists t. split; [exact Ht|].
    rewrite bool_decide_eq_true_2 by exact Hn.
    apply partitions_of_In. exists p. auto.
Qed.

Lemma listed_ids_sublist (ts : list MetadataRespTopic) (topic : string) :
  sublist (listed_ids ts topic writablePartitions)
          (listed_ids ts topic allPartitions).
Proof.
  induction ts as [|t ts IH]; simpl; [constructor|].
  apply sublist_app; [|exact IH].
  destruct (bool_decide (Name t = topic)); [apply partitions_of_sublist|constructor].
Qed.

(** X12.  [getPartitions] fails with the first marker of the snapshot whenever
    any topic record carries one, be it a record of another topic, a record
    behind the topic asked for, or the marker of a missing leader.  On a
    snapshot without markers it returns, from every record of the topic,
    the ids of the partition records, leaving out for the writable kind
    those marked with a missing leader and nothing for the other kinds. *)
Theorem getPartitions_scan (m : KafkaMetadata) (topic : string)
    (pType : partitionType) :
  (forall e, first_marker (Metadata m) = Some e ->
     getPartitions m topic pType = (None, Some e)) /\
  (first_marker (Metadata m) = None ->
   exists ids, getPartitions m topic pType = (Some ids, None) /\
     forall pid, In pid ids <->
       exists t p, In t (Metadata m) /\ Name t = topic /\
                   In p (TPartitions t) /\ ID p = pid /\ listed pType p).
Proof.
  unfold getPartitions. rewrite getPartitions_loop_scan. split.
  - intros e ->. reflexivity.
  - intros ->. exists (listed_ids (Metadata m) topic pType).
    split; [reflexivity|]. intros pid. apply listed_ids_In.
Qed.

Lemma getPartitions_scan_witness :
  getPartitions marked_metadata "t" allPartitions
    = (None, Some KafkaErrUnknownTopicOrPartition) /\
  exists ids, getPartitions sample_metadata "t" writablePartitions
                = (Some ids, None) /\ In 0 ids.
Proof.
  split.
  - destruct (getPartitions_scan marked_metadata "t" allPartitions) as [Hm _].
    apply Hm. reflexivity.
  - destruct (getPartitions_scan sample_metadata "t" writablePartitions)
      as [_ Hc].
    destruct (Hc eq_refl) as (ids & Hids & Hin). exists ids.
    split; [exact Hids|]. apply Hin.
    exists {| Name := "t"; TopicErr := None;
              TPartitions := [ {| ID := 0; PLeader := 5; Isrs := [5];
                                  PartitionErr := None |} ] |},
           {| ID := 0; PLeader := 5; Isrs := [5]; PartitionErr := None |}.
    split; [left; reflexivity|]. split; [reflexivity|].
    split; [left; reflexivity|]. split; [reflexivity|].
    intros _. discriminate.
Defined.

(** X13.  [WritablePartitions] and [Partitions] fail together and with the same
    error; when they succeed, the writable ids are a sublist of all ids,
    and the same list when no partition record of the snapshot is marked
    with a missing leader. *)
Theorem WritablePartitions_within_Partitions (m : KafkaMetadata) (topic : string) :
  snd (WritablePartitions m topic) = snd (Partitions m topic) /\
  (forall ps, fst (Partitions m topic) = Some ps ->
     exists ws, fst (WritablePartitions m topic) = Some ws /\ sublist ws ps /\
       ((forall t p, In t (Metadata m) -> In p (TPartitions t) ->
                     PartitionErr p <> Some ErrLeaderNotAvailable) ->
        ws = ps)).
Proof.
  unfold WritablePartitions, Partitions, getPartitions.
  rewrite !getPartitions_loop_scan.
  destruct (first_marker (Metadata m)); cbn.
  - split; [reflexivity|]. intros ps Hx. discriminate Hx.
  - split; [reflexivity|]. intros ps [= <-].
    exists (listed_ids (Metadata m) topic writablePartitions).
    split; [reflexivity|]. split; [apply listed_ids_sublist|].
    intros Hnone. unfold listed_ids.
    induction (Metadata m) as [|t ts IH]; simpl; [reflexivity|].
    rewrite IH by (intros u p Hu; apply Hnone; right; exact Hu). f_equal.
    destruct (bool_decide (Name t = topic)); [|reflexivity].
    assert (Ht : forall p, In p (TPartitions t) ->
                           PartitionErr p <> Some ErrLeaderNotAvailable)
      by (intros p; apply Hnone; left; reflexivity).
    clear IH Hnone. induction (TPartitions t) as [|p ps IHp]; simpl; [reflexivity|].
    rewrite (bool_decide_eq_false_2 (PartitionErr p = Some ErrLeaderNotAvailable))
      by (apply Ht; left; reflexivity).
    cbn. rewrite (partitions_of_acc ps writablePartitions [ID p]).
    rewrite (partitions_of_acc ps allPartitions [ID p]).
    rewrite IHp by (intros q Hq; apply Ht; right; exact Hq). reflexivity.
Qed.

Lemma WritablePartitions_within_Partitions_witness :
  exists ws, fst (WritablePartitions
                    {| Metadata := [ {| Name := "t"; TopicErr := None;
                         TPartitions :=
                           [ {| ID := 0; PLeader := -1; Isrs := [];
                                PartitionErr := Some ErrLeaderNotAvailable |};
                             {| ID := 1; PLeader := 5; Isrs := [5];
                                PartitionErr := None |} ] |} ] |} "t") = Some ws
             /\ sublist ws [0; 1].
Proof.
  destruct (WritablePartitions_within_Partitions
              {| Metadata := [ {| Name := "t"; TopicErr := None;
                   TPartitions :=
                     [ {| ID := 0; PLeader := -1; Isrs := [];
                          PartitionErr := Some ErrLeaderNotAvailable |};
                       {| ID := 1; PLeader := 5; Isrs := [5];
                          PartitionErr := None |} ] |} ] |} "t") as [_ Hsub].
  destruct (Hsub [0; 1] eq_refl) as (ws & Hws & Hin & _).
  exists ws. split; [exact Hws | exact Hin].
Defined.

Lemma partitions_same_record (ps : list MetadataRespPartition) (pid : Z) :
  (exists p, In p ps /\ ID p = pid /\
             Leader_partitions ps pid = Some (PLeader p) /\
             Replicas_partitions ps pid = Some (Isrs p)) \/
  ((forall p, In p ps -> ID p <> pid) /\
   Leader_partitions ps pid = None /\ Replicas_partitions ps pid = None).
Proof.
  induction ps as [|p ps IH]; simpl.
  - right. split; [intros p []|auto].
  - destruct (Z.eqb_spec (ID p) pid) as [He|Hne]; simpl.
    + left. exists p. auto.
    + destruct IH as [(q & Hq & Hid & Hl & Hr)|(Hnone & Hl & Hr)].
      * left. exists q. auto.
      * right. split; [|auto]. intros q [<-|Hq]; auto.
Qed.

Lemma loops_same_record (ts : list MetadataRespTopic) (topic : string) (pid : Z) :
  (exists t p, In t (unmarked_prefix ts) /\ Name t = topic /\
               In p (TPartitions t) /\ ID p = pid /\
               Leader_loop ts topic pid = (PLeader p, None) /\
               Replicas_loop ts topic pid = (Isrs p, None)) \/
  (~ has_partition (unmarked_prefix ts) topic pid /\
   Leader_loop ts topic pid = (-1, first_marker ts) /\
   Replicas_loop ts topic pid = ([], first_marker ts)).
Proof.
  induction ts as [|t ts IH]; simpl.
  - right. split; [intros (t & p & [] & _)|auto].
  - destruct (TopicErr t) as [e|] eqn:He.
    + right. split; [intros (t' & p & [] & _)|auto].
    + assert (Hrest :
        (Name t <> topic \/ Leader_partitions (TPartitions t) pid = None) ->
        Leader_loop ts topic pid = (-1, first_marker ts) ->
        ~ has_partition (unmarked_prefix ts) topic pid ->
        ~ has_partition (t :: unmarked_prefix ts) topic pid).
      { intros Hskip _ Hno Hhas. apply Hno.
        exact (has_partition_skip _ _ _ _ Hskip Hhas). }
      destruct (bool_decide_reflect (Name t = topic)) as [Hn|Hn]; simpl.
      * destruct (partitions_same_record (TPartitions t) pid)
          as [(p & Hp & Hid & Hl & Hr)|(Hnone & Hl & Hr)]; rewrite Hl, Hr.
        -- left. exists t, p. split; [left; reflexivity|]. auto.
        -- destruct IH as [(u & q & Hu & Hun & Hq & Hqid & Hll & Hrr)
                          |(Hno & Hll & Hrr)].
           ++ left. exists u, q. split; [right; exact Hu|]. auto.
           ++ right. split; [apply Hrest; auto|]. auto.
      * destruct IH as [(u & q & Hu & Hun & Hq & Hqid & Hll & Hrr)
                       |(Hno & Hll & Hrr)].
        -- left. exists u, q. split; [right; exact Hu|]. auto.
        -- right. split; [apply Hrest; auto|]. auto.
Qed.

Lemma unmarked_prefix_In (ts : list MetadataRespTopic) (t : MetadataRespTopic) :
  In t (unmarked_prefix ts) -> In t ts.
Proof.
  induction ts as [|u ts IH]; simpl; [tauto|].
  destruct (TopicErr u); [intros []|]. intros [<-|Hin]; auto.
Qed.

(** X14.  [Replicas] and [Leader] read the same partition record: they return
    the same error, and either both answer from one record of the topic
    and the partition, the one its replicas and the other its leader, or
    both answer with their defaults, the empty list and -1. *)
Theorem Replicas_mirrors_Leader (m : KafkaMetadata) (topic : string) (pid : Z) :
  snd (Replicas m topic pid) = snd (Leader m topic pid) /\
  ((exists t p, In t (Metadata m) /\ Name t = topic /\
                In p (TPartitions t) /\ ID p = pid /\
                Leader m topic pid = (PLeader p, None) /\
                Replicas m topic pid = (Isrs p, None)) \/
   (fst (Leader m topic pid) = -1 /\ fst (Replicas m topic pid) = [])).
Proof.
  unfold Replicas, Leader.
  destruct (loops_same_record (Metadata m) topic pid)
    as [(t & p & Ht & Hn & Hp & Hid & Hl & Hr)|(Hno & Hl & Hr)];
    rewrite Hl, Hr; cbn.
  - split; [reflexivity|]. left. exists t, p.
    split; [exact (unmarked_prefix_In _ _ Ht)|]. auto.
  - split; [reflexivity|]. right. auto.
Qed.

(** X15.  A partition id that [Partitions] lists for a topic is always found by
    [Leader] and [Replicas]: both answer from a record of that topic and
    partition and neither returns an error or its default. *)
Theorem listed_partition_is_found (m : KafkaMetadata) (topic : string)
    (pid : Z) (ps : list Z) :
  Partitions m topic = (Some ps, None) -> In pid ps ->
  exists t p, In t (Metadata m) /\ Name t = topic /\
              In p (TPartitions t) /\ ID p = pid /\
              Leader m topic pid = (PLeader p, None) /\
              Replicas m topic pid = (Isrs p, None).
Proof.
  unfold Partitions, getPartitions, Leader, Replicas.
  rewrite getPartitions_loop_scan.
  destruct (first_marker (Metadata m)) eqn:Hm; [discriminate|].
  intros [= <-] Hin. apply listed_ids_In in Hin.
  destruct Hin as (t & p & Ht & Hn & Hp & Hid & _).
  destruct (loops_same_record (Metadata m) topic pid)
    as [(u & q & Hu & Hun & Hq & Hqid & Hl & Hr)|(Hno & _)].
  - exists u, q. split; [exact (unmarked_prefix_In _ _ Hu)|]. auto.
  - exfalso. apply Hno. rewrite (unmarked_prefix_all _ Hm). exists t, p. auto.
Qed.

Lemma listed_partition_is_found_witness :
  exists t p, In t (Metadata sample_metadata) /\ Name t = "t" /\
              In p (TPartitions t) /\ ID p = 0 /\
              Leader sample_metadata "t" 0 = (PLeader p, None) /\
              Replicas sample_metadata "t" 0 = (Isrs p, None).
Proof.
  apply (listed_partition_is_found sample_metadata "t" 0 [0]).
  - reflexivity.
  - left. reflexivity.
Defined.

(** ** Properties: the life of a session *)

Lemma consumer_step_kept (u : consumer_use) (c : KafkaConsumer.t)
    (k : KafkaClient) :
  kept (consumer_owes c) (consumer_owes (fst (consumer_step (c, k) u)))
       k (snd (consumer_step (c, k) u)) /\
  (KafkaConsumer.opened c = false -> consumer_step (c, k) u = (c, k)).
Proof.
  unfold consumer_owes.
  destruct (KafkaConsumer.opened c) eqn:Ho.
  - split; [|discriminate].
    destruct u as [| |a]; cbn;
      unfold KafkaConsumer.Message, KafkaConsumer.Close, KafkaConsumer.Corrupt;
      rewrite Ho; cbn.
    + apply freeBroker_kept.
    + apply deadBroker_kept.
    + destruct (timer_fires (KafkaConsumer.GetMessageTimeout c) a); cbn.
      * apply deadBroker_kept.
      * rewrite Ho. apply kept_refl.
  - assert (Hsame : consumer_step (c, k) u = (c, k)).
    { destruct u as [| |a]; cbn;
        unfold KafkaConsumer.Message, KafkaConsumer.Close, KafkaConsumer.Corrupt;
        rewrite Ho; reflexivity. }
    rewrite Hsame. cbn. rewrite Ho. split; [apply kept_refl | reflexivity].
Qed.

Lemma consumer_uses_kept (us : list consumer_use) :
  forall (c : KafkaConsumer.t) (k : KafkaClient),
  kept (consumer_owes c) (consumer_owes (fst (consumer_uses us c k)))
       k (snd (consumer_uses us c k)).
Proof.
  unfold consumer_uses.
  induction us as [|u us IH]; intros c k; cbn [fold_left].
  - apply kept_refl.
  - destruct (consumer_step_kept u c k) as [Hk _].
    destruct (consumer_step (c, k) u) as [c1 k1].
    eapply kept_trans; [exact Hk | apply IH].
Qed.

Lemma consumer_uses_closed (us : list consumer_use) :
  forall (c : KafkaConsumer.t) (k : KafkaClient),
  KafkaConsumer.opened c = false -> consumer_uses us c k = (c, k).
Proof.
  unfold consumer_uses.
  induction us as [|u us IH]; intros c k Ho; cbn [fold_left]; [reflexivity|].
  destruct (consumer_step_kept u c k) as [_ Hc]. rewrite (Hc Ho). apply IH, Ho.
Qed.

(** X16.  The life of a consumer session.  Whatever [NewConsumer] returns, and
    however the handle is then used (reads that succeed, fail or run into
    their deadline, closes and corruptions in any order and number), once
    [Close] was called the pool holds the ids it held before the session, no
    id twice and none missing, with its gauges right; the handle is closed;
    and every further use of it leaves the handle and the client alone, a
    read returning the closed-consumer error. *)
Theorem consumer_session_returns_the_id (settings : Config) (topic : string)
    (partitionID offset : Z) (created : option error)
    (us more : list consumer_use) (a : attempt (ProtoMessage + error))
    (k : KafkaClient) :
  match NewConsumer settings topic partitionID offset created k with
  | (inr _, k1) => kept [] [] k k1
  | (inl c, k1) =>
      let '(c2, k2) := consumer_uses (us ++ [UseConsumerClose]) c k1 in
      kept [] [] k k2 /\ KafkaConsumer.opened c2 = false /\
      consumer_uses more c2 k2 = (c2, k2) /\
      KafkaConsumer.Message a c2 k2
        = (inr KafkaConsumer.ConsumerClosed, c2, k2)
  end.
Proof.
  unfold NewConsumer.
  destruct (getBroker k) as [[id [err|]] k1] eqn:Hget.
  - destruct (getBroker_refused _ _ _ _ Hget) as (-> & _). apply kept_refl.
  - pose proof (getBroker_kept _ _ _ [] Hget) as Hk.
    destruct created as [err|].
    + eapply kept_trans; [exact Hk | apply freeBroker_kept].
    + set (c := {| KafkaConsumer.brokerID := id; KafkaConsumer.opened := true;
                   KafkaConsumer.GetMessageTimeout :=
                     Consumer_GetMessageTimeout settings |}).
      unfold consumer_uses. rewrite fold_left_app. cbn [fold_left].
      pose proof (consumer_uses_kept us c k1) as Hus. unfold consumer_uses in Hus.
      destruct (fold_left consumer_step us (c, k1)) as [c1 k1'].
      cbn [fst snd] in Hus.
      destruct (consumer_step_kept UseConsumerClose c1 k1') as [Hcl _].
      assert (Ho : KafkaConsumer.opened
                     (fst (consumer_step (c1, k1') UseConsumerClose)) = false).
      { cbn. unfold KafkaConsumer.Close.
        destruct (KafkaConsumer.opened c1) eqn:Ho; cbn; auto. }
      destruct (consumer_step (c1, k1') UseConsumerClose) as [c2 k2].
      cbn [fst snd] in Hcl, Ho. split; [|split; [exact Ho|split]].
      * unfold consumer_owes at 2 in Hcl. rewrite Ho in Hcl.
        eapply kept_trans; [exact Hk|]. eapply kept_trans; [exact Hus|exact Hcl].
      * apply (consumer_uses_closed more c2 k2 Ho).
      * unfold KafkaConsumer.Message. rewrite Ho. reflexivity.
Qed.

Lemma producer_step_kept (u : producer_use) (p : KafkaProducer.t)
    (k : KafkaClient) :
  kept (producer_owes p) (producer_owes (fst (producer_step (p, k) u)))
       k (snd (producer_step (p, k) u)) /\
  (KafkaProducer.opened p = false -> producer_step (p, k) u = (p, k)).
Proof.
  unfold producer_owes.
  destruct (KafkaProducer.opened p) eqn:Ho.
  - split; [|discriminate].
    destruct u as [| |topic pid message a]; cbn;
      unfold KafkaProducer.SendMessage, KafkaProducer.Close, KafkaProducer.Corrupt;
      rewrite Ho; cbn.
    + apply freeBroker_kept.
    + apply deadBroker_kept.
    + destruct (timer_fires (KafkaProducer.SendMessageTimeout p) a); cbn.
      * apply deadBroker_kept.
      * rewrite Ho. apply kept_refl.
  - assert (Hsame : producer_step (p, k) u = (p, k)).
    { destruct u as [| |topic pid message a]; cbn;
        unfold KafkaProducer.SendMessage, KafkaProducer.Close, KafkaProducer.Corrupt;
        rewrite Ho; reflexivity. }
    rewrite Hsame. cbn. rewrite Ho. split; [apply kept_refl | reflexivity].
Qed.

Lemma producer_uses_kept (us : list producer_use) :
  forall (p : KafkaProducer.t) (k : KafkaClient),
  kept (producer_owes p) (producer_owes (fst (producer_uses us p k)))
       k (snd (producer_uses us p k)).
Proof.
  unfold producer_uses.
  induction us as [|u us IH]; intros p k; cbn [fold_left].
  - apply kept_refl.
  - destruct (producer_step_kept u p k) as [Hk _].
    destruct (producer_step (p, k) u) as [p1 k1].
    eapply kept_trans; [exact Hk | apply IH].
Qed.

Lemma producer_uses_closed (us : list producer_use) :
  forall (p : KafkaProducer.t) (k : KafkaClient),
  KafkaProducer.opened p = false -> producer_uses us p k = (p, k).
Proof.
  unfold producer_uses.
  induction us as [|u us IH]; intros p k Ho; cbn [fold_left]; [reflexivity|].
  destruct (producer_step_kept u p k) as [_ Hc]. rewrite (Hc Ho). apply IH, Ho.
Qed.

(** X17.  The life of a producer session.  [NewProducer] fails only when no id
    is free, and then leaves the client alone.  However the handle is used
    (sends that succeed, fail or run into their deadline, closes and
    corruptions in any order and number), once [Close] was called the pool
    holds the ids it held before the session, with its gauges right; the
    handle is closed; and every further use of it leaves the handle and the
    client alone, a send returning offset 0 and the closed-producer
    error. *)
Theorem producer_session_returns_the_id (settings : Config)
    (us more : list producer_use) (topic : string) (partitionID : Z)
    (message : string) (a : attempt (Z * option error)) (k : KafkaClient) :
  match NewProducer settings k with
  | (inr err, k1) => k1 = k /\ err = NoBrokers /\ buf (freeBrokers k) = []
  | (inl p, k1) =>
      let '(p2, k2) := producer_uses (us ++ [UseProducerClose]) p k1 in
      kept [] [] k k2 /\ KafkaProducer.opened p2 = false /\
      producer_uses more p2 k2 = (p2, k2) /\
      KafkaProducer.SendMessage topic partitionID message a p2 k2
        = ((0, Some KafkaProducer.ProducerClosed), p2, k2)
  end.
Proof.
  unfold NewProducer.
  destruct (getBroker k) as [[id [err|]] k1] eqn:Hget.
  - destruct (getBroker_refused _ _ _ _ Hget) as (-> & _ & -> & Hb). auto.
  - pose proof (getBroker_kept _ _ _ [] Hget) as Hk.
    set (p := {| KafkaProducer.brokerID := id; KafkaProducer.opened := true;
                 KafkaProducer.SendMessageTimeout :=
                   Producer_SendMessageTimeout settings |}).
    unfold producer_uses. rewrite fold_left_app. cbn [fold_left].
    pose proof (producer_uses_kept us p k1) as Hus. unfold producer_uses in Hus.
    destruct (fold_left producer_step us (p, k1)) as [p1 k1'].
    cbn [fst snd] in Hus.
    destruct (producer_step_kept UseProducerClose p1 k1') as [Hcl _].
    assert (Ho : KafkaProducer.opened
                   (fst (producer_step (p1, k1') UseProducerClose)) = false).
    { cbn. unfold KafkaProducer.Close.
      destruct (KafkaProducer.opened p1) eqn:Ho; cbn; auto. }
    destruct (producer_step (p1, k1') UseProducerClose) as [p2 k2].
    cbn [fst snd] in Hcl, Ho. split; [|split; [exact Ho|split]].
    + unfold producer_owes at 2 in Hcl. rewrite Ho in Hcl.
      eapply kept_trans; [exact Hk|]. eapply kept_trans; [exact Hus|exact Hcl].
    + apply (producer_uses_closed more p2 k2 Ho).
    + unfold KafkaProducer.SendMessage. rewrite Ho. reflexivity.
Qed.

Lemma coordinator_step_kept (u : coordinator_use) (c : KafkaOffsetCoordinator.t)
    (k : KafkaClient) :
  kept (coordinator_owes c) (coordinator_owes (fst (coordinator_step (c, k) u)))
       k (snd (coordinator_step (c, k) u)) /\
  (KafkaOffsetCoordinator.opened c = false -> coordinator_step (c, k) u = (c, k)).
Proof.
  unfold coordinator_owes.
  destruct (KafkaOffsetCoordinator.opened c) eqn:Ho.
  - split; [|discriminate].
    destruct u as [| |topic pid offset a|topic pid a]; cbn;
      unfold KafkaOffsetCoordinator.CommitOffset,
             KafkaOffsetCoordinator.FetchOffset,
             KafkaOffsetCoordinator.Close, KafkaOffsetCoordinator.Corrupt;
      rewrite Ho; cbn.
    + apply freeBroker_kept.
    + apply deadBroker_kept.
    + destruct (timer_fires (KafkaOffsetCoordinator.CommitOffsetTimeout c) a); cbn.
      * apply deadBroker_kept.
      * rewrite Ho. apply kept_refl.
    + destruct (timer_fires (KafkaOffsetCoordinator.FetchOffsetTimeout c) a); cbn.
      * apply deadBroker_kept.
      * rewrite Ho. apply kept_refl.
  - assert (Hsame : coordinator_step (c, k) u = (c, k)).
    { destruct u as [| |topic pid offset a|topic pid a]; cbn;
        unfold KafkaOffsetCoordinator.CommitOffset,
               KafkaOffsetCoordinator.FetchOffset,
               KafkaOffsetCoordinator.Close, KafkaOffsetCoordinator.Corrupt;
        rewrite Ho; reflexivity. }
    rewrite Hsame. cbn. rewrite Ho. split; [apply kept_refl | reflexivity].
Qed.

Lemma coordinator_uses_kept (us : list coordinator_use) :
  forall (c : KafkaOffsetCoordinator.t) (k : KafkaClient),
  kept (coordinator_owes c) (coordinator_owes (fst (coordinator_uses us c k)))
       k (snd (coordinator_uses us c k)).
Proof.
  unfold coordinator_uses.
  induction us as [|u us IH]; intros c k; cbn [fold_left].
  - apply kept_refl.
  - destruct (coordinator_step_kept u c k) as [Hk _].
    destruct (coordinator_step (c, k) u) as [c1 k1].
    eapply kept_trans; [exact Hk | apply IH].
Qed.

Lemma coordinator_uses_closed (us : list coordinator_use) :
  forall (c : KafkaOffsetCoordinator.t) (k : KafkaClient),
  KafkaOffsetCoordinator.opened c = false -> coordinator_uses us c k = (c, k).
Proof.
  unfold coordinator_uses.
  induction us as [|u us IH]; intros c k Ho; cbn [fold_left]; [reflexivity|].
  destruct (coordinator_step_kept u c k) as [_ Hc]. rewrite (Hc Ho). apply IH, Ho.
Qed.

(** X18.  The life of an offset-coordinator session.  When no id is free,
    [NewOffsetCoordinator] leaves the client alone; when the library
    refuses the coordinator, the borrowed id stays out of the pool with no
    handle to give it back.  When a handle is returned, then however it is
    used (commits and fetches that succeed, fail or run into their
    deadline, closes and corruptions in any order and number), once
    [Close] was called the pool holds the ids it held before the session,
    with its gauges right; the handle is closed; and every further use of
    it leaves the handle and the client alone, a commit and a fetch
    returning the closed-coordinator error. *)
Theorem coordinator_session_returns_the_id (settings : Config)
    (consumerGroup : string) (created : option error)
    (us more : list coordinator_use) (topic : string) (partitionID offset : Z)
    (a : attempt (option error)) (a' : attempt (Z * string * option error))
    (k : KafkaClient) :
  match NewOffsetCoordinator settings consumerGroup created k with
  | (inr err, k1) =>
      (k1 = k /\ err = NoBrokers /\ buf (freeBrokers k) = []) \/
      (exists id rest, buf (freeBrokers k) = id :: rest /\
                       created = Some err /\ kept [] [id] k k1 /\
                       buf (freeBrokers k1) = rest /\
                       buf (deadBrokers k1) = buf (deadBrokers k))
  | (inl c, k1) =>
      let '(c2, k2) := coordinator_uses (us ++ [UseCoordinatorClose]) c k1 in
      kept [] [] k k2 /\ KafkaOffsetCoordinator.opened c2 = false /\
      coordinator_uses more c2 k2 = (c2, k2) /\
      KafkaOffsetCoordinator.CommitOffset topic partitionID offset a c2 k2
        = (Some KafkaOffsetCoordinator.ClosedOnCommit, c2, k2) /\
      KafkaOffsetCoordinator.FetchOffset topic partitionID a' c2 k2
        = ((0, "", Some KafkaOffsetCoordinator.ClosedOnFetch), c2, k2)
  end.
Proof.
  unfold NewOffsetCoordinator.
  destruct (getBroker k) as [[id [err|]] k1] eqn:Hget.
  - destruct (getBroker_refused _ _ _ _ Hget) as (-> & _ & -> & Hb). auto.
  - pose proof (getBroker_kept _ _ _ [] Hget) as Hk.
    destruct created as [err|].
    + right. unfold getBroker, try_recv in Hget.
      destruct (buf (freeBrokers k)) as [|x rest] eqn:Hbuf;
        [destruct (closed (freeBrokers k)); discriminate|].
      injection Hget as <- <-. exists x, rest. cbn. auto.
    + set (c := {| KafkaOffsetCoordinator.brokerID := id;
                   KafkaOffsetCoordinator.opened := true;
                   KafkaOffsetCoordinator.CommitOffsetTimeout :=
                     OffsetCoordinator_CommitOffsetTimeout settings;
                   KafkaOffsetCoordinator.FetchOffsetTimeout :=
                     OffsetCoordinator_FetchOffsetTimeout settings |}).
      unfold coordinator_uses. rewrite fold_left_app. cbn [fold_left].
      pose proof (coordinator_uses_kept us c k1) as Hus.
      unfold coordinator_uses in Hus.
      destruct (fold_left coordinator_step us (c, k1)) as [c1 k1'].
      cbn [fst snd] in Hus.
      destruct (coordinator_step_kept UseCoordinatorClose c1 k1') as [Hcl _].
      assert (Ho : KafkaOffsetCoordinator.opened
                     (fst (coordinator_step (c1, k1') UseCoordinatorClose)) = false).
      { cbn. unfold KafkaOffsetCoordinator.Close.
        destruct (KafkaOffsetCoordinator.opened c1) eqn:Ho; cbn; auto. }
      destruct (coordinator_step (c1, k1') UseCoordinatorClose) as [c2 k2].
      cbn [fst snd] in Hcl, Ho. split; [|split; [exact Ho|split; [|split]]].
      * unfold coordinator_owes at 2 in Hcl. rewrite Ho in Hcl.
        eapply kept_trans; [exact Hk|]. eapply kept_trans; [exact Hus|exact Hcl].
      * apply (coordinator_uses_closed more c2 k2 Ho).
      * unfold KafkaOffsetCoordinator.CommitOffset. rewrite Ho. reflexivity.
      * unfold KafkaOffsetCoordinator.FetchOffset. rewrite Ho. reflexivity.
Qed.

(** ** Properties: the handlers and the pool *)

Lemma bind_Done {A B : Type} (m : M A) (f : A -> M B) (w w' : World) (a : A) :
  m w = Done a w' -> bind m f w = f a w'.
Proof. unfold bind. intros ->. reflexivity. Qed.

Lemma kept_cache_ok (h h' : list Z) (k k' : KafkaClient) :
  kept h h' k k' -> cache_ok k -> cache_ok k'.
Proof.
  intros (_ & _ & Hs) Hc. unfold same_settings in Hs. unfold cache_ok in *.
  destruct Hs as (_ & _ & _ & _ & -> & -> & _). exact Hc.
Qed.

Lemma FetchMetadata_answers (now : Z) (a : attempt (KafkaMetadata + error))
    (k : KafkaClient) :
  cache_ok k ->
  kept [] [] k (snd (FetchMetadata now a k)) /\
  ((exists meta, fst (FetchMetadata now a k) = (Some meta, None)) \/
   (exists err, fst (FetchMetadata now a k) = (None, Some err))).
Proof.
  intros Hc. unfold FetchMetadata.
  destruct ((0 <? MetadataCachePeriod k) && (0 <? lastUpdateMetadata k)) eqn:Hon;
    [|apply GetMetadata_kept].
  match goal with |- context [if ?b then _ else _] => destruct b end;
    [|apply GetMetadata_kept].
  cbn. split; [apply kept_refl|]. left.
  apply andb_true_iff in Hon. destruct Hon as [_ Hs]. apply Z.ltb_lt in Hs.
  destruct (lastMetadata k) as [meta|] eqn:Hm; [eauto|].
  exfalso. exact (Hc Hs Hm).
Qed.

Lemma world_kept_refl (w : World) : world_kept w w.
Proof. split; [apply kept_refl | auto]. Qed.

Lemma world_kept_trans (w1 w2 w3 : World) :
  world_kept w1 w2 -> world_kept w2 w3 -> world_kept w1 w3.
Proof.
  intros (Hk1 & Hs1 & Hm1) (Hk2 & Hs2 & Hm2).
  split; [eapply kept_trans; eauto | split; congruence].
Qed.

Lemma one_error_of_one_error (formats : list string) (w w' : World) :
  one_error_of formats w w' -> one_error w w'.
Proof. intros (s & f & a & Hr & _). exists s, f, a. exact Hr. Qed.

Section MoreHandlerProperties.
Context (H : Helpers) (env : Env) (B : Backend) (Cfg : Config).

Lemma Client_FetchMetadata_answers (w : World) :
  cache_ok (Client w) ->
  exists r k',
    Client_FetchMetadata env w =
      Done r {| Client := k'; MessageSize := MessageSize w; tick := S (tick w);
                response := response w; sessions := sessions w |} /\
    FetchMetadata (UnixNano env (tick w)) (Broker_Metadata env (tick w)) (Client w)
      = (r, k') /\
    kept [] [] (Client w) k' /\
    ((exists meta, r = (Some meta, None)) \/ (exists err, r = (None, Some err))).
Proof.
  intros Hc. unfold_monad. cbn.
  destruct (FetchMetadata_answers (UnixNano env (tick w))
              (Broker_Metadata env (tick w)) (Client w) Hc) as [Hk Hr].
  destruct (FetchMetadata _ _ _) as [r k'] eqn:Hf. cbn in *.
  exists r, k'. auto.
Qed.

Lemma Client_GetOffsets_answers (topic : string) (partitionID : Z) (w : World) :
  exists r k',
    Client_GetOffsets env topic partitionID w =
      Done r {| Client := k'; MessageSize := MessageSize w; tick := S (tick w);
                response := response w; sessions := sessions w |} /\
    kept [] [] (Client w) k'.
Proof.
  unfold_monad. cbn.
  pose proof (GetOffsets_kept topic partitionID (Broker_Offsets env (tick w))
                (Client w)) as Hk.
  destruct (GetOffsets _ _ _ _) as [r k']. cbn in *. eauto.
Qed.

Lemma validRequest_total (p : Values) (w : World) :
  cache_ok (Client w) ->
  exists ok w',
    validRequest H env p w = Done ok w' /\
    world_kept w w' /\
    (if ok then response w' = response w
     else one_error_of validRequest_formats w w') /\
    (Get p "topic" = "" ->
     ok = false /\ Client w' = Client w /\ tick w' = tick w /\
     response w' = response w
                   ++ [ErrorResponse StatusBadRequest "Topic name required" None]) /\
    (Get p "topic" <> "" -> tick w' = S (tick w)).
Proof.
  intros Hc. unfold validRequest.
  destruct (bool_decide_reflect (Get p "topic" = "")) as [Ht|Ht].
  - unfold_monad. cbn. eexists false, _. split; [reflexivity|].
    split; [split; [apply kept_refl | auto]|].
    split; [eexists _, _, _; split; [reflexivity | in_formats]|].
    split; [intros _; auto | intros Hx; contradiction].
  - unfold bind at 1.
    destruct (Client_FetchMetadata_answers w Hc) as (r & k' & -> & _ & Hk & Hr).
    assert (Hw : forall out,
              world_kept w {| Client := k'; MessageSize := MessageSize w;
                              tick := S (tick w); response := out;
                              sessions := sessions w |})
      by (intros out; split; [exact Hk | auto]).
    assert (Hpack : forall (ok : bool) (out : list Out),
              (if ok then out = response w
               else exists s f a, out = response w ++ [ErrorResponse s f a]
                                 /\ In f validRequest_formats) ->
              exists ok' w',
                Done ok {| Client := k'; MessageSize := MessageSize w;
                           tick := S (tick w); response := out;
                           sessions := sessions w |} = Done ok' w' /\
                world_kept w w' /\
                (if ok' then response w' = response w
                 else one_error_of validRequest_formats w w') /\
                (Get p "topic" = "" ->
                 ok' = false /\ Client w' = Client w /\ tick w' = tick w /\
                 response w' = response w
                   ++ [ErrorResponse StatusBadRequest "Topic name required" None]) /\
                (Get p "topic" <> "" -> tick w' = S (tick w))).
    { intros ok out Hout. eexists ok, _. split; [reflexivity|].
      split; [apply Hw|]. split; [destruct ok; exact Hout|].
      split; [intros Hx; contradiction | reflexivity]. }
    destruct Hr as [[meta ->]|[err ->]]; cbn.
    + destruct (inTopics meta (Get p "topic")) as [found [err|]]; cbn.
      * unfold_monad. cbn. apply Hpack. eexists _, _, _. split; [reflexivity | in_formats].
      * destruct found; cbn.
        -- destruct (bool_decide (Get p "partition" = "")).
           ++ unfold_monad. apply (Hpack true). reflexivity.
           ++ destruct (Partitions meta (Get p "topic")) as [parts [err|]]; cbn.
              ** unfold_monad. cbn. apply Hpack. eexists _, _, _. split; [reflexivity | in_formats].
              ** destruct (inSlice H _ _); cbn; unfold_monad; cbn.
                 --- apply (Hpack true). reflexivity.
                 --- apply Hpack. eexists _, _, _. split; [reflexivity | in_formats].
        -- unfold_monad. cbn. apply Hpack. eexists _, _, _. split; [reflexivity | in_formats].
    + unfold_monad. cbn. apply Hpack. eexists _, _, _. split; [reflexivity | in_formats].
Qed.

(** X19.  [validRequest] with a sound cache always returns and answers at most
    once: it makes no response when it accepts the request and exactly one
    error response when it rejects it.  It opens no session, leaves the
    size hints alone and loses no id of the pool.  A request without a
    topic is rejected with status 400 before the client is touched. *)
Theorem validRequest_answers (p : Values) (w : World) :
  cache_ok (Client w) ->
  exists ok w',
    validRequest H env p w = Done ok w' /\
    world_kept w w' /\
    (if ok then response w' = response w else one_error w w') /\
    (Get p "topic" = "" ->
     ok = false /\ Client w' = Client w /\ tick w' = tick w /\
     response w' = response w
                   ++ [ErrorResponse StatusBadRequest "Topic name required" None]).
Proof.
  intros Hc.
  destruct (validRequest_total p w Hc) as (ok & w' & Hrun & Hk & Hr & Ht & _).
  exists ok, w'. split_and!; auto.
  destruct ok; [exact Hr | exact (one_error_of_one_error _ _ _ Hr)].
Qed.

(** X20.  [validRequest] passes a request for a topic and a partition only on a
    snapshot without any marker.  When the topic is met before the first
    marker of the snapshot, a request that names no partition is accepted
    without a response, while a request that names one is rejected with
    that marker as the error of the listing of partitions, although the
    marker sits on a record behind the topic asked for. *)
Theorem validRequest_partition_needs_clean_snapshot (p : Values) (w : World)
    (meta : KafkaMetadata) (e : error) (k' : KafkaClient) :
  FetchMetadata (UnixNano env (tick w)) (Broker_Metadata env (tick w)) (Client w)
    = ((Some meta, None), k') ->
  Get p "topic" <> "" ->
  In (Get p "topic") (map Name (unmarked_prefix (Metadata meta))) ->
  first_marker (Metadata meta) = Some e ->
  (Get p "partition" = "" ->
   validRequest H env p w
     = Done true {| Client := k'; MessageSize := MessageSize w;
                    tick := S (tick w); response := response w;
                    sessions := sessions w |}) /\
  (Get p "partition" <> "" ->
   validRequest H env p w
     = Done false {| Client := k'; MessageSize := MessageSize w;
                     tick := S (tick w);
                     response := response w
                       ++ [ErrorResponse (httpStatusError e)
                             "Unable to get partitions: %v" (Some e)];
                     sessions := sessions w |}).
Proof.
  intros Hf Ht Hin Hm. unfold validRequest.
  rewrite (bool_decide_eq_false_2 _ Ht).
  unfold_monad. cbn. rewrite Hf. cbn.
  unfold inTopics. rewrite (proj1 (inTopics_loop_scan _ _) Hin). cbn.
  split; intros Hp.
  - rewrite (bool_decide_eq_true_2 _ Hp). reflexivity.
  - rewrite (bool_decide_eq_false_2 _ Hp).
    unfold Partitions, getPartitions. rewrite getPartitions_loop_scan, Hm.
    reflexivity.
Qed.

End MoreHandlerProperties.

Lemma validRequest_answers_witness :
  exists ok w',
    validRequest sample_helpers (sample_env always_no_data) (request "0" "1")
      (sample_world ∅) = Done ok w' /\
    world_kept (sample_world ∅) w'.
Proof.
  destruct (validRequest_answers sample_helpers (sample_env always_no_data)
              (request "0" "1") (sample_world ∅)) as (ok & w' & Hrun & Hk & _).
  - intros Hlt. vm_compute in Hlt. discriminate Hlt.
  - exists ok, w'. split; [exact Hrun | exact Hk].
Defined.

Lemma validRequest_partition_needs_clean_snapshot_witness :
  validRequest sample_helpers trailing_marker_env {[ "topic" := ["t"] ]}
    (sample_world ∅)
    = Done true {| Client := sample_client [1; 0]; MessageSize := ∅;
                   tick := 1; response := []; sessions := [] |} /\
  validRequest sample_helpers trailing_marker_env (request "0" "1")
    (sample_world ∅)
    = Done false {| Client := sample_client [1; 0]; MessageSize := ∅;
                    tick := 1;
                    response := [ErrorResponse StatusInternalServerError
                                   "Unable to get partitions: %v"
                                   (Some ErrLeaderNotAvailable)];
                    sessions := [] |}.
Proof.
  split.
  - apply (validRequest_partition_needs_clean_snapshot sample_helpers
             trailing_marker_env {[ "topic" := ["t"] ]} (sample_world ∅)
             trailing_marker_metadata ErrLeaderNotAvailable
             (sample_client [1; 0])).
    + reflexivity.
    + vm_compute. discriminate.
    + vm_compute. left. reflexivity.
    + reflexivity.
    + reflexivity.
  - apply (validRequest_partition_needs_clean_snapshot sample_helpers
             trailing_marker_env (request "0" "1") (sample_world ∅)
             trailing_marker_metadata ErrLeaderNotAvailable
             (sample_client [1; 0])).
    + reflexivity.
    + vm_compute. discriminate.
    + vm_compute. left. reflexivity.
    + reflexivity.
    + vm_compute. discriminate.
Defined.

(** ** Properties: a GET request and the pool *)

Lemma Consumer_Close_kept (c : KafkaConsumer.t) (k : KafkaClient) :
  kept (consumer_owes c) [] k (snd (KafkaConsumer.Close c k)) /\
  KafkaConsumer.opened (fst (KafkaConsumer.Close c k)) = false.
Proof.
  unfold KafkaConsumer.Close, consumer_owes.
  destruct (KafkaConsumer.opened c) eqn:Ho; cbn.
  - split; [apply freeBroker_kept | reflexivity].
  - split; [apply kept_refl | exact Ho].
Qed.

Lemma Consumer_Message_kept (a : attempt (ProtoMessage + error))
    (c : KafkaConsumer.t) (k : KafkaClient) :
  kept (consumer_owes c)
       (consumer_owes (snd (fst (KafkaConsumer.Message a c k))))
       k (snd (KafkaConsumer.Message a c k)).
Proof.
  destruct (consumer_step_kept (UseMessage a) c k) as [Hk _].
  cbn in Hk. destruct (KafkaConsumer.Message a c k) as [[r c'] k']. exact Hk.
Qed.

Lemma NewConsumer_kept (settings : Config) (topic : string)
    (partitionID offset : Z) (created : option error) (k : KafkaClient) :
  match NewConsumer settings topic partitionID offset created k with
  | (inl c, k1) => kept [] (consumer_owes c) k k1
  | (inr _, k1) => kept [] [] k k1
  end.
Proof.
  unfold NewConsumer.
  destruct (getBroker k) as [[id [err|]] k1] eqn:Hget.
  - destruct (getBroker_refused _ _ _ _ Hget) as (-> & _). apply kept_refl.
  - pose proof (getBroker_kept _ _ _ [] Hget) as Hk.
    destruct created as [err|].
    + eapply kept_trans; [exact Hk | apply freeBroker_kept].
    + exact Hk.
Qed.

Section GetHandlerPool.
Context (H : Helpers) (env : Env) (Cfg : Config).

Lemma consumer_Close_kept (c : KafkaConsumer.t) (w : World) :
  exists c' k',
    consumer_Close c w =
      Done c' {| Client := k'; MessageSize := MessageSize w; tick := tick w;
                 response := response w; sessions := sessions w |} /\
    kept (consumer_owes c) [] (Client w) k' /\ KafkaConsumer.opened c' = false.
Proof.
  unfold consumer_Close, on_client.
  destruct (Consumer_Close_kept c (Client w)) as [Hk Ho].
  destruct (KafkaConsumer.Close c (Client w)) as [c' k']. cbn in *. eauto.
Qed.

Lemma messageLoop_kept (q : string) (offsetTo : Z) (fuel : nat) :
  forall c v w fl c' v' w',
  messageLoop env fuel q offsetTo c v w = Done (fl, c', v') w' ->
  kept (consumer_owes c) (consumer_owes c') (Client w) (Client w') /\
  (fl <> NextRound -> KafkaConsumer.opened c' = false) /\
  MessageSize w' = MessageSize w.
Proof.
  induction fuel as [|fuel IH]; intros c v w fl c' v' w'; [discriminate|].
  cbn [messageLoop]. unfold bind at 1. unfold conn_alive at 1.
  unfold bind at 1. unfold next at 1. cbn. unfold ret at 1.
  set (w0 := {| Client := Client w; MessageSize := MessageSize w;
                tick := S (tick w); response := response w;
                sessions := sessions w |}).
  destruct (connIsAlive env (tick w)); cbn.
  - unfold bind at 1. unfold consumer_Message, bind at 1, next at 1. cbn.
    unfold on_client. cbn.
    pose proof (Consumer_Message_kept (Consumer_Consume env (S (tick w))) c (Client w))
      as Hm.
    destruct (KafkaConsumer.Message _ c (Client w)) as [[r c1] k1]. cbn in Hm.
    destruct r as [msg|err].
    + set (w1 := {| Client := k1; MessageSize := MessageSize w;
                    tick := S (S (tick w)); response := response w;
                    sessions := sessions w |}).
      unfold bind at 1.
      assert (Hout : exists out,
                (if negb (v_successSent v) then beginSuccess q
                 else emit (Body comma)) w1
                = Done tt {| Client := k1; MessageSize := MessageSize w;
                             tick := S (S (tick w)); response := out;
                             sessions := sessions w |}).
      { destruct (negb (v_successSent v)); unfold_monad; cbn; eauto. }
      destruct Hout as (out & ->). unfold bind at 1. unfold emit at 1.
      cbn [Client MessageSize tick response sessions].
      match goal with |- context [if ?b then _ else _] => destruct b end.
      * unfold bind.
        match goal with
        | |- context [consumer_Close c1 ?ww] =>
            destruct (consumer_Close_kept c1 ww) as (c2 & k2 & -> & Hk & Ho)
        end.
        unfold ret. intros [= <- <- <- <-]. cbn in *.
        split; [|split; [auto|reflexivity]].
        unfold consumer_owes at 2. rewrite Ho.
        eapply kept_trans; [exact Hm | exact Hk].
      * intros Hrun. apply IH in Hrun. cbn in Hrun.
        destruct Hrun as (Hk & Ho & Hs). split; [|split; [exact Ho|exact Hs]].
        eapply kept_trans; [exact Hm | exact Hk].
    + destruct (bool_decide (err = KafkaErrNoData)).
      * unfold ret. intros [= <- <- <- <-]. cbn.
        split; [exact Hm|]. split; [intros Hx; contradiction|reflexivity].
      * unfold bind at 1.
        assert (Hout : exists out,
                  (if negb (v_successSent v) then
                     errorResponse (httpStatusError err)
                       "Unable to get message: %v" (Some err)
                   else ret tt)
                    {| Client := k1; MessageSize := MessageSize w;
                       tick := S (S (tick w)); response := response w;
                       sessions := sessions w |}
                  = Done tt {| Client := k1; MessageSize := MessageSize w;
                               tick := S (S (tick w)); response := out;
                               sessions := sessions w |}).
        { destruct (negb (v_successSent v)); unfold_monad; cbn; eauto. }
        destruct Hout as (out & ->). unfold bind.
        match goal with
        | |- context [consumer_Close c1 ?ww] =>
            destruct (consumer_Close_kept c1 ww) as (c2 & k2 & -> & Hk & Ho)
        end.
        unfold ret. intros [= <- <- <- <-]. cbn in *.
        split; [|split; [auto|reflexivity]].
        unfold consumer_owes at 2. rewrite Ho.
        eapply kept_trans; [exact Hm | exact Hk].
  - unfold bind.
    destruct (consumer_Close_kept c w0) as (c2 & k2 & -> & Hk & Ho).
    unfold ret. intros [= <- <- <- <-]. cbn in *.
    split; [|split; [auto|reflexivity]].
    unfold consumer_owes at 2. rewrite Ho. exact Hk.
Qed.

Lemma round_kept (fuel : nat) (topic : string) (partition : Z) (q : string)
    (offsetTo : Z) (v : locals) (w : World) (fl : flow) (v' : locals)
    (w' : World) :
  round env Cfg fuel topic partition q offsetTo v w = Done (fl, v') w' ->
  kept [] [] (Client w) (Client w') /\
  (all_closed (v_deferred v) -> all_closed (v_deferred v')) /\
  MessageSize w' = MessageSize w.
Proof.
  unfold round. unfold_monad. cbn.
  match goal with
  | |- context [NewConsumer ?s ?t ?pp ?o ?cr ?k] =>
      pose proof (NewConsumer_kept s t pp o cr k) as Hnew;
      destruct (NewConsumer s t pp o cr k) as [[consumer|err] k1]
  end.
  - match goal with
    | |- context [messageLoop ?e ?f ?qq ?o ?c ?vv ?ww] =>
        destruct (messageLoop e f qq o c vv ww) as [[[fl1 c1] v1] w1| |] eqn:Hloop
    end; try discriminate.
    pose proof (messageLoop_facts _ _ _ _ _ _ _ _ _ _ _ Hloop) as (_ & _ & Hd & _).
    apply messageLoop_kept in Hloop. cbn in Hloop.
    destruct Hloop as (Hk & Ho & Hs).
    assert (Hdefer : forall c2, KafkaConsumer.opened c2 = false ->
              all_closed (v_deferred v) ->
              all_closed (v_deferred (defer_Close v1 c2))).
    { intros c2 Hc2 Hall. cbn. rewrite Hd. constructor; assumption. }
    destruct fl1.
    + destruct (Consumer_Close_kept c1 (Client w1)) as [Hk2 Ho2].
      destruct (KafkaConsumer.Close c1 (Client w1)) as [c2 k2]. cbn in *.
      intros [= Hg <-]. cbn.
      split; [|split; [|exact Hs]].
      * eapply kept_trans; [exact Hnew|]. eapply kept_trans; [exact Hk|exact Hk2].
      * intros Hall. pose proof (Hdefer c2 Ho2 Hall) as Hall'.
        unfold growSize in Hg.
        destruct (v_notEnoughSize (defer_Close v1 c2));
          [destruct (_ >=? _)|]; injection Hg as <- <-; exact Hall'.
    + intros [= <- <- <-]. split; [|split; [|exact Hs]].
      * specialize (Ho ltac:(discriminate)).
        unfold consumer_owes at 2 in Hk. rewrite Ho in Hk.
        eapply kept_trans; [exact Hnew | exact Hk].
      * apply Hdefer. apply Ho. discriminate.
    + intros [= <- <- <-]. split; [|split; [|exact Hs]].
      * specialize (Ho ltac:(discriminate)).
        unfold consumer_owes at 2 in Hk. rewrite Ho in Hk.
        eapply kept_trans; [exact Hnew | exact Hk].
      * apply Hdefer. apply Ho. discriminate.
  - destruct (negb (v_successSent v)); cbn;
      intros [= <- <- <-]; cbn; (split; [exact Hnew|split; [auto|reflexivity]]).
Qed.

Lemma consumeLoop_kept (topic : string) (partition : Z) (q : string)
    (offsetTo : Z) (fuel : nat) :
  forall v w fl v' w',
  consumeLoop env Cfg fuel topic partition q offsetTo v w = Done (fl, v') w' ->
  kept [] [] (Client w) (Client w') /\
  (all_closed (v_deferred v) -> all_closed (v_deferred v')) /\
  MessageSize w' = MessageSize w.
Proof.
  induction fuel as [|fuel IH]; intros v w fl v' w'; [discriminate|].
  cbn [consumeLoop]. unfold bind.
  destruct (round env Cfg fuel topic partition q offsetTo v w)
    as [[fl1 v1] w1| |] eqn:Hround; try discriminate.
  apply round_kept in Hround. destruct Hround as (Hk & Hall & Hs).
  destruct fl1.
  - intros Hrun. apply IH in Hrun. destruct Hrun as (Hk2 & Hall2 & Hs2).
    split; [eapply kept_trans; eauto|]. split; [auto | congruence].
  - unfold ret. intros [= <- <- <-]. auto.
  - unfold ret. intros [= <- <- <-]. auto.
Qed.

Lemma run_deferred_closed (cs : list KafkaConsumer.t) (w : World) :
  all_closed cs -> run_deferred cs w = Done tt w.
Proof.
  induction 1 as [|c cs Hc Hcs IH]; cbn [run_deferred]; [reflexivity|].
  unfold bind, consumer_Close, on_client, KafkaConsumer.Close. rewrite Hc.
  destruct w; cbn in *. exact IH.
Qed.

Lemma validRequest_done (p : Values) (w w' : World) (ok : bool) :
  validRequest H env p w = Done ok w' ->
  kept [] [] (Client w) (Client w') /\ MessageSize w' = MessageSize w.
Proof.
  unfold validRequest.
  destruct (bool_decide (Get p "topic" = "")).
  - unfold_monad. cbn. intros [= <- <-]. cbn. split; [apply kept_refl|reflexivity].
  - unfold bind at 1. unfold Client_FetchMetadata, bind at 1, next at 1. cbn.
    unfold on_client.
    pose proof (GetMetadata_kept (Broker_Metadata env (tick w)) (Client w)) as [Hg _].
    assert (Hk : kept [] [] (Client w)
                   (snd (FetchMetadata (UnixNano env (tick w))
                           (Broker_Metadata env (tick w)) (Client w)))).
    { unfold FetchMetadata.
      repeat match goal with
             | |- context [if ?b then _ else _] => destruct b
             end; first [exact Hg | apply kept_refl]. }
    destruct (FetchMetadata _ _ _) as [[meta err] k1]. cbn in Hk. cbn.
    unfold_monad. cbn.
    crack; intros Heq; try discriminate Heq; injection Heq as <- <-; cbn; auto.
Qed.

Lemma readMessages_kept (fuel : nat) (topic : string) (partition : Z)
    (q : string) (offset offsetTo length : Z) (w w' : World) :
  readMessages env Cfg fuel topic partition q offset offsetTo length w
    = Done tt w' ->
  kept [] [] (Client w) (Client w').
Proof.
  unfold readMessages. unfold bind at 1. unfold MessageSize_Get at 1.
  unfold bind at 1.
  match goal with
  | |- context [consumeLoop ?e ?c ?f ?t ?pp ?qq ?o ?vv ?ww] =>
      destruct (consumeLoop e c f t pp qq o vv ww) as [[fl v1] w1| |] eqn:Hloop
  end; try discriminate.
  apply consumeLoop_kept in Hloop. destruct Hloop as (Hk & Hall & _).
  specialize (Hall ltac:(constructor)).
  destruct fl.
  - unfold bind. destruct (finish_frame topic q v1 w1) as (w2 & -> & _ & Hc & _).
    rewrite (run_deferred_closed _ _ Hall). intros [= <-]. rewrite Hc. exact Hk.
  - unfold bind. destruct (finish_frame topic q v1 w1) as (w2 & -> & _ & Hc & _).
    rewrite (run_deferred_closed _ _ Hall). intros [= <-]. rewrite Hc. exact Hk.
  - rewrite (run_deferred_closed _ _ Hall). intros [= <-]. exact Hk.
Qed.

(** X21.  A GET request never costs the pool an id.  Whatever the broker
    answers, whichever reads run into their deadline and wherever the
    request ends, when [getHandler] returns the free and the dead queue
    together hold the ids they held before, each once, with the gauges
    right: every consumer opened was closed or quarantined, and the
    deferred closes found nothing left to release. *)
Theorem getHandler_returns_every_id (fuel : nat) (p : Values) (w w' : World) :
  getHandler H env Cfg fuel p w = Done tt w' ->
  kept [] [] (Client w) (Client w').
Proof.
  unfold getHandler. unfold bind at 1.
  destruct (validRequest H env p w) as [ok w1| |] eqn:Hvalid; try discriminate.
  apply validRequest_done in Hvalid. destruct Hvalid as [Hk1 _].
  destruct ok; cbn.
  - unfold bind at 1.
    destruct (Client_GetOffsets_answers env (Get p "topic")
                (toInt32 H (Get p "partition")) w1) as ([[from to] err] & k2 & -> & Hk2).
    destruct err as [err|].
    + unfold_monad. intros [= <-]. cbn. eapply kept_trans; eauto.
    + destruct (outOfRange _ _ _).
      * unfold_monad. intros [= <-]. cbn. eapply kept_trans; eauto.
      * destruct (json_Marshal H _) as [queryStr|err].
        -- intros Hread. apply readMessages_kept in Hread. cbn in Hread.
           eapply kept_trans; [exact Hk1|]. eapply kept_trans; eauto.
        -- unfold_monad. intros [= <-]. cbn. eapply kept_trans; eauto.
  - unfold ret. intros [= <-]. exact Hk1.
Qed.

End GetHandlerPool.

Lemma getHandler_returns_every_id_witness :
  exists w',
    getHandler sample_helpers (sample_env message_then_deadline) SetDefaults 30
      (request "0" "2") (sample_world ∅) = Done tt w' /\
    buf (deadBrokers (Client w')) = [0] /\
    kept [] [] (Client (sample_world ∅)) (Client w').
Proof.
  eexists. split; [vm_compute; reflexivity|]. split; [reflexivity|].
  apply (getHandler_returns_every_id sample_helpers (sample_env message_then_deadline)
           SetDefaults 30 (request "0" "2")).
  vm_compute. reflexivity.
Defined.

(** ** Properties: the handlers that write, and the offset handlers *)

Lemma Producer_Close_kept (p : KafkaProducer.t) (k : KafkaClient) :
  kept (producer_owes p) [] k (snd (KafkaProducer.Close p k)).
Proof.
  unfold KafkaProducer.Close, producer_owes.
  destruct (KafkaProducer.opened p) eqn:Ho; cbn.
  - apply freeBroker_kept.
  - apply kept_refl.
Qed.

Lemma Coordinator_Close_kept (c : KafkaOffsetCoordinator.t) (k : KafkaClient) :
  kept (coordinator_owes c) [] k (snd (KafkaOffsetCoordinator.Close c k)).
Proof.
  unfold KafkaOffsetCoordinator.Close, coordinator_owes.
  destruct (KafkaOffsetCoordinator.opened c) eqn:Ho; cbn.
  - apply freeBroker_kept.
  - apply kept_refl.
Qed.

Lemma one_error_after (w w1 w' : World) :
  response w1 = response w -> one_error w1 w' -> one_error w w'.
Proof. intros Hr (s & f & a & Hw). exists s, f, a. rewrite Hw, Hr. reflexivity. Qed.

Section WritingHandlers.
Context (H : Helpers) (env : Env) (B : Backend) (Cfg : Config).

Lemma Client_NewProducer_runs (w : World) :
  exists r k1,
    Client_NewProducer Cfg w =
      Done r {| Client := k1; MessageSize := MessageSize w; tick := tick w;
                response := response w; sessions := sessions w |} /\
    match r with
    | inl producer => kept [] (producer_owes producer) (Client w) k1
    | inr _ => kept [] [] (Client w) k1
    end.
Proof.
  unfold Client_NewProducer, on_client, NewProducer.
  destruct (getBroker (Client w)) as [[id [err|]] k1] eqn:Hget; cbn.
  - destruct (getBroker_refused _ _ _ _ Hget) as (-> & _).
    eexists _, _. split; [reflexivity | apply kept_refl].
  - eexists _, _. split; [reflexivity|]. apply (getBroker_kept _ _ _ [] Hget).
Qed.

Lemma producer_SendMessage_runs (topic : string) (partitionID : Z)
    (message : string) (producer : KafkaProducer.t) (w : World) :
  exists sent producer' k1,
    producer_SendMessage B topic partitionID message producer w =
      Done (sent, producer')
        {| Client := k1; MessageSize := MessageSize w; tick := S (tick w);
           response := response w; sessions := sessions w |} /\
    kept (producer_owes producer) (producer_owes producer') (Client w) k1.
Proof.
  unfold producer_SendMessage. unfold_monad. cbn.
  destruct (producer_step_kept
              (UseSendMessage topic partitionID message (Producer_Produce B (tick w)))
              producer (Client w)) as [Hk _]. cbn in Hk.
  destruct (KafkaProducer.SendMessage _ _ _ _ _ _) as [[sent producer'] k1].
  cbn in *. eauto.
Qed.

Lemma producer_Close_runs (producer : KafkaProducer.t) (w : World) :
  exists producer' k1,
    producer_Close producer w =
      Done producer'
        {| Client := k1; MessageSize := MessageSize w; tick := tick w;
           response := response w; sessions := sessions w |} /\
    kept (producer_owes producer) [] (Client w) k1.
Proof.
  unfold producer_Close, on_client.
  pose proof (Producer_Close_kept producer (Client w)) as Hk.
  destruct (KafkaProducer.Close producer (Client w)) as [producer' k1].
  cbn in *. eauto.
Qed.

(** X22.  [sendHandler] with a sound cache always returns and answers exactly
    once: either one error response and no success value, or a success
    value and no error response.  It opens no consumer session and, on
    every way out, the deferred close included, the pool holds the ids it
    held before with its gauges right.  A body that could not be read, is
    larger than the configured maximum or is not JSON is rejected with
    status 400 before the client is touched, and the size hints change only
    with a success, whose value carries the topic and the partition of the
    request. *)
Theorem sendHandler_answers_once (body : string + error) (p : Values) (w : World) :
  cache_ok (Client w) ->
  exists r w',
    sendHandler H env B Cfg body p w = Done r w' /\
    answered_once w w' r /\
    kept [] [] (Client w) (Client w') /\
    sessions w' = sessions w /\
    (r = None -> MessageSize w' = MessageSize w) /\
    (forall q, r = Some q ->
       Topic q = Get p "topic" /\
       Partition q = toInt32 H (Get p "partition")) /\
    (match body with
     | inr _ => True
     | inl msg =>
         Consumer_MaxFetchSize Cfg < int32 (Z.of_nat (String.length msg)) \/
         json_Unmarshal_raw B msg <> None
     end ->
     r = None /\ Client w' = Client w /\ tick w' = tick w /\
     exists format arg,
       response w' = response w ++ [ErrorResponse StatusBadRequest format arg]).
Proof.
  intros Hc. unfold sendHandler.
  assert (Hearly : forall format arg,
    exists (r : option kafkaParameters) w',
      refuse StatusBadRequest format arg w = Done r w' /\
      answered_once w w' r /\
      kept [] [] (Client w) (Client w') /\
      sessions w' = sessions w /\
      (r = None -> MessageSize w' = MessageSize w) /\
      (forall q, r = Some q ->
         Topic q = Get p "topic" /\
         Partition q = toInt32 H (Get p "partition")) /\
      (r = None /\ Client w' = Client w /\ tick w' = tick w /\
       exists format arg,
         response w' = response w ++ [ErrorResponse StatusBadRequest format arg])).
  { intros format arg. eexists None, _. split; [reflexivity|]. cbn.
    split; [eexists _, _, _; reflexivity|]. split; [apply kept_refl|].
    split; [reflexivity|]. split; [reflexivity|].
    split; [intros q Hq; discriminate Hq|].
    split; [reflexivity|]. split; [reflexivity|]. split; [reflexivity|].
    eexists _, _. reflexivity. }
  destruct body as [msg|err].
  2: { destruct (Hearly "Unable to read body: %s" (Some err))
         as (r & w' & Hrun & Ha & Hk & Hs & Hm & Hq & He).
       exists r, w'. split_and!; auto. }
  destruct (Z.gtb_spec (int32 (Z.of_nat (String.length msg)))
              (Consumer_MaxFetchSize Cfg)) as [Hbig|Hsmall].
  { match goal with
    | |- context [refuse ?s ?f ?a w] =>
        destruct (Hearly f a) as (r & w' & Hrun & Ha & Hk & Hs & Hm & Hq & He)
    end.
    exists r, w'. split_and!; auto. }
  destruct (json_Unmarshal_raw B msg) as [bad|] eqn:Hjson.
  { match goal with
    | |- context [refuse ?s ?f ?a w] =>
        destruct (Hearly f a) as (r & w' & Hrun & Ha & Hk & Hs & Hm & Hq & He)
    end.
    exists r, w'. split_and!; auto. }
  assert (Hlate : ~ (Consumer_MaxFetchSize Cfg < int32 (Z.of_nat (String.length msg))
                     \/ @None error <> None)) by (intros [Hx|Hx]; [lia|congruence]).
  unfold bind at 1.
  destruct (validRequest_total H env p w Hc) as (ok & w1 & -> & Hwk & Hresp & _ & _).
  destruct Hwk as (Hk1 & Hs1 & Hm1).
  destruct ok; cbn [negb].
  2: { apply one_error_of_one_error in Hresp.
       exists None, w1. split; [reflexivity|]. cbn. split_and!; auto.
       - intros q Hq. discriminate Hq.
       - intros Hx. contradiction. }
  unfold bind at 1.
  destruct (Client_NewProducer_runs w1) as (r & k2 & -> & Hk2).
  destruct r as [producer|err].
  2: { eexists None, _. split; [reflexivity|]. cbn. split_and!; auto.
       - eexists _, _, _. rewrite Hresp. reflexivity.
       - eapply kept_trans; eauto.
       - intros q Hq. discriminate Hq.
       - intros Hx. contradiction. }
  unfold bind at 1.
  match goal with
  | |- context [producer_SendMessage B ?t ?pp ?m ?pr ?ww] =>
      destruct (producer_SendMessage_runs t pp m pr ww)
        as ([offset err] & producer' & k3 & -> & Hk3)
  end.
  cbn [Client MessageSize tick response sessions] in Hk3.
  destruct err as [err|].
  - unfold bind at 1. unfold errorResponse at 1, emit at 1.
    cbn [Client MessageSize tick response sessions]. unfold bind at 1.
    match goal with
    | |- context [producer_Close ?pr ?ww] =>
        destruct (producer_Close_runs pr ww) as (producer2 & k4 & -> & Hk4)
    end.
    cbn [Client MessageSize tick response sessions] in *.
    eexists None, _. split; [reflexivity|]. cbn. split_and!; auto.
    + eexists _, _, _. rewrite Hresp. reflexivity.
    + eapply kept_trans; [exact Hk1|]. eapply kept_trans; [exact Hk2|].
      eapply kept_trans; [exact Hk3 | exact Hk4].
    + intros q Hq. discriminate Hq.
    + intros Hx. contradiction.
  - unfold bind at 1. unfold MessageSize_Put at 1.
    cbn [Client MessageSize tick response sessions]. unfold bind at 1.
    match goal with
    | |- context [producer_Close ?pr ?ww] =>
        destruct (producer_Close_runs pr ww) as (producer2 & k4 & -> & Hk4)
    end.
    cbn [Client MessageSize tick response sessions] in *.
    eexists (Some _), _. split; [reflexivity|]. cbn. split_and!; auto.
    + eapply kept_trans; [exact Hk1|]. eapply kept_trans; [exact Hk2|].
      eapply kept_trans; [exact Hk3 | exact Hk4].
    + intros Hx. discriminate Hx.
    + intros q [= <-]. cbn. auto.
    + intros Hx. contradiction.
Qed.

Lemma Client_NewOffsetCoordinator_runs (consumerGroup : string) (w : World) :
  exists r k1,
    Client_NewOffsetCoordinator B Cfg consumerGroup w =
      Done r {| Client := k1; MessageSize := MessageSize w; tick := S (tick w);
                response := response w; sessions := sessions w |} /\
    match r with
    | inl c => kept [] (coordinator_owes c) (Client w) k1
    | inr err =>
        kept [] [] (Client w) k1 \/
        (exists id, Broker_OffsetCoordinator B (tick w) = Some err /\
                    kept [] [id] (Client w) k1)
    end.
Proof.
  unfold Client_NewOffsetCoordinator. unfold_monad. cbn.
  unfold NewOffsetCoordinator.
  destruct (getBroker (Client w)) as [[id [err|]] k1] eqn:Hget; cbn.
  - destruct (getBroker_refused _ _ _ _ Hget) as (-> & _).
    eexists _, _. split; [reflexivity|]. left. apply kept_refl.
  - pose proof (getBroker_kept _ _ _ [] Hget) as Hk.
    destruct (Broker_OffsetCoordinator B (tick w)) as [err|] eqn:Hc; cbn.
    + eexists _, _. split; [reflexivity|]. right. exists id. auto.
    + eexists _, _. split; [reflexivity|]. exact Hk.
Qed.

Lemma offsetCoordinator_Close_runs (c : KafkaOffsetCoordinator.t) (w : World) :
  exists c' k1,
    offsetCoordinator_Close c w =
      Done c' {| Client := k1; MessageSize := MessageSize w; tick := tick w;
                 response := response w; sessions := sessions w |} /\
    kept (coordinator_owes c) [] (Client w) k1.
Proof.
  unfold offsetCoordinator_Close, on_client.
  pose proof (Coordinator_Close_kept c (Client w)) as Hk.
  destruct (KafkaOffsetCoordinator.Close c (Client w)) as [c' k1].
  cbn in *. eauto.
Qed.

Lemma offsetCoordinator_FetchOffset_runs (topic : string) (partitionID : Z)
    (c : KafkaOffsetCoordinator.t) (w : World) :
  exists fetched c' k1,
    offsetCoordinator_FetchOffset B topic partitionID c w =
      Done (fetched, c')
        {| Client := k1; MessageSize := MessageSize w; tick := S (tick w);
           response := response w; sessions := sessions w |} /\
    kept (coordinator_owes c) (coordinator_owes c') (Client w) k1.
Proof.
  unfold offsetCoordinator_FetchOffset. unfold_monad. cbn.
  destruct (coordinator_step_kept
              (UseFetchOffset topic partitionID (Coordinator_FetchOffset B (tick w)))
              c (Client w)) as [Hk _]. cbn in Hk.
  destruct (KafkaOffsetCoordinator.FetchOffset _ _ _ _ _) as [[fetched c'] k1].
  cbn in *. eauto.
Qed.

Lemma offsetCoordinator_CommitOffset_runs (topic : string)
    (partitionID offset : Z) (c : KafkaOffsetCoordinator.t) (w : World) :
  exists err c' k1,
    offsetCoordinator_CommitOffset B topic partitionID offset c w =
      Done (err, c')
        {| Client := k1; MessageSize := MessageSize w; tick := S (tick w);
           response := response w; sessions := sessions w |} /\
    kept (coordinator_owes c) (coordinator_owes c') (Client w) k1.
Proof.
  unfold offsetCoordinator_CommitOffset. unfold_monad. cbn.
  destruct (coordinator_step_kept
              (UseCommitOffset topic partitionID offset
                 (Coordinator_CommitOffset B (tick w)))
              c (Client w)) as [Hk _]. cbn in Hk.
  destruct (KafkaOffsetCoordinator.CommitOffset _ _ _ _ _ _) as [[err c'] k1].
  cbn in *. eauto.
Qed.

(** X23.  [getOffsetHandler] starts the response timer of the key
    [FetchOffset] before anything else.  [NewMetricStats] creates timers
    for the keys of the six other handlers and none for this key: with the
    metrics it returns, and with any metrics that lack the key, the handler
    panics on entry, for every request, with nothing answered and the
    client not used.  With metrics that hold the key and a sound cache, the
    handler always returns and answers exactly once; it opens no consumer
    session and leaves the size hints alone; the pool keeps every id on
    every way out, the refusal of the coordinator by the library excepted,
    which costs the pool one id; and a success value carries the consumer,
    the topic and the partition of the request, the consumer name not
    empty. *)
Theorem getOffsetHandler_needs_its_timer (Stats : MetricStats) (p : Values)
    (w : World) :
  Forall (fun key => HTTPResponseTime NewMetricStats !! key <> None)
    ["GET"; "POST"; "CommitOffset"; "GetTopicList"; "GetPartitionInfo";
     "GetTopicInfo"] /\
  HTTPResponseTime NewMetricStats !! "FetchOffset" = None /\
  getOffsetHandler H env B Cfg NewMetricStats p w = Panic /\
  (HTTPResponseTime Stats !! "FetchOffset" = None ->
   getOffsetHandler H env B Cfg Stats p w = Panic) /\
  (HTTPResponseTime Stats !! "FetchOffset" <> None ->
   cache_ok (Client w) ->
   exists r w',
     getOffsetHandler H env B Cfg Stats p w = Done r w' /\
     answered_once w w' r /\
     sessions w' = sessions w /\ MessageSize w' = MessageSize w /\
     pool_kept_or_coordinator_refused B w w' r /\
     (forall info, r = Some info ->
        consumerOffsetInfo.Consumer info = Get p "consumer" /\
        Get p "consumer" <> "" /\
        consumerOffsetInfo.Topic info = Get p "topic" /\
        consumerOffsetInfo.Partition info = toInt32 H (Get p "partition"))).
Proof.
  split; [repeat constructor; vm_compute; discriminate|].
  split; [vm_compute; reflexivity|].
  split; [unfold getOffsetHandler, bind;
          replace (HTTPResponseTime NewMetricStats !! "FetchOffset")
            with (@None Timer) by (vm_compute; reflexivity); reflexivity|].
  split; [intros Hmissing; unfold getOffsetHandler, bind; rewrite Hmissing;
          reflexivity|].
  intros Htimer Hc. unfold getOffsetHandler, pool_kept_or_coordinator_refused.
  destruct (HTTPResponseTime Stats !! "FetchOffset") as [timer|];
    [|contradiction].
  rewrite (bind_Done (Timer_Start (Some timer)) _ w w tt eq_refl). cbn beta.
  unfold bind at 1.
  destruct (validRequest_total H env p w Hc)
    as (ok & w1 & -> & Hwk & Hresp & Hempty & Htick).
  destruct Hwk as (Hk1 & Hs1 & Hm1).
  destruct ok; cbn [negb].
  2: { apply one_error_of_one_error in Hresp.
       exists None, w1. split; [reflexivity|]. cbn. split_and!; auto.
       intros info Hq. discriminate Hq. }
  destruct (bool_decide_reflect (Get p "consumer" = "")) as [Hcons|Hcons].
  { eexists None, _. split; [reflexivity|]. cbn. split_and!; auto.
    - eexists _, _, _. rewrite Hresp. reflexivity.
    - intros info Hq. discriminate Hq. }
  assert (Htopic : Get p "topic" <> "").
  { intros Hx. destruct (Hempty Hx) as [Hf _]. discriminate Hf. }
  specialize (Htick Htopic).
  unfold bind at 1.
  destruct (Client_NewOffsetCoordinator_runs (Get p "consumer") w1)
    as (r & k2 & -> & Hk2).
  destruct r as [oc|err].
  2: { eexists None, _. split; [reflexivity|]. cbn. split_and!; auto.
       - eexists _, _, _. rewrite Hresp. reflexivity.
       - destruct Hk2 as [Hk2|(id & Hrefused & Hk2)].
         + left. eapply kept_trans; eauto.
         + right. exists id, err. rewrite <- Htick, Hresp. split_and!; auto.
           eapply kept_trans; eauto.
       - intros info Hq. discriminate Hq. }
  unfold bind at 1.
  match goal with
  | |- context [offsetCoordinator_FetchOffset B ?t ?pp ?c ?ww] =>
      destruct (offsetCoordinator_FetchOffset_runs t pp c ww)
        as ([[offset metadata] err] & oc' & k3 & -> & Hk3)
  end.
  cbn [Client MessageSize tick response sessions] in Hk3.
  destruct err as [err|].
  - unfold bind at 1. unfold errorResponse at 1, emit at 1.
    cbn [Client MessageSize tick response sessions]. unfold bind at 1.
    match goal with
    | |- context [offsetCoordinator_Close ?c ?ww] =>
        destruct (offsetCoordinator_Close_runs c ww) as (oc2 & k4 & -> & Hk4)
    end.
    cbn [Client MessageSize tick response sessions] in *.
    eexists None, _. split; [reflexivity|]. cbn. split_and!; auto.
    + eexists _, _, _. rewrite Hresp. reflexivity.
    + left. eapply kept_trans; [exact Hk1|]. eapply kept_trans; [exact Hk2|].
      eapply kept_trans; [exact Hk3 | exact Hk4].
    + intros info Hq. discriminate Hq.
  - unfold bind at 1.
    match goal with
    | |- context [offsetCoordinator_Close ?c ?ww] =>
        destruct (offsetCoordinator_Close_runs c ww) as (oc2 & k4 & -> & Hk4)
    end.
    cbn [Client MessageSize tick response sessions] in *.
    eexists (Some _), _. split; [reflexivity|]. cbn. split_and!; auto.
    + left. eapply kept_trans; [exact Hk1|]. eapply kept_trans; [exact Hk2|].
      eapply kept_trans; [exact Hk3 | exact Hk4].
    + intros info [= <-]. cbn. auto.
Qed.

(** X24.  [commitOffsetHandler].  A body the decoder turns into a nil pointer
    makes the handler panic before anything is answered.  On every other
    body, with a sound cache, the handler always returns and answers
    exactly once; it opens no consumer session and leaves the size hints
    alone; the pool keeps every id, the refusal of the coordinator by the
    library excepted.  A body that could not be read, is not JSON or
    carries a negative offset is rejected with status 400 before the client
    is touched; and a success value carries a non-negative offset, the
    consumer, the topic and the partition of the request, and the
    metadata of the body. *)
Theorem commitOffsetHandler_answers_once (body : string + error) (p : Values)
    (w : World) :
  let kafka0 := {| consumerOffsetInfo.Consumer := "";
                   consumerOffsetInfo.Topic := "";
                   consumerOffsetInfo.Partition := 0;
                   consumerOffsetInfo.Offset := -1;
                   consumerOffsetInfo.Metadata := "" |} in
  (forall msg, body = inl msg -> json_Unmarshal_info B msg kafka0 = inl None ->
     commitOffsetHandler H env B Cfg body p w = Panic) /\
  (cache_ok (Client w) ->
   (forall msg, body = inl msg -> json_Unmarshal_info B msg kafka0 <> inl None) ->
   exists r w',
     commitOffsetHandler H env B Cfg body p w = Done r w' /\
     answered_once w w' r /\
     sessions w' = sessions w /\ MessageSize w' = MessageSize w /\
     pool_kept_or_coordinator_refused B w w' r /\
     (match body with
      | inr _ => True
      | inl msg =>
          match json_Unmarshal_info B msg kafka0 with
          | inr _ => True
          | inl (Some kafka) => consumerOffsetInfo.Offset kafka < 0
          | inl None => False
          end
      end ->
      r = None /\ Client w' = Client w /\ tick w' = tick w /\
      exists format arg,
        response w' = response w ++ [ErrorResponse StatusBadRequest format arg]) /\
     (forall info, r = Some info ->
        0 <= consumerOffsetInfo.Offset info /\
        consumerOffsetInfo.Consumer info = Get p "consumer" /\
        Get p "consumer" <> "" /\
        consumerOffsetInfo.Topic info = Get p "topic" /\
        consumerOffsetInfo.Partition info = toInt32 H (Get p "partition") /\
        exists msg kafka,
          body = inl msg /\
          json_Unmarshal_info B msg kafka0 = inl (Some kafka) /\
          consumerOffsetInfo.Offset info = consumerOffsetInfo.Offset kafka /\
          consumerOffsetInfo.Metadata info = consumerOffsetInfo.Metadata kafka)).
Proof.
  intros kafka0. split.
  - intros msg -> Hnull. unfold commitOffsetHandler. fold kafka0.
    rewrite Hnull. reflexivity.
  - intros Hc Hnotnull. unfold commitOffsetHandler, pool_kept_or_coordinator_refused.
    fold kafka0.
    assert (Hearly : forall format arg,
      exists (r : option consumerOffsetInfo.t) w',
        refuse StatusBadRequest format arg w = Done r w' /\
        answered_once w w' r /\
        sessions w' = sessions w /\ MessageSize w' = MessageSize w /\
        kept [] [] (Client w) (Client w') /\
        (r = None /\ Client w' = Client w /\ tick w' = tick w /\
         exists format arg,
           response w' = response w ++ [ErrorResponse StatusBadRequest format arg])).
    { intros format arg. eexists None, _. split; [reflexivity|]. cbn.
      split; [eexists _, _, _; reflexivity|]. split; [reflexivity|].
      split; [reflexivity|]. split; [apply kept_refl|].
      split; [reflexivity|]. split; [reflexivity|]. split; [reflexivity|].
      eexists _, _. reflexivity. }
    destruct body as [msg|err].
    2: { destruct (Hearly "Unable to read body: %s" (Some err))
           as (r & w' & Hrun & Ha & Hs & Hm & Hk & He).
         exists r, w'. split_and!; auto.
         intros info Hq. destruct He as [He _]. congruence. }
    specialize (Hnotnull msg eq_refl).
    destruct (json_Unmarshal_info B msg kafka0) as [[kafka|]|bad] eqn:Hjson;
      [| contradiction |].
    2: { match goal with
         | |- context [refuse ?s ?f ?a w] =>
             destruct (Hearly f a) as (r & w' & Hrun & Ha & Hs & Hm & Hk & He)
         end.
         exists r, w'. split_and!; auto.
         intros info Hq. destruct He as [He _]. congruence. }
    destruct (Z.ltb_spec (consumerOffsetInfo.Offset kafka) 0) as [Hneg|Hpos].
    { match goal with
      | |- context [refuse ?s ?f ?a w] =>
          destruct (Hearly f a) as (r & w' & Hrun & Ha & Hs & Hm & Hk & He)
      end.
      exists r, w'. split_and!; auto.
      intros info Hq. destruct He as [He _]. congruence. }
    cbn [consumerOffsetInfo.Consumer consumerOffsetInfo.Topic
         consumerOffsetInfo.Partition consumerOffsetInfo.Offset
         consumerOffsetInfo.Metadata].
    unfold bind at 1.
    destruct (validRequest_total H env p w Hc)
      as (ok & w1 & -> & Hwk & Hresp & Hempty & Htick).
    destruct Hwk as (Hk1 & Hs1 & Hm1).
    destruct ok; cbn [negb].
    2: { apply one_error_of_one_error in Hresp.
       exists None, w1. split; [reflexivity|]. cbn. split_and!; auto.
         - intros Hx. lia.
         - intros info Hq. discriminate Hq. }
    destruct (bool_decide_reflect (Get p "consumer" = "")) as [Hcons|Hcons].
    { eexists None, _. split; [reflexivity|]. cbn. split_and!; auto.
      - eexists _, _, _. rewrite Hresp. reflexivity.
      - intros Hx. lia.
      - intros info Hq. discriminate Hq. }
    assert (Htopic : Get p "topic" <> "").
    { intros Hx. destruct (Hempty Hx) as [Hf _]. discriminate Hf. }
    specialize (Htick Htopic).
    unfold bind at 1.
    destruct (Client_NewOffsetCoordinator_runs (Get p "consumer") w1)
      as (r & k2 & -> & Hk2).
    destruct r as [oc|err].
    2: { eexists None, _. split; [reflexivity|]. cbn. split_and!; auto.
         - eexists _, _, _. rewrite Hresp. reflexivity.
         - destruct Hk2 as [Hk2|(id & Hrefused & Hk2)].
           + left. eapply kept_trans; eauto.
           + right. exists id, err. rewrite <- Htick, Hresp. split_and!; auto.
             eapply kept_trans; eauto.
         - intros Hx. lia.
         - intros info Hq. discriminate Hq. }
    unfold bind at 1.
    match goal with
    | |- context [offsetCoordinator_CommitOffset B ?t ?pp ?o ?c ?ww] =>
        destruct (offsetCoordinator_CommitOffset_runs t pp o c ww)
          as (err & oc' & k3 & -> & Hk3)
    end.
    cbn [Client MessageSize tick response sessions] in Hk3.
    destruct err as [err|].
    + unfold bind at 1. unfold errorResponse at 1, emit at 1.
      cbn [Client MessageSize tick response sessions]. unfold bind at 1.
      match goal with
      | |- context [offsetCoordinator_Close ?c ?ww] =>
          destruct (offsetCoordinator_Close_runs c ww) as (oc2 & k4 & -> & Hk4)
      end.
      cbn [Client MessageSize tick response sessions] in *.
      eexists None, _. split; [reflexivity|]. cbn. split_and!; auto.
      * eexists _, _, _. rewrite Hresp. reflexivity.
      * left. eapply kept_trans; [exact Hk1|]. eapply kept_trans; [exact Hk2|].
        eapply kept_trans; [exact Hk3 | exact Hk4].
      * intros Hx. lia.
      * intros info Hq. discriminate Hq.
    + unfold bind at 1.
      match goal with
      | |- context [offsetCoordinator_Close ?c ?ww] =>
          destruct (offsetCoordinator_Close_runs c ww) as (oc2 & k4 & -> & Hk4)
      end.
      cbn [Client MessageSize tick response sessions] in *.
      eexists (Some _), _. split; [reflexivity|]. cbn. split_and!; auto.
      * left. eapply kept_trans; [exact Hk1|]. eapply kept_trans; [exact Hk2|].
        eapply kept_trans; [exact Hk3 | exact Hk4].
      * intros Hx. lia.
      * intros info [= <-]. cbn. split_and!; auto.
        exists msg, kafka. auto.
Qed.

End WritingHandlers.

Lemma sendHandler_answers_once_witness :
  exists r w',
    sendHandler sample_helpers (sample_env always_no_data) sample_backend
      SetDefaults (inl "{}") (request "0" "1") (sample_world ∅) = Done r w' /\
    answered_once (sample_world ∅) w' r /\
    kept [] [] (Client (sample_world ∅)) (Client w').
Proof.
  destruct (sendHandler_answers_once sample_helpers (sample_env always_no_data)
              sample_backend SetDefaults (inl "{}") (request "0" "1")
              (sample_world ∅)) as (r & w' & Hrun & Ha & Hk & _).
  - intros Hlt. vm_compute in Hlt. discriminate Hlt.
  - exists r, w'. auto.
Defined.

Lemma getOffsetHandler_needs_its_timer_witness :
  getOffsetHandler sample_helpers (sample_env always_no_data) sample_backend
    SetDefaults
    {| HTTPStatus := ∅; HTTPResponseTime := {[ "GET" := NewTimer ]} |}
    (<["consumer" := ["group"]]> (request "0" "1")) (sample_world ∅) = Panic /\
  exists r w',
    getOffsetHandler sample_helpers (sample_env always_no_data) sample_backend
      SetDefaults stats_with_FetchOffset
      (<["consumer" := ["group"]]> (request "0" "1")) (sample_world ∅)
      = Done r w' /\
    answered_once (sample_world ∅) w' r /\
    pool_kept_or_coordinator_refused sample_backend (sample_world ∅) w' r.
Proof.
  split.
  - destruct (getOffsetHandler_needs_its_timer sample_helpers
                (sample_env always_no_data) sample_backend SetDefaults
                {| HTTPStatus := ∅; HTTPResponseTime := {[ "GET" := NewTimer ]} |}
                (<["consumer" := ["group"]]> (request "0" "1")) (sample_world ∅))
      as (_ & _ & _ & Hmissing & _).
    apply Hmissing. vm_compute. reflexivity.
  - destruct (getOffsetHandler_needs_its_timer sample_helpers
                (sample_env always_no_data) sample_backend SetDefaults
                stats_with_FetchOffset
                (<["consumer" := ["group"]]> (request "0" "1")) (sample_world ∅))
      as (_ & _ & _ & _ & Hruns).
    destruct Hruns as (r & w' & Hrun & Ha & _ & _ & Hk & _).
    + vm_compute. discriminate.
    + intros Hlt. vm_compute in Hlt. discriminate Hlt.
    + exists r, w'. auto.
Defined.

Lemma commitOffsetHandler_answers_once_witness :
  commitOffsetHandler sample_helpers (sample_env always_no_data) null_backend
    SetDefaults (inl "null")
    (<["consumer" := ["group"]]> (request "0" "1")) (sample_world ∅) = Panic /\
  exists r w',
    commitOffsetHandler sample_helpers (sample_env always_no_data) sample_backend
      SetDefaults (inl "{}")
      (<["consumer" := ["group"]]> (request "0" "1")) (sample_world ∅)
      = Done r w' /\
    answered_once (sample_world ∅) w' r.
Proof.
  split.
  - destruct (commitOffsetHandler_answers_once sample_helpers
                (sample_env always_no_data) null_backend SetDefaults (inl "null")
                (<["consumer" := ["group"]]> (request "0" "1")) (sample_world ∅))
      as [Hpanic _].
    apply (Hpanic "null"); reflexivity.
  - destruct (commitOffsetHandler_answers_once sample_helpers
                (sample_env always_no_data) sample_backend SetDefaults (inl "{}")
                (<["consumer" := ["group"]]> (request "0" "1")) (sample_world ∅))
      as [_ Hruns].
    destruct Hruns as (r & w' & Hrun & Ha & _).
    + intros Hlt. vm_compute in Hlt. discriminate Hlt.
    + intros msg _. cbn. discriminate.
    + exists r, w'. auto.
Defined.

(** ** Properties: the handlers that describe topics and partitions *)

Lemma Replicas_error_is_Leader_error (m : KafkaMetadata) (topic : string)
    (pid : Z) :
  snd (Replicas m topic pid) = snd (Leader m topic pid).
Proof.
  unfold Replicas, Leader.
  destruct (loops_same_record (Metadata m) topic pid)
    as [(t & p & _ & _ & _ & _ & Hl & Hr)|(_ & Hl & Hr)];
    rewrite Hl, Hr; reflexivity.
Qed.

Lemma Partitions_clean (meta : KafkaMetadata) (topic : string) :
  first_marker (Metadata meta) = None ->
  Partitions meta topic
    = (Some (listed_ids (Metadata meta) topic allPartitions), None).
Proof.
  intros Hm. unfold Partitions, getPartitions.
  rewrite getPartitions_loop_scan, Hm. reflexivity.
Qed.

Section InfoHandlers.
Context (H : Helpers) (env : Env) (Cfg : Config).

Lemma topicList_loop_clean (meta : KafkaMetadata) (names : list string) :
  first_marker (Metadata meta) = None ->
  forall (res : list responseTopicListInfo.t) (w : World),
  topicList_loop meta names res w =
    Done (Some (res ++ map (fun n =>
                  {| responseTopicListInfo.Topic := n;
                     responseTopicListInfo.Partitions :=
                       Z.of_nat (length (listed_ids (Metadata meta) n
                                           allPartitions)) |}) names)) w.
Proof.
  intros Hm. induction names as [|n names IH]; intros res w; cbn [topicList_loop map].
  - rewrite app_nil_r. reflexivity.
  - rewrite (Partitions_clean meta n Hm). cbn. rewrite IH.
    rewrite <- app_assoc. reflexivity.
Qed.

(** X25.  [getTopicListHandler] on the snapshot [FetchMetadata] returns.  On a
    snapshot without markers it answers with every topic record and its
    number of partition records.  Any marker makes it answer with an
    error: the first marker that is not one of a missing leader, from the
    listing of topics; and when every marker is one of a missing leader,
    which the listing of topics passes over, that marker all the same,
    from the listing of partitions of the first topic. *)
Theorem getTopicListHandler_needs_clean_snapshot (p : Values) (w : World)
    (meta : KafkaMetadata) (k' : KafkaClient) :
  FetchMetadata (UnixNano env (tick w)) (Broker_Metadata env (tick w)) (Client w)
    = ((Some meta, None), k') ->
  (first_marker (Metadata meta) = None ->
   getTopicListHandler env p w
     = Done (Some (topic_counts (Metadata meta)))
         {| Client := k'; MessageSize := MessageSize w; tick := S (tick w);
            response := response w; sessions := sessions w |}) /\
  (forall e, first_marker (Metadata meta) = Some e ->
     Forall tolerated (Metadata meta) ->
     getTopicListHandler env p w
       = Done None
           {| Client := k'; MessageSize := MessageSize w; tick := S (tick w);
              response := response w
                ++ [ErrorResponse (httpStatusError e)
                      "Unable to get partitions: %v" (Some e)];
              sessions := sessions w |}) /\
  (forall pre t post e,
     Metadata meta = pre ++ t :: post -> Forall tolerated pre ->
     TopicErr t = Some e -> e <> ErrLeaderNotAvailable ->
     getTopicListHandler env p w
       = Done None
           {| Client := k'; MessageSize := MessageSize w; tick := S (tick w);
              response := response w
                ++ [ErrorResponse (httpStatusError e)
                      "Unable to get topics: %v" (Some e)];
              sessions := sessions w |}).
Proof.
  intros Hf. unfold getTopicListHandler.
  unfold_monad. cbn. rewrite Hf. cbn. split; [|split].
  - intros Hm.
    assert (Hall : Forall tolerated (Metadata meta)).
    { eapply Forall_impl; [exact (proj1 (first_marker_clean _) Hm)|].
      intros t Ht. left. exact Ht. }
    unfold Topics. rewrite (Topics_loop_tolerated _ [] Hall). cbn.
    rewrite (topicList_loop_clean meta _ Hm). cbn.
    unfold topic_counts. rewrite map_map. reflexivity.
  - intros e Hm Hall.
    unfold Topics. rewrite (Topics_loop_tolerated _ [] Hall). cbn.
    destruct (Metadata meta) as [|t ts] eqn:Hts; [discriminate Hm|].
    cbn [map topicList_loop].
    unfold Partitions, getPartitions. rewrite getPartitions_loop_scan, Hts, Hm.
    reflexivity.
  - intros pre t post e Hts Hpre Ht Hne.
    unfold Topics. rewrite Hts, (Topics_loop_stops pre post t e [] Hpre Ht Hne).
    reflexivity.
Qed.

Lemma one_error_of_after (formats : list string) (w w1 w' : World) :
  response w1 = response w -> one_error_of formats w1 w' ->
  one_error_of formats w w'.
Proof.
  intros Hr (s & f & a & Hw & Hin). exists s, f, a. rewrite Hw, Hr. auto.
Qed.

Lemma one_error_of_more (formats more : list string) (w w' : World) :
  one_error_of formats w w' -> one_error_of (formats ++ more) w w'.
Proof.
  intros (s & f & a & Hw & Hin). exists s, f, a. split; [exact Hw|].
  apply in_or_app. left. exact Hin.
Qed.

(** X26.  [getPartitionInfoHandler] with a sound cache always returns and
    answers exactly once; it opens no session, leaves the size hints alone
    and loses no id of the pool.  Its error response is never the one for a
    failed listing of replicas: [Replicas] fails only with the error
    [Leader] has failed with just before.  A success value carries the
    topic and the partition of the request and the number of the replicas
    it lists. *)
Theorem getPartitionInfoHandler_answers_once (p : Values) (w : World) :
  cache_ok (Client w) ->
  exists r w',
    getPartitionInfoHandler H env p w = Done r w' /\
    world_kept w w' /\
    match r with
    | Some info =>
        response w' = response w /\
        responsePartitionInfo.Topic info = Get p "topic" /\
        responsePartitionInfo.Partition info = toInt32 H (Get p "partition") /\
        responsePartitionInfo.ReplicasNum info
          = Z.of_nat (length (responsePartitionInfo.Replicas info))
    | None => one_error_of partitionInfo_formats w w'
    end.
Proof.
  intros Hc. unfold getPartitionInfoHandler. unfold bind at 1.
  destruct (validRequest_total H env p w Hc)
    as (ok & w1 & -> & Hwk & Hresp & _ & _).
  destruct ok; cbn [negb].
  2: { exists None, w1. split; [reflexivity|]. split; [exact Hwk|].
       apply one_error_of_more. exact Hresp. }
  assert (Hc1 : cache_ok (Client w1))
    by (destruct Hwk as [Hk _]; exact (kept_cache_ok _ _ _ _ Hk Hc)).
  unfold bind at 1.
  destruct (Client_FetchMetadata_answers env w1 Hc1) as (r & k2 & -> & _ & Hk2 & Hr).
  assert (Hw2 : forall out t,
            world_kept w {| Client := k2; MessageSize := MessageSize w1;
                            tick := t; response := out;
                            sessions := sessions w1 |}).
  { intros out t. eapply world_kept_trans; [exact Hwk|].
    split; [exact Hk2 | auto]. }
  assert (Hrefuse : forall status format arg,
            In format partitionInfo_formats ->
            exists (r : option responsePartitionInfo.t) w',
              refuse status format arg
                {| Client := k2; MessageSize := MessageSize w1;
                   tick := S (tick w1); response := response w1;
                   sessions := sessions w1 |} = Done r w' /\
              world_kept w w' /\
              match r with
              | Some info =>
                  response w' = response w /\
                  responsePartitionInfo.Topic info = Get p "topic" /\
                  responsePartitionInfo.Partition info
                    = toInt32 H (Get p "partition") /\
                  responsePartitionInfo.ReplicasNum info
                    = Z.of_nat (length (responsePartitionInfo.Replicas info))
              | None => one_error_of partitionInfo_formats w w'
              end).
  { intros status format arg Hin. eexists None, _. split; [reflexivity|].
    split; [apply Hw2|]. exists status, format, arg. cbn. rewrite Hresp. auto. }
  destruct Hr as [[meta ->]|[err ->]].
  2: { apply Hrefuse. in_formats. }
  destruct (Leader meta (Get p "topic") (toInt32 H (Get p "partition")))
    as [leader lerr] eqn:Hleader.
  pose proof (Replicas_error_is_Leader_error meta (Get p "topic")
                (toInt32 H (Get p "partition"))) as Hsame.
  rewrite Hleader in Hsame. cbn in Hsame.
  destruct lerr as [err|].
  { apply Hrefuse. in_formats. }
  destruct (Replicas meta (Get p "topic") (toInt32 H (Get p "partition")))
    as [replicas rerr]. cbn in Hsame. subst rerr.
  unfold bind at 1.
  match goal with
  | |- context [Client_GetOffsets env ?t ?pp ?ww] =>
      destruct (Client_GetOffsets_answers env t pp ww)
        as ([[oldest newest] oerr] & k3 & -> & Hk3)
  end.
  cbn [Client MessageSize tick response sessions] in Hk3.
  assert (Hw3 : forall out t,
            world_kept w {| Client := k3; MessageSize := MessageSize w1;
                            tick := t; response := out;
                            sessions := sessions w1 |}).
  { intros out t. eapply world_kept_trans; [exact Hwk|].
    split; [eapply kept_trans; eauto | auto]. }
  destruct oerr as [err|].
  { eexists None, _. split; [reflexivity|]. split; [apply Hw3|].
    eexists _, _, _. cbn. rewrite Hresp. split; [reflexivity | in_formats]. }
  destruct (WritablePartitions meta (Get p "topic")) as [wp [err|]].
  { eexists None, _. split; [reflexivity|]. split; [apply Hw3|].
    eexists _, _, _. cbn. rewrite Hresp. split; [reflexivity | in_formats]. }
  eexists (Some _), _. split; [reflexivity|]. split; [apply Hw3|].
  cbn. auto.
Qed.

Lemma topicInfo_loop_runs (meta : KafkaMetadata) (topic : string)
    (writable : list Z) (indices : list nat) :
  forall (res : list responsePartitionInfo.t) (w : World),
  exists r w',
    topicInfo_loop H env meta topic writable indices res w = Done r w' /\
    world_kept w w' /\
    match r with
    | Some res' =>
        response w' = response w /\
        exists new,
          res' = res ++ new /\
          map responsePartitionInfo.Partition new
            = map (fun i => int32 (Z.of_nat i)) indices /\
          Forall (fun e =>
                    responsePartitionInfo.Topic e = topic /\
                    responsePartitionInfo.Leader e
                      = fst (Leader meta topic (responsePartitionInfo.Partition e)) /\
                    responsePartitionInfo.Writable e
                      = inSlice H (responsePartitionInfo.Partition e) writable /\
                    responsePartitionInfo.ReplicasNum e
                      = Z.of_nat (length (responsePartitionInfo.Replicas e))) new
    | None =>
        one_error_of partitionInfo_formats w w' \/
        (response w' = response w /\ exists i, connIsAlive env i = false)
    end.
Proof.
  induction indices as [|i indices IH]; intros res w; cbn [topicInfo_loop].
  - eexists (Some res), w. split; [reflexivity|]. split; [apply world_kept_refl|].
    split; [reflexivity|]. exists []. rewrite app_nil_r. auto.
  - unfold bind at 1. unfold conn_alive, bind at 1, next at 1, ret at 1.
    cbn [Client MessageSize tick response sessions].
    destruct (connIsAlive env (tick w)) eqn:Halive; cbn [negb].
    2: { eexists None, _. split; [reflexivity|].
         split; [split; [apply kept_refl | auto]|].
         right. split; [reflexivity | eauto]. }
    destruct (Leader meta topic (int32 (Z.of_nat i))) as [leader lerr] eqn:Hleader.
    pose proof (Replicas_error_is_Leader_error meta topic (int32 (Z.of_nat i)))
      as Hsame.
    rewrite Hleader in Hsame. cbn in Hsame.
    destruct lerr as [err|].
    { eexists None, _. split; [reflexivity|].
      split; [split; [apply kept_refl | auto]|].
      left. eexists _, _, _. split; [reflexivity | in_formats]. }
    destruct (Replicas meta topic (int32 (Z.of_nat i))) as [replicas rerr].
    cbn in Hsame. subst rerr.
    unfold bind at 1.
    match goal with
    | |- context [Client_GetOffsets env ?t ?pp ?ww] =>
        destruct (Client_GetOffsets_answers env t pp ww)
          as ([[oldest newest] oerr] & k3 & -> & Hk3)
    end.
    cbn [Client MessageSize tick response sessions] in Hk3.
    destruct oerr as [err|].
    { eexists None, _. split; [reflexivity|].
      split; [split; [exact Hk3 | auto]|].
      left. eexists _, _, _. split; [reflexivity | in_formats]. }
    match goal with
    | |- context [topicInfo_loop H env meta topic writable indices ?rr ?ww] =>
        destruct (IH rr ww) as (r & w' & -> & Hwk & Hr)
    end.
    exists r, w'. split; [reflexivity|].
    assert (Hstep : world_kept w
              {| Client := k3; MessageSize := MessageSize w;
                 tick := S (S (tick w)); response := response w;
                 sessions := sessions w |})
      by (split; [exact Hk3 | auto]).
    split; [eapply world_kept_trans; eauto|].
    destruct r as [res'|].
    + destruct Hr as (Hresp & new & -> & Hmap & Hall).
      split; [exact Hresp|].
      eexists (_ :: new). rewrite <- app_assoc. split; [reflexivity|].
      split; [cbn; rewrite Hmap; reflexivity|].
      constructor; [|exact Hall]. cbn. rewrite Hleader. auto.
    + exact Hr.
Qed.

(** X27.  [getTopicInfoHandler] with a sound cache always returns, opens no
    session, leaves the size hints alone and loses no id of the pool.  It
    answers at most once: with a success value, with one error response,
    which is never the one for a failed listing of replicas, or, when the
    client connection is found dead, with nothing at all.  The entries of
    a success value are numbered 0, 1, 2, ... in order, as many as the
    topic has partition records in the snapshot fetched after the check of
    the request, whatever the ids of these records are; and each entry
    carries what [Leader] returns for its number, the default -1 when no
    record has that id. *)
Theorem getTopicInfoHandler_reports_indices (p : Values) (w : World) :
  cache_ok (Client w) ->
  exists r w',
    getTopicInfoHandler H env p w = Done r w' /\
    world_kept w w' /\
    match r with
    | Some res =>
        response w' = response w /\
        exists w1 meta k2 parts,
          validRequest H env p w = Done true w1 /\
          FetchMetadata (UnixNano env (tick w1)) (Broker_Metadata env (tick w1))
            (Client w1) = ((Some meta, None), k2) /\
          Partitions meta (Get p "topic") = (Some parts, None) /\
          map responsePartitionInfo.Partition res = index_numbers (length parts) /\
          Forall (fun e =>
                    responsePartitionInfo.Topic e = Get p "topic" /\
                    responsePartitionInfo.Leader e
                      = fst (Leader meta (Get p "topic")
                               (responsePartitionInfo.Partition e)) /\
                    responsePartitionInfo.ReplicasNum e
                      = Z.of_nat (length (responsePartitionInfo.Replicas e))) res
    | None =>
        one_error_of partitionInfo_formats w w' \/
        (response w' = response w /\ exists i, connIsAlive env i = false)
    end.
Proof.
  intros Hc. unfold getTopicInfoHandler. unfold bind at 1.
  destruct (validRequest_total H env p w Hc)
    as (ok & w1 & Hvalid & Hwk & Hresp & _ & _).
  rewrite Hvalid.
  destruct ok; cbn [negb].
  2: { exists None, w1. split; [reflexivity|]. split; [exact Hwk|].
       left. apply one_error_of_more. exact Hresp. }
  assert (Hc1 : cache_ok (Client w1))
    by (destruct Hwk as [Hk _]; exact (kept_cache_ok _ _ _ _ Hk Hc)).
  unfold bind at 1.
  destruct (Client_FetchMetadata_answers env w1 Hc1)
    as (r & k2 & -> & Hfetch & Hk2 & Hr).
  assert (Hw2 : world_kept w {| Client := k2; MessageSize := MessageSize w1;
                                tick := S (tick w1); response := response w1;
                                sessions := sessions w1 |}).
  { eapply world_kept_trans; [exact Hwk|]. split; [exact Hk2 | auto]. }
  assert (Hrefuse : forall status format arg,
            In format partitionInfo_formats ->
            exists (r : option (list responsePartitionInfo.t)) w',
              refuse status format arg
                {| Client := k2; MessageSize := MessageSize w1;
                   tick := S (tick w1); response := response w1;
                   sessions := sessions w1 |} = Done r w' /\
              world_kept w w' /\
              match r with
              | Some res =>
                  response w' = response w /\
                  exists w1' meta k2' parts,
                    Done true w1 = Done true w1' /\
                    FetchMetadata (UnixNano env (tick w1'))
                      (Broker_Metadata env (tick w1')) (Client w1')
                      = ((Some meta, None), k2') /\
                    Partitions meta (Get p "topic") = (Some parts, None) /\
                    map responsePartitionInfo.Partition res
                      = index_numbers (length parts) /\
                    Forall (fun e =>
                      responsePartitionInfo.Topic e = Get p "topic" /\
                      responsePartitionInfo.Leader e
                        = fst (Leader meta (Get p "topic")
                                 (responsePartitionInfo.Partition e)) /\
                      responsePartitionInfo.ReplicasNum e
                        = Z.of_nat (length (responsePartitionInfo.Replicas e))) res
              | None =>
                  one_error_of partitionInfo_formats w w' \/
                  (response w' = response w /\ exists i, connIsAlive env i = false)
              end).
  { intros status format arg Hin. eexists None, _. split; [reflexivity|].
    split; [destruct Hw2 as (Hk & Hs & Hm); split; [exact Hk | auto]|].
    left. exists status, format, arg. cbn. rewrite Hresp. auto. }
  destruct Hr as [[meta ->]|[err ->]].
  2: { apply Hrefuse. in_formats. }
  destruct (WritablePartitions meta (Get p "topic")) as [writable [err|]].
  { apply Hrefuse. in_formats. }
  destruct (Partitions meta (Get p "topic")) as [parts [err|]] eqn:Hparts.
  { apply Hrefuse. in_formats. }
  match goal with
  | |- context [topicInfo_loop H env meta ?t ?wr ?ix ?rr ?ww] =>
      destruct (topicInfo_loop_runs meta t wr ix rr ww) as (r & w' & -> & Hwk3 & Hr)
  end.
  exists r, w'. split; [reflexivity|].
  split; [eapply world_kept_trans; eauto|].
  destruct r as [res|].
  - destruct Hr as (Hresp3 & new & -> & Hmap & Hall). cbn in Hresp3.
    split; [congruence|].
    assert (Hsome : exists ps, parts = Some ps).
    { unfold Partitions, getPartitions in Hparts.
      rewrite getPartitions_loop_scan in Hparts.
      destruct (first_marker (Metadata meta)); [discriminate|].
      injection Hparts as <-. eauto. }
    destruct Hsome as (ps & ->). cbn in Hmap.
    exists w1, meta, k2, ps. split; [reflexivity|]. split; [exact Hfetch|].
    split; [exact Hparts|]. split; [exact Hmap|].
    eapply Forall_impl; [exact Hall|]. cbn. intros e (Ht & Hl & _ & Hn). auto.
  - destruct Hr as [Herr|[Hsame Hdead]].
    + left. eapply one_error_of_after; [|exact Herr]. exact Hresp.
    + right. split; [cbn in Hsame; congruence | exact Hdead].
Qed.

End InfoHandlers.

Lemma getTopicListHandler_needs_clean_snapshot_witness :
  getTopicListHandler (sample_env always_no_data) ∅ (sample_world ∅)
    = Done (Some [ {| responseTopicListInfo.Topic := "t";
                      responseTopicListInfo.Partitions := 1 |} ])
        {| Client := sample_client [1; 0]; MessageSize := ∅; tick := 1;
           response := []; sessions := [] |} /\
  getTopicListHandler trailing_marker_env ∅ (sample_world ∅)
    = Done None
        {| Client := sample_client [1; 0]; MessageSize := ∅; tick := 1;
           response := [ErrorResponse StatusInternalServerError
                          "Unable to get partitions: %v"
                          (Some ErrLeaderNotAvailable)];
           sessions := [] |} /\
  getTopicListHandler
    {| UnixNano := fun _ => 0;
       Broker_Metadata := fun _ => on_time (inl marked_metadata);
       Broker_Offsets := Broker_Offsets trailing_marker_env;
       Broker_Consumer := fun _ => None;
       Consumer_Consume := always_no_data;
       connIsAlive := fun _ => true |} ∅ (sample_world ∅)
    = Done None
        {| Client := sample_client [1; 0]; MessageSize := ∅; tick := 1;
           response := [ErrorResponse StatusInternalServerError
                          "Unable to get topics: %v"
                          (Some KafkaErrUnknownTopicOrPartition)];
           sessions := [] |}.
Proof.
  split; [|split].
  - destruct (getTopicListHandler_needs_clean_snapshot (sample_env always_no_data)
                ∅ (sample_world ∅) sample_metadata (sample_client [1; 0]) eq_refl)
      as (Hclean & _).
    apply Hclean. reflexivity.
  - destruct (getTopicListHandler_needs_clean_snapshot trailing_marker_env
                ∅ (sample_world ∅) trailing_marker_metadata
                (sample_client [1; 0]) eq_refl) as (_ & Hmarked & _).
    apply (Hmarked ErrLeaderNotAvailable).
    + reflexivity.
    + constructor; [left; reflexivity|].
      constructor; [right; reflexivity | constructor].
  - destruct (getTopicListHandler_needs_clean_snapshot
                {| UnixNano := fun _ => 0;
                   Broker_Metadata := fun _ => on_time (inl marked_metadata);
                   Broker_Offsets := Broker_Offsets trailing_marker_env;
                   Broker_Consumer := fun _ => None;
                   Consumer_Consume := always_no_data;
                   connIsAlive := fun _ => true |}
                ∅ (sample_world ∅) marked_metadata
                (sample_client [1; 0]) eq_refl) as (_ & _ & Hstop).
    apply (Hstop [] {| Name := "a";
                       TopicErr := Some KafkaErrUnknownTopicOrPartition;
                       TPartitions := [] |}
                 (Metadata sample_metadata) KafkaErrUnknownTopicOrPartition).
    + reflexivity.
    + constructor.
    + reflexivity.
    + discriminate.
Defined.

Lemma getPartitionInfoHandler_answers_once_witness :
  exists r w',
    getPartitionInfoHandler sample_helpers (sample_env always_no_data)
      (request "0" "1") (sample_world ∅) = Done r w' /\
    world_kept (sample_world ∅) w'.
Proof.
  destruct (getPartitionInfoHandler_answers_once sample_helpers
              (sample_env always_no_data) (request "0" "1") (sample_world ∅))
    as (r & w' & Hrun & Hk & _).
  - intros Hlt. vm_compute in Hlt. discriminate Hlt.
  - exists r, w'. auto.
Defined.

Lemma getTopicInfoHandler_reports_indices_witness :
  exists res w',
    getTopicInfoHandler sample_helpers sparse_env {[ "topic" := ["t"] ]}
      (sample_world ∅) = Done (Some res) w' /\
    map responsePartitionInfo.Partition res = [0; 1] /\
    map responsePartitionInfo.Leader res = [-1; -1] /\
    world_kept (sample_world ∅) w'.
Proof.
  destruct (getTopicInfoHandler_reports_indices sample_helpers sparse_env
              {[ "topic" := ["t"] ]} (sample_world ∅))
    as (r & w' & Hrun & Hk & _).
  - intros Hlt. vm_compute in Hlt. discriminate Hlt.
  - assert (Hres : exists res,
              r = Some res /\
              map responsePartitionInfo.Partition res = [0; 1] /\
              map responsePartitionInfo.Leader res = [-1; -1]).
    { vm_compute in Hrun. injection Hrun as <- _. eexists. split; [reflexivity|].
      split; reflexivity. }
    destruct Hres as (res & -> & Hp & Hl). exists res, w'. auto.
Defined.

(** ** Properties: the shape of a GET response *)

Lemma message_events_snoc (msgs : list string) (x : string) :
  msgs <> [] ->
  message_events (msgs ++ [x]) = message_events msgs ++ [Body comma; Body x].
Proof.
  destruct msgs as [|m rest]; [contradiction|]. intros _. cbn.
  rewrite flat_map_app. cbn. reflexivity.
Qed.

Lemma in_progress_output (base : list Out) (q : string) (limit : Z) (v : locals)
    (w : World) (out : list Out) :
  in_progress base q limit v w -> out = response w ->
  exists o, out = base ++ o /\ get_output q limit o.
Proof.
  intros (msgs & Hresp & Hne & Hcount & Hpos) ->. rewrite Hresp.
  destruct (v_successSent v).
  - eexists. split; [reflexivity|]. apply out_truncated; [exact Hne | lia].
  - exists []. split; [reflexivity | constructor].
Qed.

Lemma in_progress_error (base : list Out) (q : string) (limit : Z) (v : locals)
    (w : World) (out : list Out) (status : Z) (format : string)
    (arg : option error) :
  in_progress base q limit v w -> v_successSent v = false ->
  out = response w ++ [ErrorResponse status format arg] ->
  exists o, out = base ++ o /\ get_output q limit o.
Proof.
  intros (msgs & Hresp & Hne & Hcount & Hpos) Hsent ->. rewrite Hresp, Hsent.
  rewrite app_nil_r. eexists. split; [reflexivity | constructor].
Qed.

Section ResponseShape.
Context (H : Helpers) (env : Env) (Cfg : Config).

Lemma messageLoop_shape (base : list Out) (q : string) (limit offsetTo : Z)
    (fuel : nat) :
  forall c v w fl c' v' w',
  in_progress base q limit v w -> 1 <= v_length v <= max_int32 ->
  messageLoop env fuel q offsetTo c v w = Done (fl, c', v') w' ->
  match fl with
  | Returned => exists o, response w' = base ++ o /\ get_output q limit o
  | _ => in_progress base q limit v' w'
  end.
Proof.
  induction fuel as [|fuel IH]; intros c v w fl c' v' w' Hinv Hlen; [discriminate|].
  cbn [messageLoop]. unfold_monad. cbn.
  destruct (negb (connIsAlive env (tick w))); cbn.
  - destruct (KafkaConsumer.Close c (Client w)) as [c2 k2]. cbn.
    intros [= <- <- <- <-]. cbn.
    apply (in_progress_output base q limit v w); [exact Hinv | reflexivity].
  - destruct (KafkaConsumer.Message _ c (Client w)) as [[[msg|err] c1] k1]; cbn.
    + assert (Hnext : forall w1,
        response w1 = response w ++
          (if negb (v_successSent v) then header_events q else [Body comma])
          ++ [Body (Value msg)] ->
        in_progress base q limit (after_message v msg) w1).
      { intros w1 Hresp. destruct Hinv as (msgs & Hw & Hne & Hcount & Hpos).
        exists (msgs ++ [Value msg]). cbn. rewrite (sub32_pred _ Hlen).
        rewrite Hresp, Hw, length_app. cbn.
        split; [|split; [|split; [lia | lia]]].
        - destruct (v_successSent v); cbn.
          + rewrite (message_events_snoc _ _ Hne). rewrite <- !app_assoc.
            reflexivity.
          + subst msgs. cbn. rewrite app_nil_r. reflexivity.
        - intros Hx. apply app_eq_nil in Hx. destruct Hx as [_ Hx].
          discriminate Hx. }
      destruct (negb (v_successSent v)) eqn:Hneg; cbn;
        (destruct ((add64 (Offset msg) 1 >=? offsetTo) || (sub32 (v_length v) 1 =? 0))
           eqn:Hcond;
         [ cbn; destruct (KafkaConsumer.Close c1 k1) as [c2 k2]; cbn;
           intros [= <- <- <- <-]; apply Hnext; cbn;
           rewrite <- ?app_assoc; reflexivity
         | intros Hrun; apply (IH _ _ _ _ _ _ _) in Hrun;
           [ exact Hrun
           | apply Hnext; cbn; rewrite <- ?app_assoc; reflexivity
           | cbn; apply orb_false_elim in Hcond; destruct Hcond as [_ Hz];
             apply Z.eqb_neq in Hz; rewrite (sub32_pred _ Hlen) in *; lia ] ]).
    + destruct (bool_decide (err = KafkaErrNoData)); cbn.
      * intros [= <- <- <- <-]. exact Hinv.
      * destruct (negb (v_successSent v)) eqn:Hneg; cbn;
          destruct (KafkaConsumer.Close c1 k1) as [c2 k2]; cbn;
          intros [= <- <- <- <-]; cbn.
        -- eapply in_progress_error; [exact Hinv | | reflexivity].
           destruct (v_successSent v); [discriminate Hneg | reflexivity].
        -- apply (in_progress_output base q limit v w); [exact Hinv | reflexivity].
Qed.

Lemma round_shape (base : list Out) (q : string) (limit : Z) (fuel : nat)
    (topic : string) (partition offsetTo : Z) (v : locals) (w : World)
    (fl : flow) (v' : locals) (w' : World) :
  in_progress base q limit v w -> 1 <= v_length v <= max_int32 ->
  round env Cfg fuel topic partition q offsetTo v w = Done (fl, v') w' ->
  match fl with
  | Returned => exists o, response w' = base ++ o /\ get_output q limit o
  | _ => in_progress base q limit v' w'
  end.
Proof.
  intros Hinv Hlen. unfold round. unfold_monad. cbn.
  destruct (NewConsumer _ _ _ _ _ _) as [[consumer|err] k1].
  - match goal with
    | |- context [messageLoop ?e ?f ?qq ?o ?c ?vv ?ww] =>
        destruct (messageLoop e f qq o c vv ww) as [[[fl1 c1] v1] w1| |] eqn:Hloop
    end; try discriminate.
    apply (messageLoop_shape base q limit) in Hloop; [|exact Hinv|exact Hlen].
    destruct fl1.
    + destruct (KafkaConsumer.Close c1 (Client w1)) as [c2 k2]. cbn.
      unfold growSize. cbn.
      destruct (v_notEnoughSize v1); [destruct (_ >=? _)|];
        intros [= <- <- <-]; exact Hloop.
    + intros [= <- <- <-]. exact Hloop.
    + intros [= <- <- <-]. exact Hloop.
  - destruct (negb (v_successSent v)) eqn:Hneg; cbn; intros [= <- <- <-]; cbn.
    + eapply in_progress_error; [exact Hinv | | reflexivity].
      destruct (v_successSent v); [discriminate Hneg | reflexivity].
    + apply (in_progress_output base q limit v w); [exact Hinv | reflexivity].
Qed.

Lemma consumeLoop_shape (base : list Out) (q : string) (limit : Z)
    (topic : string) (partition offsetTo : Z) (fuel : nat) :
  forall v w fl v' w',
  in_progress base q limit v w -> 1 <= v_length v <= max_int32 ->
  consumeLoop env Cfg fuel topic partition q offsetTo v w = Done (fl, v') w' ->
  match fl with
  | Returned => exists o, response w' = base ++ o /\ get_output q limit o
  | _ => in_progress base q limit v' w'
  end.
Proof.
  induction fuel as [|fuel IH]; intros v w fl v' w' Hinv Hlen; [discriminate|].
  cbn [consumeLoop]. unfold bind.
  destruct (round env Cfg fuel topic partition q offsetTo v w)
    as [[fl1 v1] w1| |] eqn:Hround; try discriminate.
  pose proof (round_facts _ _ _ _ _ _ _ _ _ _ _ _ Hround) as (_ & _ & _ & _ & Hl).
  destruct (Hl Hlen) as [Hle Hone].
  apply (round_shape base q limit) in Hround; [|exact Hinv|exact Hlen].
  destruct fl1.
  - apply IH; [exact Hround|]. specialize (Hone eq_refl). lia.
  - unfold ret. intros [= <- <- <-]. exact Hround.
  - unfold ret. intros [= <- <- <-]. exact Hround.
Qed.

Lemma finish_response (topic q : string) (v : locals) (w : World) :
  exists w',
    finish topic q v w = Done tt w' /\
    response w' = response w
                  ++ (if v_successSent v then [] else header_events q)
                  ++ [Body close_all; EndResponseSuccess].
Proof.
  unfold finish. unfold_monad.
  destruct (v_successSent v); cbn; destruct (v_maxSize v >? 0); cbn;
    eexists; (split; [reflexivity|]); cbn; rewrite <- ?app_assoc; reflexivity.
Qed.

Lemma readMessages_shape (fuel : nat) (topic : string) (partition : Z)
    (q : string) (offset offsetTo limit : Z) (w w' : World) :
  1 <= limit <= max_int32 ->
  readMessages env Cfg fuel topic partition q offset offsetTo limit w
    = Done tt w' ->
  exists o, response w' = response w ++ o /\ get_output q limit o.
Proof.
  intros Hlimit. unfold readMessages. unfold bind at 1. unfold MessageSize_Get at 1.
  unfold bind at 1.
  match goal with
  | |- context [consumeLoop ?e ?c ?f ?t ?pp ?qq ?o ?vv ?ww] =>
      destruct (consumeLoop e c f t pp qq o vv ww) as [[fl v1] w1| |] eqn:Hloop
  end; try discriminate.
  apply (consumeLoop_shape (response w) q limit) in Hloop.
  2: { exists []. cbn. rewrite app_nil_r. split; [reflexivity|].
       split; [reflexivity|]. lia. }
  2: { cbn. exact Hlimit. }
  assert (Hclosed : in_progress (response w) q limit v1 w1 ->
            forall w2, response w2 = response w1
                         ++ (if v_successSent v1 then [] else header_events q)
                         ++ [Body close_all; EndResponseSuccess] ->
            exists o, response w2 = response w ++ o /\ get_output q limit o).
  { intros (msgs & Hresp & Hne & Hcount & Hpos) w2 Hw2.
    exists (header_events q ++ message_events msgs
            ++ [Body close_all; EndResponseSuccess]).
    split; [|apply out_complete; lia].
    rewrite Hw2, Hresp. destruct (v_successSent v1).
    - cbn. rewrite <- !app_assoc. reflexivity.
    - subst msgs. cbn. rewrite app_nil_r. reflexivity. }
  destruct fl.
  - unfold bind. destruct (finish_response topic q v1 w1) as (w2 & -> & Hw2).
    destruct (run_deferred_frame (v_deferred v1) w2) as (k3 & ->).
    intros [= <-]. cbn. exact (Hclosed Hloop w2 Hw2).
  - unfold bind. destruct (finish_response topic q v1 w1) as (w2 & -> & Hw2).
    destruct (run_deferred_frame (v_deferred v1) w2) as (k3 & ->).
    intros [= <-]. cbn. exact (Hclosed Hloop w2 Hw2).
  - destruct (run_deferred_frame (v_deferred v1) w1) as (k3 & ->).
    intros [= <-]. cbn. exact Hloop.
Qed.


Lemma validRequest_response (p : Values) (w w' : World) (ok : bool) :
  validRequest H env p w = Done ok w' ->
  if ok then response w' = response w else one_error w w'.
Proof.
  unfold validRequest. unfold_monad. cbn.
  crack; intros Heq; try discriminate Heq; injection Heq as <-; cbn;
    first [reflexivity | eexists _, _, _; reflexivity].
Qed.


End ResponseShape.


(** ** Properties: the start offset of a read *)

Lemma int64_range (x : Z) : is_int64 (int64 x).
Proof.
  unfold is_int64, min_int64, max_int64, int64, wrap.
  change (2 ^ (64 - 1)) with 9223372036854775808.
  change (2 ^ 64) with 18446744073709551616.
  change (- 2 ^ 63) with (-9223372036854775808).
  change (2 ^ 63 - 1) with 9223372036854775807.
  pose proof (Z.mod_pos_bound (x + 9223372036854775808) 18446744073709551616) as Hm.
  lia.
Qed.

Lemma int64_overflow (x : Z) :
  max_int64 < x <= 2 * max_int64 + 1 -> int64 x = x - 2 ^ 64.
Proof.
  unfold max_int64, int64, wrap.
  change (2 ^ (64 - 1)) with 9223372036854775808.
  change (2 ^ 64) with 18446744073709551616.
  change (2 ^ 63 - 1) with 9223372036854775807.
  intros Hx.
  replace (x + 9223372036854775808)
    with (x - 9223372036854775808 + 1 * 18446744073709551616) by lia.
  rewrite Z.mod_add by lia. rewrite Z.mod_small; lia.
Qed.

Section StartOffset.
Context (H : Helpers).

(** X29.  A relative position addresses exactly the stored messages.  For
    offset bounds [0 <= offsetFrom <= offsetTo] and a request with a
    [relative] parameter, read as the [int64] [relative]: a position that
    is not negative passes the range check of [getHandler] exactly when it
    is less than the number of stored messages, and then counts from the
    oldest offset; a negative position passes it exactly when its absolute
    value is at most that number, and then counts back from the newest
    offset.  A sum that leaves [int64] wraps around and is refused. *)
Theorem relative_addresses_stored_messages (p : Values) (offsetFrom offsetTo : Z) :
  Get p "relative" <> "" ->
  0 <= offsetFrom <= offsetTo -> offsetTo <= max_int64 ->
  let relative := toInt64 H (Get p "relative") in
  let offset := resolveOffset H p offsetFrom offsetTo in
  (0 <= relative ->
   (outOfRange offset offsetFrom offsetTo = false
    <-> relative < offsetTo - offsetFrom) /\
   (outOfRange offset offsetFrom offsetTo = false ->
    offset = offsetFrom + relative)) /\
  (relative < 0 ->
   (outOfRange offset offsetFrom offsetTo = false
    <-> - relative <= offsetTo - offsetFrom) /\
   (outOfRange offset offsetFrom offsetTo = false ->
    offset = offsetTo + relative)).
Proof.
  intros Hrel Hb Hmax relative offset.
  pose proof (int64_range (toInt64_raw H (Get p "relative"))) as Hr.
  fold (toInt64 H (Get p "relative")) in Hr. fold relative in Hr.
  unfold is_int64, min_int64, max_int64 in *.
  assert (Hoff : offset = if relative >=? 0 then add64 offsetFrom relative
                          else add64 offsetTo relative).
  { unfold offset, resolveOffset.
    rewrite (bool_decide_eq_false_2 _ Hrel). reflexivity. }
  assert (Hout : forall o, outOfRange o offsetFrom offsetTo = false
                           <-> offsetFrom <= o < offsetTo).
  { intros o. unfold outOfRange.
    destruct (Z.ltb_spec o offsetFrom); destruct (Z.geb_spec o offsetTo); cbn;
      split; intros Hx; first [discriminate Hx | lia | reflexivity]. }
  split; intros Hsign.
  - destruct (Z.geb_spec relative 0); [|lia].
    destruct (Z_le_gt_dec (offsetFrom + relative) (2 ^ 63 - 1)) as [Hfit|Hover].
    + assert (Hadd : add64 offsetFrom relative = offsetFrom + relative).
      { unfold add64. apply int64_id. unfold is_int64, min_int64, max_int64. lia. }
      rewrite Hoff, Hadd, Hout. split; [lia | auto].
    + assert (Hadd : add64 offsetFrom relative = offsetFrom + relative - 2 ^ 64).
      { unfold add64. apply int64_overflow. unfold max_int64. lia. }
      rewrite Hoff, Hadd, Hout. split; [lia | intros; lia].
  - destruct (Z.geb_spec relative 0); [lia|].
    assert (Hadd : add64 offsetTo relative = offsetTo + relative).
    { unfold add64. apply int64_id. unfold is_int64, min_int64, max_int64. lia. }
    rewrite Hoff, Hadd, Hout. split; [lia | auto].
Qed.

End StartOffset.

Lemma relative_addresses_stored_messages_witness :
  outOfRange (resolveOffset sample_helpers {[ "relative" := ["1"] ]} 10 12) 10 12
    = false /\
  resolveOffset sample_helpers {[ "relative" := ["1"] ]} 10 12 = 11.
Proof.
  destruct (relative_addresses_stored_messages sample_helpers
              {[ "relative" := ["1"] ]} 10 12) as [Hpos _].
  - vm_compute. discriminate.
  - lia.
  - vm_compute. discriminate.
  - destruct Hpos as [Hiff Hval]; [vm_compute; discriminate|].
    assert (Hin : outOfRange
                    (resolveOffset sample_helpers {[ "relative" := ["1"] ]} 10 12)
                    10 12 = false).
    { apply Hiff. vm_compute. reflexivity. }
    split; [exact Hin|]. rewrite (Hval Hin). reflexivity.
Defined.

(** ** Properties: the count and the fetch budget of a read *)

Section CountAndBudget.
Context (H : Helpers) (env : Env) (Cfg : Config).

Lemma Client_NewConsumer_logs (cfg : Config) (topic : string)
    (partition offset : Z) (w w0 : World) (r : KafkaConsumer.t + error) :
  Client_NewConsumer env cfg topic partition offset w = Done r w0 ->
  sessions w0 = sessions w ++ [(Consumer_MaxFetchSize cfg, offset)] /\
  response w0 = response w.
Proof.
  unfold_monad. cbn.
  destruct (NewConsumer _ _ _ _ _ _) as [r' k']. intros [= _ <-]. cbn. auto.
Qed.

Lemma one_message_read (p : Values) (fuel : nat) (w w1 w2 w3 : World)
    (offsetFrom offsetTo : Z) (q : string) (c c1 : KafkaConsumer.t)
    (k1 : KafkaClient) (msg : ProtoMessage) :
  let topic := Get p "topic" in
  let partition := toInt32 H (Get p "partition") in
  let offset := resolveOffset H p offsetFrom offsetTo in
  let size := default (Consumer_DefaultFetchSize Cfg) (MessageSize w2 !! topic) in
  limitOf H p = 1 ->
  validRequest H env p w = Done true w1 ->
  Client_GetOffsets env topic partition w1 = Done (offsetFrom, offsetTo, None) w2 ->
  outOfRange offset offsetFrom offsetTo = false ->
  json_Marshal H {| Topic := topic; Partition := partition; QueryOffset := offset |}
    = inl q ->
  Client_NewConsumer env (with_MaxFetchSize Cfg (fetchBudget Cfg size 1))
    topic partition offset w2 = Done (inl c) w3 ->
  connIsAlive env (tick w3) = true ->
  KafkaConsumer.Message (Consumer_Consume env (S (tick w3))) c (Client w3)
    = (inl msg, c1, k1) ->
  exists w',
    getHandler H env Cfg (S (S fuel)) p w = Done tt w' /\
    response w' = response w ++ header_events q ++ [Body (Value msg)]
                  ++ [Body close_all; EndResponseSuccess] /\
    sessions w' = sessions w ++ [(fetchBudget Cfg size 1, offset)].
Proof.
  intros topic partition offset size Hl Hvalid Hoffsets Hrange Hmarshal Hnew
    Halive Hmsg.
  destruct (validRequest_true _ _ _ _ _ Hvalid) as [Hr1 Hs1].
  destruct (Client_GetOffsets_frame _ _ _ _ _ _ Hoffsets) as [Hr2 Hs2].
  destruct (Client_NewConsumer_logs _ _ _ _ _ _ _ Hnew) as [Hs3 Hr3].
  cbn in Hs3.
  unfold getHandler. unfold bind at 1. rewrite Hvalid. cbn [negb].
  unfold bind at 1. fold topic partition. rewrite Hoffsets.
  fold offset. rewrite Hrange, Hmarshal, Hl.
  unfold readMessages. unfold bind at 1. unfold MessageSize_Get at 1.
  fold size. unfold bind at 1. cbn [consumeLoop]. unfold bind at 1.
  unfold round at 1. cbn [v_size v_length v_offset v_successSent]. unfold bind at 1.
  rewrite Hnew.
  set (v0 := {| v_offset := offset; v_length := 1; v_size := size; v_maxSize := 0;
                v_notEnoughSize := false; v_successSent := false;
                v_deferred := [] |}).
  assert (Hloop : exists c' k',
            messageLoop env (S fuel) q offsetTo c v0 w3
              = Done (BreakConsumeLoop, c', after_message v0 msg)
                  {| Client := k'; MessageSize := MessageSize w3;
                     tick := S (S (tick w3));
                     response := response w3 ++ header_events q
                                 ++ [Body (Value msg)];
                     sessions := sessions w3 |}).
  { cbn [messageLoop]. unfold_monad. cbn. rewrite Halive. cbn. rewrite Hmsg. cbn.
    change (sub32 1 1 =? 0) with true. rewrite orb_true_r. cbn.
    destruct (KafkaConsumer.Close c1 k1) as [c2 k2]. cbn.
    exists c2, k2. unfold header_events. rewrite <- !app_assoc. reflexivity. }
  destruct Hloop as (c' & k' & Hloop).
  rewrite (bind_Done (messageLoop env (S fuel) q offsetTo c v0) _ w3 _ _ Hloop).
  unfold ret at 1. unfold ret at 1.
  set (v1 := defer_Close (after_message v0 msg) c').
  unfold bind at 1.
  match goal with
  | |- context [finish topic q v1 ?ww] =>
      destruct (finish_response topic q v1 ww) as (w5 & Hf & Hr5);
      destruct (finish_frame topic q v1 ww) as (w5' & Hf' & Hs5 & _)
  end.
  rewrite Hf in Hf'. injection Hf' as <-. rewrite Hf.
  destruct (run_deferred_frame (v_deferred v1) w5) as (k6 & ->).
  eexists. split; [reflexivity|]. cbn [response sessions].
  split.
  - rewrite Hr5. cbn. rewrite Hr3, Hr2, Hr1. rewrite <- !app_assoc. reflexivity.
  - rewrite Hs5. cbn. rewrite Hs3, Hs2, Hs1. reflexivity.
Qed.

(** C10.  A GET request whose [limit] parameter is absent, or converts to a
    value that is not positive, is read with [length = 1] and not
    rejected.  Whatever the broker does, what the handler adds to the
    response holds at most one message.  When the request is valid, its
    offset in range and its echo marshalled, the handler opens a consumer
    with the fetch budget of one message, and when that consumer delivers
    a message the handler writes the header, this one message and the
    closing bytes, ends the response with success and has opened that one
    session only, however many messages are stored behind it.  The handler
    does exactly what it does for the same request with [limit=1].  The
    conversion helper is taken to read "1" as 1. *)
Theorem limit_defaults_to_one (p : Values) :
  toInt32 H "1" = 1 ->
  Get p "limit" = "" \/ toInt32 H (Get p "limit") <= 0 ->
  limitOf H p = 1 /\
  (forall (fuel : nat) (w w' : World),
     getHandler H env Cfg fuel p w = Done tt w' ->
     exists q o, response w' = response w ++ o /\ get_output q 1 o) /\
  (forall (fuel : nat) (w w1 w2 w3 : World) (offsetFrom offsetTo : Z)
          (q : string) (c c1 : KafkaConsumer.t) (k1 : KafkaClient)
          (msg : ProtoMessage),
     let topic := Get p "topic" in
     let partition := toInt32 H (Get p "partition") in
     let offset := resolveOffset H p offsetFrom offsetTo in
     let size :=
       default (Consumer_DefaultFetchSize Cfg) (MessageSize w2 !! topic) in
     validRequest H env p w = Done true w1 ->
     Client_GetOffsets env topic partition w1
       = Done (offsetFrom, offsetTo, None) w2 ->
     outOfRange offset offsetFrom offsetTo = false ->
     json_Marshal H {| Topic := topic; Partition := partition;
                       QueryOffset := offset |} = inl q ->
     Client_NewConsumer env (with_MaxFetchSize Cfg (fetchBudget Cfg size 1))
       topic partition offset w2 = Done (inl c) w3 ->
     connIsAlive env (tick w3) = true ->
     KafkaConsumer.Message (Consumer_Consume env (S (tick w3))) c (Client w3)
       = (inl msg, c1, k1) ->
     exists w',
       getHandler H env Cfg (S (S fuel)) p w = Done tt w' /\
       response w' = response w ++ header_events q ++ [Body (Value msg)]
                     ++ [Body close_all; EndResponseSuccess] /\
       sessions w' = sessions w ++ [(fetchBudget Cfg size 1, offset)]) /\
  (forall (fuel : nat) (w : World),
     getHandler H env Cfg fuel p w
       = getHandler H env Cfg fuel (<["limit" := ["1"]]> p) w).
Proof.
  intros Hone Hlimit.
  destruct (limit_one_equivalence H env Cfg p Hone Hlimit) as (Hl & Hsame & _).
  split; [exact Hl|]. split; [|split; [|exact Hsame]].
  - intros fuel w w' Hrun.
    destruct (validRequest H env p w) as [ok w1| |] eqn:Hvalid;
      unfold getHandler in Hrun; unfold bind at 1 in Hrun;
      rewrite Hvalid in Hrun; try discriminate Hrun.
    apply validRequest_response in Hvalid.
    destruct ok; cbn [negb] in Hrun.
    + unfold bind at 1 in Hrun.
      destruct (Client_GetOffsets_answers env (Get p "topic")
                  (toInt32 H (Get p "partition")) w1)
        as ([[from to] err] & k2 & Hoff & _).
      rewrite Hoff in Hrun.
      destruct err as [err|].
      * revert Hrun. unfold_monad. intros [= <-]. cbn. rewrite Hvalid.
        eexists "", _. split; [reflexivity | constructor].
      * destruct (outOfRange _ _ _).
        -- revert Hrun. unfold_monad. intros [= <-]. cbn. rewrite Hvalid.
           eexists "", _. split; [reflexivity | constructor].
        -- destruct (json_Marshal H _) as [queryStr|err].
           ++ rewrite Hl in Hrun.
              apply readMessages_shape in Hrun; [|unfold max_int32; lia].
              cbn in Hrun. rewrite Hvalid in Hrun.
              destruct Hrun as (o & Hresp & Hout). exists queryStr, o. auto.
           ++ revert Hrun. unfold_monad. intros [= <-]. cbn. rewrite Hvalid.
              eexists "", _. split; [reflexivity | constructor].
    + revert Hrun. unfold ret. intros [= <-].
      destruct Hvalid as (s & f & a & ->).
      eexists "", _. split; [reflexivity | constructor].
  - intros fuel w w1 w2 w3 offsetFrom offsetTo q c c1 k1 msg.
    apply one_message_read. exact Hl.
Qed.

(** X30.  A round of [ConsumeLoop] whose consumer opens and whose first
    read is answered "no data", with the connection alive: the round asks
    for that one session and writes nothing; it keeps the offset and the
    count; when [size] has reached the maximal fetch size it leaves the
    loop with [size] as it was, and otherwise it hands over to the next
    round with [size] the wrapping 32-bit sum of [size] and the default
    fetch size, which is [size] plus the default fetch size whenever the
    default fetch size is not negative and the maximum plus the default
    fetch size does not pass 2^31. *)
Theorem no_data_round_grows_size (fuel : nat) (topic : string)
    (partition : Z) (q : string) (offsetTo : Z) (v : locals) (w w0 : World)
    (c c1 : KafkaConsumer.t) (k1 : KafkaClient) :
  Client_NewConsumer env
    (with_MaxFetchSize Cfg (fetchBudget Cfg (v_size v) (v_length v)))
    topic partition (v_offset v) w = Done (inl c) w0 ->
  connIsAlive env (tick w0) = true ->
  KafkaConsumer.Message (Consumer_Consume env (S (tick w0))) c (Client w0)
    = (inr KafkaErrNoData, c1, k1) ->
  exists v' w',
    round env Cfg (S fuel) topic partition q offsetTo v w
      = Done (if v_size v >=? Consumer_MaxFetchSize Cfg
              then BreakConsumeLoop else NextRound, v') w' /\
    v_size v' = (if v_size v >=? Consumer_MaxFetchSize Cfg then v_size v
                 else add32 (v_size v) (Consumer_DefaultFetchSize Cfg)) /\
    v_offset v' = v_offset v /\ v_length v' = v_length v /\
    response w' = response w /\
    sessions w' = sessions w
                  ++ [(fetchBudget Cfg (v_size v) (v_length v), v_offset v)] /\
    (v_size v < Consumer_MaxFetchSize Cfg ->
     0 <= Consumer_DefaultFetchSize Cfg ->
     Consumer_MaxFetchSize Cfg + Consumer_DefaultFetchSize Cfg <= 2 ^ 31 ->
     min_int32 <= v_size v ->
     v_size v' = v_size v + Consumer_DefaultFetchSize Cfg).
Proof.
  intros Hnew Halive Hmsg.
  destruct (Client_NewConsumer_logs _ _ _ _ _ _ _ Hnew) as [Hs0 Hr0].
  cbn in Hs0.
  assert (Hloop :
    messageLoop env (S fuel) q offsetTo c v w0
      = Done (NextRound, c1, set_notEnoughSize v true)
          {| Client := k1; MessageSize := MessageSize w0;
             tick := S (S (tick w0)); response := response w0;
             sessions := sessions w0 |}).
  { cbn [messageLoop]. unfold_monad. cbn. rewrite Halive. cbn. rewrite Hmsg. cbn.
    rewrite bool_decide_eq_true_2 by reflexivity. reflexivity. }
  unfold round. rewrite (bind_Done _ _ _ _ _ Hnew).
  rewrite (bind_Done _ _ _ _ _ Hloop).
  unfold bind, consumer_Close, on_client, ret.
  cbn [Client MessageSize tick response sessions].
  destruct (KafkaConsumer.Close c1 k1) as [c2 k2].
  unfold growSize. cbn [v_notEnoughSize defer_Close set_notEnoughSize v_size].
  destruct (Z.geb_spec (v_size v) (Consumer_MaxFetchSize Cfg)) as [Hge|Hlt].
  - eexists _, _. split; [reflexivity|]. cbn. split_and!; auto. intros; lia.
  - eexists _, _. split; [reflexivity|]. cbn. split_and!; auto.
    intros _ HD HGD Hmin. unfold add32. apply int32_id.
    unfold is_int32, min_int32, max_int32 in *. lia.
Qed.

End CountAndBudget.

(** C7.  The fetch budget is not the minimum of [size * length] and the
    maximal fetch size: the product is taken in 32 bits before it is
    compared with the maximum, and a product that leaves 32 bits passes
    the comparison.  With the default settings and no size hint for the
    topic, [size] is 524288: for a count of 4095 the budget is the maximum,
    4194304; for a count of 4096 the product 2^31 wraps and the budget is
    -2147483648.  A GET request with [limit=4096] that is answered "no
    data" throughout opens its eight consumers with the budgets
    -2147483648 and 0 in turn, never with 4194304, and ends with an empty
    list of messages. *)
Theorem fetchBudget_overflow_defeats_the_cap :
  fetchBudget SetDefaults 524288 4095 = 4194304 /\
  fetchBudget SetDefaults 524288 4096 = -2147483648 /\
  Z.min (524288 * 4096) (Consumer_MaxFetchSize SetDefaults) = 4194304 /\
  limitOf sample_helpers (request "0" "4096") = 4096 /\
  exists w',
    getHandler sample_helpers (sample_env always_no_data) SetDefaults 30
      (request "0" "4096") (sample_world ∅) = Done tt w' /\
    sessions w' = [(-2147483648, 0); (0, 0); (-2147483648, 0); (0, 0);
                   (-2147483648, 0); (0, 0); (-2147483648, 0); (0, 0)] /\
    response w' = header_events "t" ++ [Body close_all; EndResponseSuccess].
Proof.
  split; [reflexivity|]. split; [reflexivity|]. split; [reflexivity|].
  split; [reflexivity|].
  eexists. split; [vm_compute; reflexivity|]. split; reflexivity.
Qed.

Lemma limit_defaults_to_one_witness :
  limitOf sample_helpers {[ "topic" := ["t"]; "partition" := ["0"] ]} = 1 /\
  limitOf sample_helpers (request "0" "-3") = 1 /\
  exists w',
    getHandler sample_helpers (sample_env message_then_error) SetDefaults 2
      (request "0" "-3") (sample_world ∅) = Done tt w' /\
    response w' = header_events "t" ++ [Body "{}"]
                  ++ [Body close_all; EndResponseSuccess] /\
    sessions w' = [(524288, 0)].
Proof.
  split.
  - apply (limit_defaults_to_one sample_helpers (sample_env always_no_data)
             SetDefaults).
    + reflexivity.
    + left. reflexivity.
  - destruct (limit_defaults_to_one sample_helpers (sample_env message_then_error)
                SetDefaults (request "0" "-3")) as (Hl & _ & Hread & _).
    + reflexivity.
    + right. vm_compute. discriminate.
    + split; [exact Hl|].
      set (w1 := world_after
             (validRequest sample_helpers (sample_env message_then_error)
                (request "0" "-3") (sample_world ∅)) (sample_world ∅)).
      set (w2 := world_after
             (Client_GetOffsets (sample_env message_then_error) "t" 0 w1)
             (sample_world ∅)).
      set (w3 := world_after
             (Client_NewConsumer (sample_env message_then_error)
                (with_MaxFetchSize SetDefaults (fetchBudget SetDefaults 524288 1))
                "t" 0 0 w2) (sample_world ∅)).
      destruct (Hread 0%nat (sample_world ∅) w1 w2 w3 0 2 "t" open_consumer
                  open_consumer (Client w3) {| Offset := 0; Value := "{}" |})
        as (w' & Hrun & Hresp & Hsess);
        try (vm_compute; reflexivity).
      exists w'. split; [exact Hrun|]. split; [exact Hresp | exact Hsess].
Defined.

Lemma no_data_round_grows_size_witness :
  exists v' w',
    round (sample_env always_no_data) SetDefaults 1 "t" 0 "t" 2
      (first_read 524288) (sample_world ∅) = Done (NextRound, v') w' /\
    v_size v' = 1048576 /\ sessions w' = [(524288, 0)].
Proof.
  set (w0 := world_after
         (Client_NewConsumer (sample_env always_no_data)
            (with_MaxFetchSize SetDefaults (fetchBudget SetDefaults 524288 1))
            "t" 0 0 (sample_world ∅)) (sample_world ∅)).
  destruct (no_data_round_grows_size (sample_env always_no_data) SetDefaults
              0%nat "t" 0 "t" 2 (first_read 524288) (sample_world ∅) w0
              open_consumer open_consumer (Client w0))
    as (v' & w' & Hrun & Hsize & _ & _ & _ & Hsess & Hgrow);
    try (vm_compute; reflexivity).
  exists v', w'. split; [exact Hrun|]. split; [|exact Hsess].
  apply Hgrow; vm_compute; first [reflexivity | discriminate].
Defined.
